(** * A shallow embedding of the court-booking bot

    The development follows the Python sources module by module:

    - [Py]: the fragments of the Python runtime the program relies on
      (exceptions, [str], [datetime.strptime]/[strftime], [timedelta]);
    - [Database]: [database.py], the [requests] table and its operations;
    - [BookingScraper]: [booking_scraper.py], the browser-driven engine,
      written in a state-and-exception monad over an abstract web driver;
    - [BookingScheduler]: [scheduler.py], the daily batch run;
    - [Main]: [main.py], the handlers of the Telegram commands;

    followed by the properties proved about them. *)

From Stdlib Require Import ZArith List String Ascii Bool Arith Lia.
From Stdlib Require Import Sorted Permutation DecimalString.
Import ListNotations.
Open Scope string_scope.
Open Scope nat_scope.

(* ===================================================================== *)
(** * Python runtime fragments                                            *)
(* ===================================================================== *)

Module Py.

(** The exception classes the sources distinguish in their [except]
    clauses.  All are subclasses of [Exception]; [OtherException] stands for
    every other subclass of [Exception] (a [WebDriverException], a stale
    element, a database error, ...). *)
Inductive exn_class : Type :=
| TimeoutException
| NoSuchElementException
| ValueError
| AttributeError
| OtherException.

(** An exception value: its class and [str(e)]. *)
Record exn : Type := mk_exn { exn_cls : exn_class; exn_str : string }.

(** The result of evaluating a Python expression or block: a value, or a
    raised exception. *)
Inductive res (A : Type) : Type :=
| Ok (a : A)
| Raise (e : exn).
Arguments Ok {A} a.
Arguments Raise {A} e.

Definition exn_class_eqb (a b : exn_class) : bool :=
  match a, b with
  | TimeoutException, TimeoutException
  | NoSuchElementException, NoSuchElementException
  | ValueError, ValueError
  | AttributeError, AttributeError
  | OtherException, OtherException => true
  | _, _ => false
  end.

(** [str(n)] for an [int]. *)
Definition str_int (z : Z) : string := NilZero.string_of_int (Z.to_int z).

(** ["%02d" % n], the zero padding [strftime] applies to [%H], [%I], [%M],
    [%m] and [%d]. *)
Definition zfill2 (n : nat) : string :=
  if n <? 10 then "0" ++ str_int (Z.of_nat n) else str_int (Z.of_nat n).

(** The zero padding of [%Y] to four digits. *)
Definition zfill4 (n : nat) : string :=
  if n <? 10 then "000" ++ str_int (Z.of_nat n)
  else if n <? 100 then "00" ++ str_int (Z.of_nat n)
  else if n <? 1000 then "0" ++ str_int (Z.of_nat n)
  else str_int (Z.of_nat n).

(** [s.lower()] on the ASCII letters. *)
Definition lower_char (c : ascii) : ascii :=
  let n := nat_of_ascii c in
  if (65 <=? n) && (n <=? 90) then ascii_of_nat (n + 32) else c.

Fixpoint lower (s : string) : string :=
  match s with
  | EmptyString => EmptyString
  | String c r => String (lower_char c) (lower r)
  end.

(** [sub in s] for strings. *)
Fixpoint contains (sub s : string) : bool :=
  prefix sub s ||
  match s with
  | EmptyString => false
  | String _ r => contains sub r
  end.

(** [s.startswith(p)]. *)
Definition startswith (s p : string) : bool := prefix p s.

(** ** [datetime.strptime(s, '%H:%M')]

    CPython compiles the format to the regular expression
    [(?P<H>2[0-3]|[0-1]\d|\d):(?P<M>[0-5]\d|\d)], matches it at the start of
    the input and raises [ValueError] when it does not match or when input
    is left over after the match.  Each group is modelled by the list of its
    alternatives that match, in the order the regular expression tries
    them, each with the value read and the input that remains. *)

Definition is_digit (c : ascii) : bool :=
  (48 <=? nat_of_ascii c) && (nat_of_ascii c <=? 57).

Definition in_range (lo hi : nat) (c : ascii) : bool :=
  (lo <=? nat_of_ascii c) && (nat_of_ascii c <=? hi).

Definition digit_value (c : ascii) : nat := nat_of_ascii c - 48.

(** [2[0-3]|[0-1]\d|\d] *)
Definition re_H (s : string) : list (nat * string) :=
  match s with
  | String c1 (String c2 r) =>
      (if in_range 50 50 c1 && in_range 48 51 c2
       then [(10 * digit_value c1 + digit_value c2, r)] else []) ++
      (if in_range 48 49 c1 && is_digit c2
       then [(10 * digit_value c1 + digit_value c2, r)] else []) ++
      (if is_digit c1 then [(digit_value c1, String c2 r)] else [])
  | String c1 EmptyString =>
      if is_digit c1 then [(digit_value c1, EmptyString)] else []
  | EmptyString => []
  end.

(** [[0-5]\d|\d] *)
Definition re_M (s : string) : list (nat * string) :=
  match s with
  | String c1 (String c2 r) =>
      (if in_range 48 53 c1 && is_digit c2
       then [(10 * digit_value c1 + digit_value c2, r)] else []) ++
      (if is_digit c1 then [(digit_value c1, String c2 r)] else [])
  | String c1 EmptyString =>
      if is_digit c1 then [(digit_value c1, EmptyString)] else []
  | EmptyString => []
  end.

(** The first alternative of [alts] on which the continuation [k] matches:
    the regular expression backtracks into a group when what follows it
    fails. *)
Fixpoint first_match {A B : Type} (k : A -> option B) (alts : list A)
  : option B :=
  match alts with
  | [] => None
  | a :: rest =>
      match k a with
      | Some b => Some b
      | None => first_match k rest
      end
  end.

(** [re.match] of the compiled format: hour, minute and the input left. *)
Definition re_match_HM (s : string) : option (nat * nat * string) :=
  first_match
    (fun hr : nat * string =>
       match snd hr with
       | String c r =>
           if Ascii.eqb c ":" then
             first_match (fun mr : nat * string =>
                            Some (fst hr, fst mr, snd mr)) (re_M r)
           else None
       | EmptyString => None
       end)
    (re_H s).

(** A parsed time of day. *)
Record time_obj : Type := mk_time { tm_hour : nat; tm_minute : nat }.

Definition strptime_HM (s : string) : res time_obj :=
  match re_match_HM s with
  | None =>
      Raise (mk_exn ValueError
               ("time data '" ++ s ++ "' does not match format '%H:%M'"))
  | Some (h, m, rest) =>
      match rest with
      | EmptyString => Ok (mk_time h m)
      | _ => Raise (mk_exn ValueError ("unconverted data remains: " ++ rest))
      end
  end.

(** ** [t.strftime('%I:%M %p')] (C locale) *)

(** [%I]: the hour on the twelve-hour clock. *)
Definition hour12 (h : nat) : nat :=
  match h mod 12 with
  | O => 12
  | k => k
  end.

(** [%p] *)
Definition meridiem (h : nat) : string := if h <? 12 then "AM" else "PM".

Definition strftime_I_M_p (t : time_obj) : string :=
  zfill2 (hour12 (tm_hour t)) ++ ":" ++ zfill2 (tm_minute t) ++ " "
  ++ meridiem (tm_hour t).

(** ** Civil dates, [datetime.now()] and [timedelta(days=n)] *)

Record date : Type := mk_date { year : nat; month : nat; day : nat }.

(** A [datetime]: a civil date and a time of day with microseconds. *)
Record datetime : Type := mk_datetime {
  dt_date : date;
  dt_hour : nat;
  dt_minute : nat;
  dt_second : nat;
  dt_microsecond : Z
}.

Definition is_leap (y : nat) : bool :=
  ((y mod 4 =? 0) && negb (y mod 100 =? 0)) || (y mod 400 =? 0).

Definition days_in_month (y m : nat) : nat :=
  match m with
  | 2 => if is_leap y then 29 else 28
  | 4 | 6 | 9 | 11 => 30
  | _ => 31
  end.

(** [d + timedelta(days=1)] *)
Definition next_day (d : date) : date :=
  if day d <? days_in_month (year d) (month d)
  then mk_date (year d) (month d) (S (day d))
  else if month d <? 12
       then mk_date (year d) (S (month d)) 1
       else mk_date (S (year d)) 1 1.

(** [d + timedelta(days=n)] for [n >= 0] (years past 9999, where Python
    raises [OverflowError], are not distinguished). *)
Fixpoint add_days (n : nat) (d : date) : date :=
  match n with
  | O => d
  | S k => add_days k (next_day d)
  end.

(** [d.strftime('%Y-%m-%d')] *)
Definition strftime_Y_m_d (d : date) : string :=
  zfill4 (year d) ++ "-" ++ zfill2 (month d) ++ "-" ++ zfill2 (day d).

(** ["%06d" % n] *)
Definition zfill6 (n : Z) : string :=
  ((if n <? 10 then "00000"
    else if n <? 100 then "0000"
    else if n <? 1000 then "000"
    else if n <? 10000 then "00"
    else if n <? 100000 then "0"
    else "") ++ str_int n)%Z.

(** [dt.isoformat()]: the microseconds are printed only when non-zero. *)
Definition isoformat (t : datetime) : string :=
  strftime_Y_m_d (dt_date t) ++ "T" ++ zfill2 (dt_hour t) ++ ":"
  ++ zfill2 (dt_minute t) ++ ":" ++ zfill2 (dt_second t)
  ++ (if (dt_microsecond t =? 0)%Z then ""
      else "." ++ zfill6 (dt_microsecond t)).

(** ** [datetime.strptime(s, '%Y-%m-%d')]

    The compiled format is
    [(?P<Y>\d\d\d\d)-(?P<m>1[0-2]|0[1-9]|[1-9])-(?P<d>3[0-1]|[1-2]\d|0[1-9]|[1-9]| [1-9])];
    the fields read are then checked by the [datetime] constructor. *)

(** [\d\d\d\d] *)
Definition re_Y (s : string) : list (nat * string) :=
  match s with
  | String a (String b (String c (String d r))) =>
      if is_digit a && is_digit b && is_digit c && is_digit d
      then [(1000 * digit_value a + 100 * digit_value b
             + 10 * digit_value c + digit_value d, r)]
      else []
  | _ => []
  end.

(** [1[0-2]|0[1-9]|[1-9]] *)
Definition re_m (s : string) : list (nat * string) :=
  match s with
  | String c1 (String c2 r) =>
      (if in_range 49 49 c1 && in_range 48 50 c2
       then [(10 + digit_value c2, r)] else []) ++
      (if in_range 48 48 c1 && in_range 49 57 c2
       then [(digit_value c2, r)] else []) ++
      (if in_range 49 57 c1 then [(digit_value c1, String c2 r)] else [])
  | String c1 EmptyString =>
      if in_range 49 57 c1 then [(digit_value c1, EmptyString)] else []
  | EmptyString => []
  end.

(** [3[0-1]|[1-2]\d|0[1-9]|[1-9]| [1-9]] *)
Definition re_d (s : string) : list (nat * string) :=
  match s with
  | String c1 (String c2 r) =>
      (if in_range 51 51 c1 && in_range 48 49 c2
       then [(30 + digit_value c2, r)] else []) ++
      (if in_range 49 50 c1 && is_digit c2
       then [(10 * digit_value c1 + digit_value c2, r)] else []) ++
      (if in_range 48 48 c1 && in_range 49 57 c2
       then [(digit_value c2, r)] else []) ++
      (if in_range 49 57 c1 then [(digit_value c1, String c2 r)] else []) ++
      (if in_range 32 32 c1 && in_range 49 57 c2
       then [(digit_value c2, r)] else [])
  | String c1 EmptyString =>
      if in_range 49 57 c1 then [(digit_value c1, EmptyString)] else []
  | EmptyString => []
  end.

(** A literal [-] of the format. *)
Definition re_dash {B : Type} (k : string -> option B) (s : string)
  : option B :=
  match s with
  | String c r => if Ascii.eqb c "-" then k r else None
  | EmptyString => None
  end.

Definition re_match_Ymd (s : string) : option (date * string) :=
  first_match
    (fun yr : nat * string =>
       re_dash (fun s1 =>
         first_match
           (fun mr : nat * string =>
              re_dash (fun s2 =>
                first_match
                  (fun dr : nat * string =>
                     Some (mk_date (fst yr) (fst mr) (fst dr), snd dr))
                  (re_d s2))
                (snd mr))
           (re_m s1))
         (snd yr))
    (re_Y s).

Definition strptime_Y_m_d (s : string) : res date :=
  match re_match_Ymd s with
  | None =>
      Raise (mk_exn ValueError
               ("time data '" ++ s ++ "' does not match format '%Y-%m-%d'"))
  | Some (d, rest) =>
      match rest with
      | EmptyString =>
          if year d =? 0 then
            Raise (mk_exn ValueError
                     ("year " ++ str_int (Z.of_nat (year d))
                      ++ " is out of range"))
          else if days_in_month (year d) (month d) <? day d then
            Raise (mk_exn ValueError "day is out of range for month")
          else Ok d
      | _ => Raise (mk_exn ValueError ("unconverted data remains: " ++ rest))
      end
  end.

(** [%B] and [%b] (C locale). *)
Definition month_name (m : nat) : string :=
  match m with
  | 1 => "January" | 2 => "February" | 3 => "March" | 4 => "April"
  | 5 => "May" | 6 => "June" | 7 => "July" | 8 => "August"
  | 9 => "September" | 10 => "October" | 11 => "November"
  | _ => "December"
  end.

Definition month_abbrev (m : nat) : string := substring 0 3 (month_name m).

(** ** Statements: state passing with exceptions

    A block of Python is a function from the program's state to a result
    and the state it leaves behind; what a block did before it raised stays
    done. *)
Section Monad.
Context {S : Type}.

Definition M (A : Type) : Type := S -> res A * S.

Definition ret {A : Type} (a : A) : M A := fun s => (Ok a, s).

Definition bind {A B : Type} (m : M A) (k : A -> M B) : M B :=
  fun s =>
    match m s with
    | (Ok a, s') => k a s'
    | (Raise e, s') => (Raise e, s')
    end.

Definition raise {A : Type} (e : exn) : M A := fun s => (Raise e, s).

(** [try: body except Exception as e: handler] *)
Definition try_except {A : Type} (body : M A) (handler : exn -> M A) : M A :=
  fun s =>
    match body s with
    | (Ok a, s') => (Ok a, s')
    | (Raise e, s') => handler e s'
    end.

(** [try: body except (C1, ..., Cn): handler] *)
Definition try_except_of {A : Type} (classes : list exn_class) (body : M A)
    (handler : M A) : M A :=
  fun s =>
    match body s with
    | (Ok a, s') => (Ok a, s')
    | (Raise e, s') =>
        if existsb (exn_class_eqb (exn_cls e)) classes
        then handler s'
        else (Raise e, s')
    end.

(** [try: body finally: cleanup]: the cleanup runs however the body ends,
    and an exception it raises replaces the body's result. *)
Definition try_finally {A : Type} (body : M A) (cleanup : M unit) : M A :=
  fun s =>
    match body s with
    | (r, s') =>
        match cleanup s' with
        | (Ok _, s'') => (r, s'')
        | (Raise e, s'') => (Raise e, s'')
        end
    end.

(** [time.sleep(seconds)]: the pause has no effect the model observes. *)
Definition sleep (milliseconds : nat) : M unit := ret tt.

End Monad.
Arguments M S A : clear implicits.

Declare Scope py_scope.
Notation "x <- c1 ;; c2" := (bind c1 (fun x => c2))
  (at level 61, c1 at next level, right associativity) : py_scope.
Notation "c1 ;; c2" := (bind c1 (fun _ => c2))
  (at level 61, right associativity) : py_scope.

(** A date of the proleptic Gregorian calendar, as the [date] constructor
    checks it (the year apart). *)
Definition valid_date (d : date) : bool :=
  (1 <=? month d) && (month d <=? 12)
  && (1 <=? day d) && (day d <=? days_in_month (year d) (month d)).

(** [datetime.MAXYEAR] *)
Definition MAXYEAR : nat := 9 * 1000 + 999.

(** [d.strftime('%m/%d/%Y')]; the C library pads [%Y] to four digits for
    the years from 1000 on only, which is where the properties use it. *)
Definition strftime_m_d_Y (d : date) : string :=
  zfill2 (month d) ++ "/" ++ zfill2 (day d) ++ "/" ++ zfill4 (year d).

(** The numbers [from], [from + 1], ... ([n] of them). *)
Fixpoint count_up (n : nat) (from : N) : list N :=
  match n with
  | O => []
  | S k => from :: count_up k (N.succ from)
  end.

(** [str(n)] is four digits that read [n]. *)
Definition four_digits (n : N) : bool :=
  match str_int (Z.of_N n) with
  | String a (String b (String c (String d EmptyString))) =>
      is_digit a && is_digit b && is_digit c && is_digit d
      && (1000 * N.of_nat (digit_value a) + 100 * N.of_nat (digit_value b)
          + 10 * N.of_nat (digit_value c) + N.of_nat (digit_value d) =? n)%N
  | _ => false
  end.

(** [a < b] on dates. *)
Definition date_ltb (a b : date) : bool :=
  (year a <? year b)
  || ((year a =? year b)
      && ((month a <? month b)
          || ((month a =? month b) && (day a <? day b)))).

(** [sep.join(parts)] *)
Fixpoint join (sep : string) (parts : list string) : string :=
  match parts with
  | [] => EmptyString
  | [x] => x
  | x :: rest => x ++ sep ++ join sep rest
  end.

(** ** [int(s)] for a string

    Blanks around the number are dropped; then come an optional sign and
    decimal digits, between which single underscores may stand.  Anything
    else raises [ValueError].  Blanks and digits are the ASCII ones, as
    everywhere in this module; the literals of more than 4300 digits that
    CPython refuses do not fit into a Telegram message. *)
Definition is_space (c : ascii) : bool :=
  in_range 9 13 c || in_range 28 32 c.

Fixpoint lstrip (s : string) : string :=
  match s with
  | String c r => if is_space c then lstrip r else s
  | EmptyString => EmptyString
  end.

Fixpoint rstrip (s : string) : string :=
  match s with
  | String c r =>
      match rstrip r with
      | EmptyString => if is_space c then EmptyString else String c EmptyString
      | r' => String c r'
      end
  | EmptyString => EmptyString
  end.

(** The digits of the literal; [after_digit] tells whether the previous
    character was a digit, which an underscore and the end require. *)
Fixpoint int_digits (s : string) (after_digit : bool) (acc : Z) : option Z :=
  match s with
  | EmptyString => if after_digit then Some acc else None
  | String c r =>
      if is_digit c
      then int_digits r true (10 * acc + Z.of_nat (digit_value c))%Z
      else if Ascii.eqb c "_" && after_digit then int_digits r false acc
      else None
  end.

Definition int_literal (s : string) : option Z :=
  match rstrip (lstrip s) with
  | String c r =>
      if Ascii.eqb c "+" then int_digits r false 0%Z
      else if Ascii.eqb c "-" then option_map Z.opp (int_digits r false 0%Z)
      else int_digits (String c r) false 0%Z
  | EmptyString => None
  end.

Definition int (s : string) : res Z :=
  match int_literal s with
  | Some z => Ok z
  | None =>
      Raise (mk_exn ValueError
               ("invalid literal for int() with base 10: '" ++ s ++ "'"))
  end.

(** ** The patterns of [main.py]

    [$] matches at the end of the input and before a newline that ends
    it; [\d] is read as an ASCII digit. *)
Definition at_end (s : string) : bool :=
  match s with
  | EmptyString => true
  | String c EmptyString => Ascii.eqb c (ascii_of_nat 10)
  | _ => false
  end.

(** [re.match(r'^\d{4}-\d{2}-\d{2}$', s)] *)
Definition match_date_pattern (s : string) : bool :=
  match s with
  | String y1 (String y2 (String y3 (String y4 (String h1
      (String m1 (String m2 (String h2 (String d1 (String d2 rest))))))))) =>
      is_digit y1 && is_digit y2 && is_digit y3 && is_digit y4
      && Ascii.eqb h1 "-" && is_digit m1 && is_digit m2
      && Ascii.eqb h2 "-" && is_digit d1 && is_digit d2 && at_end rest
  | _ => false
  end.

(** [re.match(r'^\d{2}:\d{2}$', s)] *)
Definition match_time_pattern (s : string) : bool :=
  match s with
  | String h1 (String h2 (String c (String m1 (String m2 rest)))) =>
      is_digit h1 && is_digit h2 && Ascii.eqb c ":"
      && is_digit m1 && is_digit m2 && at_end rest
  | _ => false
  end.

End Py.
Import Py.
Open Scope py_scope.

(* ===================================================================== *)
(** * database.py                                                         *)
(* ===================================================================== *)

Module Database.

(** A row of the [requests] table.  [status] is a [TEXT] column, so any
    string can be stored in it; [court_preference], [processed_at] and
    [result_message] are nullable. *)
Record Request : Type := mk_request {
  id : Z;
  user_id : string;
  chat_id : string;
  requested_date : string;
  requested_time : string;
  court_preference : option string;
  duration : Z;
  status : string;
  created_at : string;
  processed_at : option string;
  result_message : option string
}.

(** The table: its rows in rowid order.  An SQL [UPDATE] rewrites every row
    its [WHERE] clause selects; that [id] is a primary key is the invariant
    [unique_ids] below, not a property of the representation. *)
Definition DB : Type := list Request.

Definition ids (db : DB) : list Z := map id db.

Definition unique_ids (db : DB) : Prop := NoDup (ids db).

(** [INTEGER PRIMARY KEY AUTOINCREMENT]: one more than the largest rowid ever
    used; the program never deletes a row, so that is the largest [id] of
    the table, and 1 for the empty table. *)
Definition next_id (db : DB) : Z := (1 + fold_right Z.max 0 (ids db))%Z.

Definition add_request (now : datetime) (user_id chat_id requested_date
    requested_time : string) (court_preference : option string)
    (duration : Z) (db : DB) : DB * Z :=
  let created_at := isoformat now in
  let request_id := next_id db in
  ((db ++ [mk_request request_id user_id chat_id requested_date
             requested_time court_preference duration "pending" created_at
             None None])%list,
   request_id).

(** [ORDER BY created_at]: [TEXT] values compare byte by byte.  The sort is
    modelled as a stable insertion sort over the rows in rowid order. *)
Fixpoint insert_by_created_at (r : Request) (rows : list Request)
  : list Request :=
  match rows with
  | [] => [r]
  | x :: rest =>
      if String.leb (created_at r) (created_at x)
      then r :: x :: rest
      else x :: insert_by_created_at r rest
  end.

Definition order_by_created_at (rows : list Request) : list Request :=
  fold_right insert_by_created_at [] rows.

(** [ORDER BY created_at DESC] *)
Fixpoint insert_by_created_at_desc (r : Request) (rows : list Request)
  : list Request :=
  match rows with
  | [] => [r]
  | x :: rest =>
      if String.leb (created_at x) (created_at r)
      then r :: x :: rest
      else x :: insert_by_created_at_desc r rest
  end.

Definition order_by_created_at_desc (rows : list Request) : list Request :=
  fold_right insert_by_created_at_desc [] rows.

Definition get_pending_requests (db : DB) : list Request :=
  order_by_created_at
    (filter (fun r => String.eqb (status r) "pending") db).

(** [WHERE status = 'pending' AND requested_date = ?] *)
Definition pending_for_date (target_date : string) (r : Request) : bool :=
  String.eqb (status r) "pending" && String.eqb (requested_date r) target_date.

Definition get_requests_for_date (target_date : string) (db : DB)
  : list Request :=
  order_by_created_at (filter (pending_for_date target_date) db).

Definition get_user_requests (user : string) (db : DB) : list Request :=
  order_by_created_at_desc
    (filter (fun r => String.eqb (user_id r) user) db).

(** [SET status = ?, processed_at = ?, result_message = ?] *)
Definition set_processed (new_status processed : string)
    (message : option string) (r : Request) : Request :=
  mk_request (id r) (user_id r) (chat_id r) (requested_date r)
    (requested_time r) (court_preference r) (duration r)
    new_status (created_at r) (Some processed) message.

Definition update_request_status (now : datetime) (request_id : Z)
    (new_status : string) (result_message : option string) (db : DB) : DB :=
  let processed_at := isoformat now in
  map (fun r =>
         if (id r =? request_id)%Z
         then set_processed new_status processed_at result_message r
         else r) db.

(** [SET status = 'cancelled'] *)
Definition set_cancelled (r : Request) : Request :=
  mk_request (id r) (user_id r) (chat_id r) (requested_date r)
    (requested_time r) (court_preference r) (duration r)
    "cancelled" (created_at r) (processed_at r) (result_message r).

(** [WHERE id = ? AND user_id = ? AND status = 'pending'] *)
Definition cancellable (request_id : Z) (user : string) (r : Request)
  : bool :=
  (id r =? request_id)%Z && String.eqb (user_id r) user
  && String.eqb (status r) "pending".

(** The table after the update, and [cursor.rowcount > 0]. *)
Definition cancel_request (request_id : Z) (user : string) (db : DB)
  : DB * bool :=
  let rowcount := List.length (filter (cancellable request_id user) db) in
  (map (fun r => if cancellable request_id user r then set_cancelled r
                 else r) db,
   0 <? rowcount).

(** [fetchone()] of [SELECT * FROM requests WHERE id = ?] *)
Definition get_request (request_id : Z) (db : DB) : option Request :=
  find (fun r => (id r =? request_id)%Z) db.

(** The lifecycle vocabulary of the specification. *)
Definition is_terminal (s : string) : Prop :=
  s = "completed" \/ s = "failed" \/ s = "cancelled".

(** The operations the rest of the program performs on the table: [/book]
    creates, the scheduler sets an outcome, [/cancel] cancels. *)
Inductive Op : Type :=
| OpCreate (now : datetime) (user chat date time : string)
    (court : option string) (duration : Z)
| OpUpdateStatus (now : datetime) (request_id : Z) (new_status : string)
    (message : option string)
| OpCancel (request_id : Z) (user : string).

Definition exec_op (op : Op) (db : DB) : DB :=
  match op with
  | OpCreate now u c d t court dur =>
      fst (add_request now u c d t court dur db)
  | OpUpdateStatus now i s m => update_request_status now i s m db
  | OpCancel i u => fst (cancel_request i u db)
  end.

Definition exec_ops (ops : list Op) (db : DB) : DB :=
  fold_left (fun acc op => exec_op op acc) ops db.

(** Every call site of [update_request_status] (all in [scheduler.py])
    passes ['completed'] or ['failed']: the repository's [setTerminal]. *)
Definition sets_outcome (op : Op) : Prop :=
  match op with
  | OpUpdateStatus _ _ s _ => s = "completed" \/ s = "failed"
  | _ => True
  end.

(** Rows that were never given an outcome carry no processed timestamp. *)
Definition unprocessed (r : Request) : Prop :=
  status r = "pending" \/ status r = "cancelled" -> processed_at r = None.

(** The reading of "every terminal transition sets the processed
    timestamp" for one operation on one table: whenever the operation moves
    a row to a terminal status, the row has a processed timestamp
    afterwards. *)
Definition stamps_terminal_transitions (op : Op) (db : DB) : Prop :=
  forall k r r',
    nth_error db k = Some r ->
    nth_error (exec_op op db) k = Some r' ->
    status r' <> status r ->
    is_terminal (status r') ->
    processed_at r' <> None.

(** Whether an operation adds a row. *)
Definition creates (op : Op) : bool :=
  match op with
  | OpCreate _ _ _ _ _ _ _ => true
  | _ => false
  end.

(** What the user asked for and when: every column but [status],
    [processed_at] and [result_message]. *)
Definition same_request (a b : Request) : Prop :=
  id a = id b /\ user_id a = user_id b /\ chat_id a = chat_id b
  /\ requested_date a = requested_date b
  /\ requested_time a = requested_time b
  /\ court_preference a = court_preference b
  /\ duration a = duration b /\ created_at a = created_at b.

(** The orders of [ORDER BY created_at DESC] and [ORDER BY created_at]
    between a row and a later row of the result. *)
Definition newest_first (a b : Request) : Prop :=
  String.leb (created_at b) (created_at a) = true.

Definition oldest_first (a b : Request) : Prop :=
  String.leb (created_at a) (created_at b) = true.

End Database.

(* ===================================================================== *)
(** * booking_scraper.py                                                  *)
(* ===================================================================== *)

Module BookingScraper.

(** Selenium's locator strategies used by the scraper. *)
Inductive By : Type := CSS_SELECTOR | XPATH | ID.

Inductive level : Type := DEBUG | INFO | WARNING | ERROR.

(** The browser as the scraper sees it: every call takes the state of the
    outside world (the browser, the portal, the network) and returns a value
    or raises, together with the new state.  Nothing is assumed about the
    answers, so the same locator may resolve differently from one call to
    the next. *)
Record WebDriver (W Elem : Type) : Type := mk_driver {
  (** [webdriver.Chrome(service=service, options=chrome_options)] *)
  chrome_new : W -> res unit * W;
  (** [driver.get(url)] *)
  driver_get : string -> W -> res unit * W;
  (** [driver.quit()] *)
  driver_quit : W -> res unit * W;
  (** [driver.current_url] *)
  driver_current_url : W -> res string * W;
  (** [driver.find_element(by, value)] *)
  driver_find_element : By -> string -> W -> res Elem * W;
  (** [WebDriverWait(driver, t).until(EC.presence_of_element_located((by, value)))] *)
  wait_presence : nat -> By -> string -> W -> res Elem * W;
  (** [WebDriverWait(driver, t).until(EC.element_to_be_clickable((by, value)))] *)
  wait_clickable : nat -> By -> string -> W -> res Elem * W;
  (** [driver.execute_script(script)] and [driver.execute_script(script, element)] *)
  driver_execute_script : string -> option Elem -> W -> res unit * W;
  (** [element.click()], [element.clear()], [element.send_keys(keys)] *)
  elem_click : Elem -> W -> res unit * W;
  elem_clear : Elem -> W -> res unit * W;
  elem_send_keys : Elem -> string -> W -> res unit * W;
  (** [element.is_displayed()], [element.text] *)
  elem_is_displayed : Elem -> W -> res bool * W;
  elem_text : Elem -> W -> res string * W;
  (** [traceback.format_exc()] in a handler, for the exception being
      handled: the text lists the frames of the call that raised it, down
      into the Selenium library, and ends with the exception itself.
      Nothing is assumed about the text. *)
  format_exc : exn -> string
}.
Arguments chrome_new {W Elem}.
Arguments driver_get {W Elem}.
Arguments driver_quit {W Elem}.
Arguments driver_current_url {W Elem}.
Arguments driver_find_element {W Elem}.
Arguments wait_presence {W Elem}.
Arguments wait_clickable {W Elem}.
Arguments driver_execute_script {W Elem}.
Arguments elem_click {W Elem}.
Arguments elem_clear {W Elem}.
Arguments elem_send_keys {W Elem}.
Arguments elem_is_displayed {W Elem}.
Arguments elem_text {W Elem}.
Arguments format_exc {W Elem}.

(** The [BookingScraper] object together with the world it drives:
    [has_driver] is [self.driver is not None]; [log] collects the records
    handed to [logger], oldest first. *)
Record Session (W : Type) : Type := mk_session {
  world : W;
  has_driver : bool;
  log : list (level * string)
}.
Arguments mk_session {W}.
Arguments world {W}.
Arguments has_driver {W}.
Arguments log {W}.

(** The dictionary [make_booking] returns. *)
Record Outcome : Type := mk_outcome { success : bool; message : string }.

(** ** The scraper's statements *)
Section Statements.
Context {W : Type}.
Local Abbreviation M := (Py.M (Session W)).

(** [logger.<level>(msg)] *)
Definition logger (l : level) (msg : string) : M unit :=
  fun s =>
    (Ok tt, mk_session (world s) (has_driver s) (log s ++ [(l, msg)])%list).

(** The session after one more log record. *)
Definition logged (l : level) (msg : string) (s : Session W) : Session W :=
  mk_session (world s) (has_driver s) (log s ++ [(l, msg)])%list.

(** A method of [self.driver]: with no driver the attribute lookup on
    [None] raises [AttributeError]. *)
Definition driver_call {A : Type} (attr : string)
    (op : W -> res A * W) : M A :=
  fun s =>
    if has_driver s then
      let (r, w) := op (world s) in
      (r, mk_session w (has_driver s) (log s))
    else
      (Raise (mk_exn AttributeError
                ("'NoneType' object has no attribute '" ++ attr ++ "'")), s).

(** A method of an element, or a call that needs no driver. *)
Definition world_call {A : Type} (op : W -> res A * W) : M A :=
  fun s =>
    let (r, w) := op (world s) in
    (r, mk_session w (has_driver s) (log s)).

(** [self.driver = ...] *)
Definition set_driver (b : bool) : M unit :=
  fun s => (Ok tt, mk_session (world s) b (log s)).

Definition get_has_driver : M bool := fun s => (Ok (has_driver s), s).

End Statements.

(** [f"{x}"] of an optional string: [None] prints as [None]. *)
Definition fmt_opt (o : option string) : string :=
  match o with
  | Some s => s
  | None => "None"
  end.

(** [if x:] on an optional string. *)
Definition truthy (o : option string) : bool :=
  match o with
  | Some EmptyString => false
  | Some _ => true
  | None => false
  end.

(** ** Pure helpers of [BookingScraper] *)

Definition _convert_time_format (time_str : string) : string :=
  match strptime_HM time_str with
  | Ok time_obj => strftime_I_M_p time_obj
  | Raise _ => time_str
  end.

(** ** Vocabulary for the time conversion *)





(** ** The scraper's methods *)
Section Engine.
Context {W Elem : Type}.
Variable drv : WebDriver W Elem.
(** The constructor's arguments ([headless] only shapes the browser's
    options, which are part of [chrome_new]). *)
Variables url username password : string.

Local Abbreviation M := (Py.M (Session W)).

Definition _setup_driver : M unit :=
  try_except
    (world_call (chrome_new drv) ;;
     set_driver true ;;
     driver_call "execute_script"
       (driver_execute_script drv
          "Object.defineProperty(navigator, 'webdriver', {get: () => undefined})"
          None))
    (fun e =>
       logger ERROR ("Failed to initialize Chrome driver: " ++ exn_str e) ;;
       raise e).

(** [for selector in username_selectors]: the first selector that resolves
    within the wait; a [TimeoutException] moves on to the next one. *)
Fixpoint find_username_field (selectors : list string) : M (option Elem) :=
  match selectors with
  | [] => ret None
  | selector :: rest =>
      r <- try_except_of [TimeoutException]
             (e <- driver_call "find_element"
                     (wait_presence drv 10 CSS_SELECTOR selector) ;;
              ret (Some e))
             (ret None) ;;
      match r with
      | Some e => ret (Some e)
      | None => find_username_field rest
      end
  end.

(** [for selector in password_selectors] *)
Fixpoint find_password_field (selectors : list string) : M (option Elem) :=
  match selectors with
  | [] => ret None
  | selector :: rest =>
      r <- try_except_of [NoSuchElementException]
             (e <- driver_call "find_element"
                     (driver_find_element drv CSS_SELECTOR selector) ;;
              ret (Some e))
             (ret None) ;;
      match r with
      | Some e => ret (Some e)
      | None => find_password_field rest
      end
  end.

(** [for selector in submit_selectors] of [login] *)
Fixpoint find_login_button (selectors : list string) : M (option Elem) :=
  match selectors with
  | [] => ret None
  | selector :: rest =>
      r <- try_except_of [NoSuchElementException]
             (e <- (if contains "contains" selector
                    then driver_call "find_element"
                           (driver_find_element drv XPATH
                              "//button[contains(text(), 'Login') or contains(text(), 'Sign in')]")
                    else driver_call "find_element"
                           (driver_find_element drv CSS_SELECTOR selector)) ;;
              ret (Some e))
             (ret None) ;;
      match r with
      | Some e => ret (Some e)
      | None => find_login_button rest
      end
  end.

Definition username_selectors : list string :=
  [ "#_com_liferay_login_web_portlet_LoginPortlet_login";
    "input[name*='login']";
    "input[id*='login']" ].

Definition password_selectors : list string :=
  [ "#_com_liferay_login_web_portlet_LoginPortlet_password";
    "input[type='password']";
    "#password" ].

Definition login_submit_selectors : list string :=
  [ "button[type='submit']";
    "input[type='submit']";
    "button:contains('Login')";
    "button:contains('Sign in')";
    ".login-button";
    "#login-button" ].

(** The newline [login] sends when it finds no submit button. *)
Definition newline : string := String (ascii_of_nat 10) EmptyString.

(** The body of [login]'s [try] block. *)
Definition login_body : M bool :=
  driver_call "get" (driver_get drv url) ;;
  sleep 2000 ;;
  username_field <- find_username_field username_selectors ;;
  match username_field with
  | None => logger ERROR "Could not find username field" ;; ret false
  | Some username_field =>
      password_field <- find_password_field password_selectors ;;
      match password_field with
      | None => logger ERROR "Could not find password field" ;; ret false
      | Some password_field =>
          world_call (elem_clear drv username_field) ;;
          world_call (elem_send_keys drv username_field username) ;;
          sleep 500 ;;
          world_call (elem_clear drv password_field) ;;
          world_call (elem_send_keys drv password_field password) ;;
          sleep 500 ;;
          submit_button <- find_login_button login_submit_selectors ;;
          match submit_button with
          | Some submit_button => world_call (elem_click drv submit_button)
          | None => world_call (elem_send_keys drv password_field newline)
          end ;;
          sleep 3000 ;;
          current_url <- driver_call "current_url" (driver_current_url drv) ;;
          if contains "login" (lower current_url) then
            logger WARNING "Still on login page, login may have failed" ;;
            ret false
          else
            logger INFO "Login successful" ;;
            ret true
      end
  end.

Definition login : M bool :=
  d <- get_has_driver ;;
  (if negb d then _setup_driver else ret tt) ;;
  try_except login_body
    (fun e => logger ERROR ("Login failed: " ++ exn_str e) ;; ret false).

Definition _parse_date_for_grid (date_str : string)
  : M (option string * option string * option string) :=
  match strptime_Y_m_d date_str with
  | Ok date_obj =>
      ret (Some (str_int (Z.of_nat (day date_obj))),
           Some (month_name (month date_obj)),
           Some (month_abbrev (month date_obj)))
  | Raise _ =>
      logger ERROR ("Invalid date format: " ++ date_str) ;;
      ret (None, None, None)
  end.

Definition js_click : string := "arguments[0].click();".

(** [option.click()] with the script-injected click as fallback. *)
Definition _select_dropdown_option (label_id option_text : string)
    (wait_time : nat) : M bool :=
  try_except
    (label <- driver_call "find_element"
                (wait_clickable drv wait_time ID label_id) ;;
     world_call (elem_click drv label) ;;
     sleep 500 ;;
     let option_xpath :=
       "//li[contains(@class, 'ui-selectonemenu-item') and "
       ++ "(@data-label='" ++ option_text
       ++ "' or normalize-space(text())='" ++ option_text ++ "')]" in
     option <- driver_call "find_element"
                 (wait_clickable drv wait_time XPATH option_xpath) ;;
     try_except (world_call (elem_click drv option))
       (fun _ => driver_call "execute_script"
                   (driver_execute_script drv js_click (Some option))) ;;
     sleep 500 ;;
     ret true)
    (fun e =>
       logger ERROR ("Failed to select dropdown option '" ++ option_text
                     ++ "' from " ++ label_id ++ ": " ++ exn_str e) ;;
       ret false).

Definition ENTRY_TIME : string := "06:00 AM".
Definition ENTRY_ID : string := "11".

Definition scroll_to_center : string :=
  "arguments[0].scrollIntoView({block: 'center', inline: 'center'});".

Definition scroll_to_center_block : string :=
  "arguments[0].scrollIntoView({block: 'center'});".

Definition failure (msg : string) : Outcome := mk_outcome false msg.

(** STEP 1 of [make_booking] (date selection). *)
Definition select_date (date : string) : M unit :=
  parsed <- _parse_date_for_grid date ;;
  let '(day_number, month_name, month_abbrev) := parsed in
  let date_link_xpath :=
    "//div[contains(@class, 'horizontal-dates')]//a["
    ++ ".//span[contains(@class, 'calendar-date') and normalize-space()='"
    ++ fmt_opt day_number ++ "'] and "
    ++ ".//span[contains(@class, 'calendar-year') and (normalize-space()='"
    ++ fmt_opt month_name ++ "' or normalize-space()='"
    ++ fmt_opt month_abbrev ++ "')]"
    ++ "]" in
  date_link <- driver_call "find_element"
                 (wait_clickable drv 15 XPATH date_link_xpath) ;;
  driver_call "execute_script"
    (driver_execute_script drv scroll_to_center (Some date_link)) ;;
  sleep 1000 ;;
  driver_call "execute_script"
    (driver_execute_script drv js_click (Some date_link)) ;;
  logger INFO ("Clicked date: " ++ fmt_opt day_number ++ " "
               ++ fmt_opt month_name) ;;
  sleep 4000.

(** STEP 2 (the entry click).  [Some o]: [make_booking] returns [o] here;
    [None]: it goes on. *)
Definition click_entry_slot : M (option Outcome) :=
  let target_xpath :=
    "//div[@data-area-id='" ++ ENTRY_ID ++ "' and @data-start-time='"
    ++ ENTRY_TIME ++ "']/ancestor::td[1]" in
  try_except_of [TimeoutException]
    (target_cell <- driver_call "find_element"
                      (wait_presence drv 15 XPATH target_xpath) ;;
     driver_call "execute_script"
       (driver_execute_script drv scroll_to_center (Some target_cell)) ;;
     sleep 1000 ;;
     clicked <-
       try_except
         (world_call (elem_click drv target_cell) ;;
          logger INFO "Clicked grid cell directly" ;;
          ret true)
         (fun _ =>
            try_except
              (logger INFO "Direct click failed, trying JavaScript click" ;;
               driver_call "execute_script"
                 (driver_execute_script drv js_click (Some target_cell)) ;;
               ret true)
              (fun e =>
                 logger ERROR ("All click methods failed on the grid cell: "
                               ++ exn_str e) ;;
                 ret false)) ;;
     if negb clicked then
       ret (Some (failure
                    "Found entry slot but could not trigger the click event."))
     else ret None)
    (ret (Some (failure ("Entry slot (ID " ++ ENTRY_ID ++ " at " ++ ENTRY_TIME
                         ++ ") not found in grid.")))).

Definition court_label_id : string :=
  "_activities_WAR_northstarportlet_:activityForm:j_idt1068_label".
Definition time_label_id : string :=
  "_activities_WAR_northstarportlet_:activityForm:fromTime_label".
Definition duration_label_id : string :=
  "_activities_WAR_northstarportlet_:activityForm:j_idt1082_label".

(** STEP 3, "1. Select ACTUAL Court". *)
Definition select_court (court_preference : option string) : M unit :=
  if truthy court_preference then
    ok <- _select_dropdown_option court_label_id (fmt_opt court_preference)
            10 ;;
    (if negb ok then
       logger WARNING ("Could not select " ++ fmt_opt court_preference
                       ++ ", proceeding with current selection.")
     else ret tt) ;;
    sleep 1000
  else ret tt.

(** STEP 3, "3. Select ACTUAL Duration". *)
Definition select_duration (duration_minutes : Z) : M unit :=
  ok <- _select_dropdown_option duration_label_id
          (str_int duration_minutes) 10 ;;
  (if negb ok then
     logger WARNING ("Could not select duration "
                     ++ str_int duration_minutes)
   else ret tt) ;;
  sleep 1000.

Definition time_failure (formatted_time : string) : Outcome :=
  failure ("Could not select time " ++ formatted_time
           ++ " in form dropdown.").

(** STEP 3 (the three dropdowns).  [Some o]: [make_booking] returns [o]
    here; [None]: it goes on to submit the form. *)
Definition populate_form (time_slot : string)
    (court_preference : option string) (duration_minutes : Z)
  : M (option Outcome) :=
  select_court court_preference ;;
  let formatted_time := _convert_time_format time_slot in
  ok <- _select_dropdown_option time_label_id formatted_time 10 ;;
  if negb ok then ret (Some (time_failure formatted_time))
  else
    sleep 1000 ;;
    select_duration duration_minutes ;;
    ret None.

Definition submit_selectors : list string :=
  [ "button[type='submit'].btn-save";
    "//button[contains(@id, 'activityForm')]//span[contains(text(), 'Save')]";
    "button.ui-area-btn-success";
    "//button[contains(@class, 'ui-button')]//span[normalize-space()='Save']";
    "button[type='submit']";
    "//button[contains(@class, 'ui-button')]" ].

(** [for selector in submit_selectors]: the value of [submitted] after the
    loop. *)
Fixpoint click_submit (selectors : list string) : M bool :=
  match selectors with
  | [] => ret false
  | selector :: rest =>
      submitted <-
        try_except
          (submit_button <-
             (if startswith selector "//"
              then driver_call "find_element"
                     (wait_presence drv 15 XPATH selector)
              else driver_call "find_element"
                     (wait_presence drv 15 CSS_SELECTOR selector)) ;;
           driver_call "execute_script"
             (driver_execute_script drv scroll_to_center_block
                (Some submit_button)) ;;
           sleep 500 ;;
           try_except
             (world_call (elem_click drv submit_button) ;;
              logger INFO "Clicked submit button using regular click")
             (fun _ =>
                logger INFO "Regular click failed, using JavaScript click" ;;
                driver_call "execute_script"
                  (driver_execute_script drv js_click (Some submit_button))) ;;
           ret true)
          (fun e =>
             match exn_cls e with
             | NoSuchElementException | TimeoutException => ret false
             | _ =>
                 logger DEBUG ("Error with selector " ++ selector ++ ": "
                               ++ exn_str e) ;;
                 ret false
             end) ;;
      if submitted then ret true else click_submit rest
  end.

Definition success_indicators : list string :=
  [ "//div[@id='_activities_WAR_northstarportlet_:activityForm:activityMessage']//label[contains(@class, 'portlet-msg-success')]";
    "//label[contains(text(), 'Reservation created successfully')]";
    "//label[contains(@class, 'activity-message') and contains(text(), 'successfully')]";
    "//div[contains(@class, 'ui-messages-info')]";
    "//div[contains(@class, 'ui-growl-item')]" ].

Definition error_indicators : list string :=
  [ "//div[contains(@class, 'ui-messages-error')]";
    "//div[contains(@class, 'ui-message-error')]";
    "//div[contains(@class, 'ui-growl-error')]";
    "//div[contains(text(), 'error')]";
    "//div[contains(text(), 'unavailable')]";
    "//div[contains(text(), 'already booked')]" ].

(** [for indicator in indicators]: the text of the first indicator whose
    element is found and displayed, if the loop returns; [None] if it runs
    to its end.  [NoSuchElementException] moves on to the next indicator,
    any other exception leaves the loop. *)
Fixpoint scan_indicators (indicators : list string) : M (option string) :=
  match indicators with
  | [] => ret None
  | indicator :: rest =>
      found <-
        try_except_of [NoSuchElementException]
          (element <- driver_call "find_element"
                        (driver_find_element drv XPATH indicator) ;;
           displayed <- world_call (elem_is_displayed drv element) ;;
           if displayed then
             txt <- world_call (elem_text drv element) ;;
             ret (Some txt)
           else ret None)
          (ret None) ;;
      match found with
      | Some txt => ret (Some txt)
      | None => scan_indicators rest
      end
  end.

(** Some indicator of the list was looked up, found, and answered that it
    is displayed. *)
Definition seen_displayed (indicators : list string) : Prop :=
  exists indicator element w1 w2 w3 w4,
    In indicator indicators
    /\ driver_find_element drv XPATH indicator w1 = (Ok element, w2)
    /\ elem_is_displayed drv element w3 = (Ok true, w4).

Definition undetermined_message : string :=
  "Could not determine booking status - no clear success or error message found. Please verify manually.".

(** The check for success and error messages after the submission. *)
Definition detect_outcome (date time_slot : string) : M Outcome :=
  confirmed <- scan_indicators success_indicators ;;
  match confirmed with
  | Some message_text =>
      ret (mk_outcome true ("Booking confirmed for " ++ date ++ " at "
                            ++ time_slot ++ ": " ++ message_text))
  | None =>
      refused <- scan_indicators error_indicators ;;
      match refused with
      | Some error_text => ret (failure ("Booking failed: " ++ error_text))
      | None => ret (failure undetermined_message)
      end
  end.

(** The way to the reservation form: the page load, STEP 1 and STEP 2. *)
Definition open_form (date : string) : M (option Outcome) :=
  driver_call "get" (driver_get drv url) ;;
  sleep 3000 ;;
  select_date date ;;
  click_entry_slot.

(** The submission and what follows it. *)
Definition submit_form (date time_slot : string) : M Outcome :=
  submitted <- click_submit submit_selectors ;;
  if negb submitted then
    ret (failure "Could not find or click submit button")
  else
    sleep 2000 ;;
    detect_outcome date time_slot.

(** The body of [make_booking]'s [try] block. *)
Definition make_booking_body (date time_slot : string)
    (court_preference : option string) (duration_minutes : Z) : M Outcome :=
  entry <- open_form date ;;
  match entry with
  | Some o => ret o
  | None =>
      sleep 5000 ;;
      form <- populate_form time_slot court_preference duration_minutes ;;
      match form with
      | Some o => ret o
      | None => submit_form date time_slot
      end
  end.

(** The handler of [make_booking]'s [try] block: two error records, the
    message and the traceback, and the failure it returns. *)
Definition booking_error (e : exn) : M Outcome :=
  logger ERROR ("Booking failed: " ++ exn_str e) ;;
  logger ERROR (format_exc drv e) ;;
  ret (failure ("Booking error: " ++ exn_str e)).

Definition make_booking (date time_slot : string)
    (court_preference : option string) (duration_minutes : Z) : M Outcome :=
  try_except
    (make_booking_body date time_slot court_preference duration_minutes)
    booking_error.

Definition close : M unit :=
  d <- get_has_driver ;;
  if d then
    driver_call "quit" (driver_quit drv) ;;
    set_driver false
  else ret tt.

End Engine.

(** ** A page at rest

    The state of the page after the submission, as the outcome detection
    reads it: for each locator the first element it selects, if any, with
    whether it is displayed and its text.  [page_driver] is a driver over
    such a page that nothing changes any more: lookups answer from the
    page, a lookup that selects nothing raises as Selenium does, and the
    interactions succeed without effect. *)
Record PageElement : Type := mk_element {
  displayed : bool;
  inner_text : string
}.

Definition Page : Type := By -> string -> option PageElement.

Definition page_lookup (missing : exn_class) (by_ : By) (value : string)
    (p : Page) : res PageElement * Page :=
  match p by_ value with
  | Some e => (Ok e, p)
  | None => (Raise (mk_exn missing ("Unable to locate element: " ++ value)), p)
  end.

Definition page_driver : WebDriver Page PageElement :=
  mk_driver Page PageElement
    (fun p => (Ok tt, p))
    (fun _ p => (Ok tt, p))
    (fun p => (Ok tt, p))
    (fun p => (Ok "", p))
    (page_lookup NoSuchElementException)
    (fun _ => page_lookup TimeoutException)
    (fun _ => page_lookup TimeoutException)
    (fun _ _ p => (Ok tt, p))
    (fun _ p => (Ok tt, p))
    (fun _ p => (Ok tt, p))
    (fun _ _ p => (Ok tt, p))
    (fun e p => (Ok (displayed e), p))
    (fun e p => (Ok (inner_text e), p))
    (fun e => "Traceback (most recent call last): " ++ exn_str e).

(** An indicator is visible on a page when its XPath selects an element
    that is displayed. *)
Definition visible (p : Page) (indicator : string) : bool :=
  match p XPATH indicator with
  | Some e => displayed e
  | None => false
  end.

Definition text_at (p : Page) (indicator : string) : string :=
  match p XPATH indicator with
  | Some e => inner_text e
  | None => ""
  end.

(** The outcome in the specification's words: the first visible success
    indicator gives success with its text; failing that, the first visible
    failure indicator gives failure with its text; failing that, failure
    with the neutral message. *)
Definition outcome_of_page (date time_slot : string) (p : Page) : Outcome :=
  match find (visible p) success_indicators with
  | Some indicator =>
      mk_outcome true ("Booking confirmed for " ++ date ++ " at "
                       ++ time_slot ++ ": " ++ text_at p indicator)
  | None =>
      match find (visible p) error_indicators with
      | Some indicator =>
          mk_outcome false ("Booking failed: " ++ text_at p indicator)
      | None => mk_outcome false undetermined_message
      end
  end.

Section LoginVocabulary.
Context {W Elem : Type}.
Variable drv : WebDriver W Elem.

(** The browser answered that its current URL is one without [login] in
    it, in whatever case. *)
Definition left_login_page : Prop :=
  exists current_url w w',
    driver_current_url drv w = (Ok current_url, w')
    /\ contains "login" (lower current_url) = false.

(** [keys] were sent, without an error, to an element that the wait for
    one of the username selectors returned. *)
Definition typed_username (keys : string) : Prop :=
  exists selector field w1 w2 w3 w4,
    In selector username_selectors
    /\ wait_presence drv 10 CSS_SELECTOR selector w1 = (Ok field, w2)
    /\ elem_send_keys drv field keys w3 = (Ok tt, w4).

(** The same for the password selectors, which are looked up without a
    wait. *)
Definition typed_password (keys : string) : Prop :=
  exists selector field w1 w2 w3 w4,
    In selector password_selectors
    /\ driver_find_element drv CSS_SELECTOR selector w1 = (Ok field, w2)
    /\ elem_send_keys drv field keys w3 = (Ok tt, w4).

(** A submit button was found through one of the selectors and a click on
    it, the regular one or the script-injected one, went through. *)
Definition submit_clicked (selectors : list string) : Prop :=
  exists selector button w1 w2 w3 w4,
    In selector selectors
    /\ wait_presence drv 15
         (if startswith selector "//" then XPATH else CSS_SELECTOR)
         selector w1 = (Ok button, w2)
    /\ (elem_click drv button w3 = (Ok tt, w4)
        \/ driver_execute_script drv js_click (Some button) w3 = (Ok tt, w4)).

(** [str(e)] of the [AttributeError] that [self.driver.get] raises while
    [self.driver] is [None]. *)
Definition no_driver_text : string :=
  "'NoneType' object has no attribute 'get'".

End LoginVocabulary.

(** ** Helpers of [BookingScraper] that no method calls *)

Definition _convert_date_format {W : Type} (date_str : string)
  : Py.M (Session W) string :=
  match strptime_Y_m_d date_str with
  | Ok date_obj => ret (strftime_m_d_Y date_obj)
  | Raise _ =>
      logger ERROR ("Invalid date format: " ++ date_str) ;;
      ret date_str
  end.










End BookingScraper.

(* ===================================================================== *)
(** * scheduler.py                                                        *)
(* ===================================================================== *)

Module BookingScheduler.
Import Database.
Import BookingScraper.

(** What the scheduler asked of its collaborators, in order: a record kept
    beside the program's state so that properties about calls (which were
    made, with what, in which order) can be stated.  It does not influence
    the run. *)
Inductive Event : Type :=
| EvLogin (r : res bool)
| EvMakeBooking (request_id : Z) (r : res Outcome)
| EvUpdateStatus (request_id : Z) (new_status : string)
    (message : option string)
| EvSendMessage (chat_id text : string) (r : res unit)
| EvClose (r : res unit).

(** The scheduler's state: the table behind [self.db], everything outside
    the process ([W]: the scraper and its browser, the Telegram bot, the
    clock), the scheduler's own log records and the record of calls. *)
Record State (W : Type) : Type := mk_state {
  st_db : DB;
  st_world : W;
  st_log : list (level * string);
  st_trace : list Event
}.
Arguments mk_state {W}.
Arguments st_db {W}.
Arguments st_world {W}.
Arguments st_log {W}.
Arguments st_trace {W}.

Definition LEAD_DAYS : nat := 2.

Definition login_error_msg : string := "Failed to login to booking website".

(** The collaborators.  [scraper_new] is the constructor call
    [BookingScraper(url=..., username=..., password=..., headless=True)];
    the other scraper entries are the methods of the object it builds. *)
Record Collaborators (W : Type) : Type := mk_collaborators {
  scraper_new : W -> W;
  scraper_login : W -> res bool * W;
  scraper_make_booking :
    string -> string -> option string -> Z -> W -> res Outcome * W;
  scraper_close : W -> res unit * W;
  (** [self.bot.send_message(chat_id=..., text=...)] *)
  bot_send_message : string -> string -> W -> res unit * W;
  (** [datetime.now()] *)
  datetime_now : W -> datetime * W
}.
Arguments scraper_new {W}.
Arguments scraper_login {W}.
Arguments scraper_make_booking {W}.
Arguments scraper_close {W}.
Arguments bot_send_message {W}.
Arguments datetime_now {W}.

Section Scheduler.
Context {W : Type}.
Variable env : Collaborators W.

Local Abbreviation M := (Py.M (State W)).

Definition logger (l : level) (msg : string) : M unit :=
  fun s =>
    (Ok tt, mk_state (st_db s) (st_world s) (st_log s ++ [(l, msg)])%list
              (st_trace s)).

Definition record (ev : Event) : M unit :=
  fun s =>
    (Ok tt, mk_state (st_db s) (st_world s) (st_log s)
              (st_trace s ++ [ev])%list).

Definition now : M datetime :=
  fun s =>
    let (t, w) := datetime_now env (st_world s) in
    (Ok t, mk_state (st_db s) w (st_log s) (st_trace s)).

(** A call to a collaborator outside the process, with the event it leaves
    in the record. *)
Definition call {A : Type} (op : W -> res A * W) (ev : res A -> Event)
  : M A :=
  fun s =>
    let (r, w) := op (st_world s) in
    (r, mk_state (st_db s) w (st_log s) (st_trace s ++ [ev r])%list).

Definition new_scraper : M unit :=
  fun s =>
    (Ok tt, mk_state (st_db s) (scraper_new env (st_world s)) (st_log s)
              (st_trace s)).

(** [self.db.get_requests_for_date(target_date)] *)
Definition db_get_requests_for_date (target_date : string)
  : M (list Request) :=
  fun s => (Ok (get_requests_for_date target_date (st_db s)), s).

(** [self.db.update_request_status(request_id, status, result_message)];
    the method reads the clock itself. *)
Definition db_update_request_status (request_id : Z) (new_status : string)
    (result_message : string) : M unit :=
  t <- now ;;
  record (EvUpdateStatus request_id new_status (Some result_message)) ;;
  fun s =>
    (Ok tt,
     mk_state (update_request_status t request_id new_status
                 (Some result_message) (st_db s))
       (st_world s) (st_log s) (st_trace s)).

Definition send_message (chat_id text : string) : M unit :=
  call (bot_send_message env chat_id text) (EvSendMessage chat_id text).

Definition cross_mark : string := "❌".
Definition check_mark : string := "✅".

(** [for req in requests] after a failed login. *)
Fixpoint fail_all (error_msg : string) (requests : list Request) : M unit :=
  match requests with
  | [] => ret tt
  | req :: rest =>
      db_update_request_status (id req) "failed" error_msg ;;
      try_except
        (send_message (chat_id req)
           (cross_mark ++ " Booking request #" ++ str_int (id req)
            ++ " failed: " ++ error_msg))
        (fun e =>
           logger ERROR ("Failed to send notification: " ++ exn_str e)) ;;
      fail_all error_msg rest
  end.

(** The body of [for req in requests] after a successful login. *)
Definition process_request (req : Request) : M unit :=
  try_except
    (logger INFO ("Processing request #" ++ str_int (id req) ++ ": "
                  ++ requested_date req ++ " at " ++ requested_time req) ;;
     result <- call (scraper_make_booking env (requested_date req)
                       (requested_time req) (court_preference req)
                       (duration req))
                 (EvMakeBooking (id req)) ;;
     let status := if success result then "completed" else "failed" in
     db_update_request_status (id req) status (message result) ;;
     let emoji := if success result then check_mark else cross_mark in
     let message :=
       emoji ++ " Booking request #" ++ str_int (id req) ++ ": "
       ++ message result in
     try_except (send_message (chat_id req) message)
       (fun e =>
          logger ERROR ("Failed to send notification to " ++ chat_id req
                        ++ ": " ++ exn_str e)) ;;
     sleep 2000)
    (fun e =>
       logger ERROR ("Error processing request #" ++ str_int (id req) ++ ": "
                     ++ exn_str e) ;;
       db_update_request_status (id req) "failed" ("Error: " ++ exn_str e) ;;
       try_except
         (send_message (chat_id req)
            (cross_mark ++ " Booking request #" ++ str_int (id req)
             ++ " failed: " ++ exn_str e))
         (fun notify_error =>
            logger ERROR ("Failed to send error notification: "
                          ++ exn_str notify_error))).

Fixpoint process_requests (requests : list Request) : M unit :=
  match requests with
  | [] => ret tt
  | req :: rest => process_request req ;; process_requests rest
  end.

(** The [try] block of [process_pending_requests]; [true] when it ends in
    the [return] of the login-failure branch. *)
Definition with_session (requests : list Request) : M bool :=
  logged_in <- call (scraper_login env) EvLogin ;;
  if negb logged_in then
    let error_msg := login_error_msg in
    logger ERROR error_msg ;;
    fail_all error_msg requests ;;
    ret true
  else
    process_requests requests ;;
    ret false.

Definition process_pending_requests : M unit :=
  logger INFO "Processing pending booking requests..." ;;
  t <- now ;;
  let target_date_obj := add_days LEAD_DAYS (dt_date t) in
  let target_date := strftime_Y_m_d target_date_obj in
  requests <- db_get_requests_for_date target_date ;;
  match requests with
  | [] => logger INFO ("No pending requests for " ++ target_date)
  | _ :: _ =>
      logger INFO ("Found " ++ str_int (Z.of_nat (List.length requests))
                   ++ " pending request(s) for " ++ target_date) ;;
      new_scraper ;;
      returned <- try_finally (with_session requests)
                    (call (scraper_close env) EvClose) ;;
      if returned then ret tt
      else logger INFO "Finished processing booking requests"
  end.

(** [trigger_now] *)
Definition trigger_now : M unit :=
  logger INFO "Manually triggering request processing..." ;;
  process_pending_requests.

(** ** Vocabulary for the properties of a batch run *)

(** The eligible date of a run started in state [s]: today plus the lead
    time, as [process_pending_requests] computes it from the clock. *)
Definition eligible_date (s : State W) : string :=
  strftime_Y_m_d
    (add_days LEAD_DAYS (dt_date (fst (datetime_now env (st_world s))))).

(** The requests the run fetches. *)
Definition fetched (s : State W) : list Request :=
  get_requests_for_date (eligible_date s) (st_db s).

End Scheduler.

(** The calls recorded between two states of a run. *)
Definition events_since {W : Type} (s s' : State W) : list Event :=
  skipn (List.length (st_trace s)) (st_trace s').

(** The state a batch run leaves, and the calls it recorded. *)
Definition after_batch {W : Type} (env : Collaborators W) (s : State W)
  : State W :=
  snd (process_pending_requests env s).

Definition batch_events {W : Type} (env : Collaborators W) (s : State W)
  : list Event :=
  events_since s (after_batch env s).




(** What [process_request] stores for a request, by how [make_booking]
    ended. *)
Definition outcome_status (r : res Outcome) : string :=
  match r with
  | Ok o => if success o then "completed" else "failed"
  | Raise _ => "failed"
  end.

Definition outcome_message (r : res Outcome) : string :=
  match r with
  | Ok o => message o
  | Raise e => "Error: " ++ exn_str e
  end.

(** The notification texts. *)
Definition outcome_notification (req : Request) (r : res Outcome) : string :=
  match r with
  | Ok o =>
      (if success o then check_mark else cross_mark)
      ++ " Booking request #" ++ str_int (id req) ++ ": " ++ message o
  | Raise e =>
      cross_mark ++ " Booking request #" ++ str_int (id req) ++ " failed: "
      ++ exn_str e
  end.

Definition login_failure_notification (req : Request) : string :=
  cross_mark ++ " Booking request #" ++ str_int (id req) ++ " failed: "
  ++ login_error_msg.


(** The login attempts recorded. *)
Definition login_results (evs : list Event) : list (res bool) :=
  flat_map (fun ev => match ev with
                      | EvLogin r => [r]
                      | _ => []
                      end) evs.

(** A status update as it reaches the table: the clock reading taken by
    [update_request_status] and its three arguments. *)
Definition Update : Type := datetime * (Z * string * option string).

Definition updated_id (u : Update) : Z := fst (fst (snd u)).

Definition apply_update (db : DB) (u : Update) : DB :=
  update_request_status (fst u) (fst (fst (snd u))) (snd (fst (snd u)))
    (snd (snd u)) db.

Definition apply_updates (us : list Update) (db : DB) : DB :=
  fold_left apply_update us db.

(** How one request went in a run after a successful login: how
    [make_booking] ended, the clock reading of the status update, and how
    the notification ended; the events it leaves and the update it
    writes. *)
Definition Run : Type := res Outcome * datetime * res unit.

Definition run_events (req : Request) (run : Run) : list Event :=
  [ EvMakeBooking (id req) (fst (fst run));
    EvUpdateStatus (id req) (outcome_status (fst (fst run)))
      (Some (outcome_message (fst (fst run))));
    EvSendMessage (chat_id req) (outcome_notification req (fst (fst run)))
      (snd run) ].

Definition run_update (req : Request) (run : Run) : Update :=
  (snd (fst run),
   (id req, outcome_status (fst (fst run)),
    Some (outcome_message (fst (fst run))))).

(** The same for a request failed after a failed login: the clock reading
    and how the notification ended. *)
Definition failed_events (req : Request) (run : datetime * res unit)
  : list Event :=
  [ EvUpdateStatus (id req) "failed" (Some login_error_msg);
    EvSendMessage (chat_id req) (login_failure_notification req) (snd run) ].

Definition failed_update (req : Request) (run : datetime * res unit)
  : Update :=
  (fst run, (id req, "failed", Some login_error_msg)).

(** [ORDER BY created_at] as a relation between neighbours. *)
Definition created_no_later (a b : Request) : Prop :=
  String.leb (created_at a) (created_at b) = true.

(** The scheduler wired to the scraper of [booking_scraper.py]: the world
    is the scraper's session over a browser world [W0]. *)
Section Wired.
Context {W0 Elem : Type}.
Variable drv : WebDriver W0 Elem.
Variables url username password : string.
Variable bot_send_message : string -> string -> W0 -> res unit * W0.
Variable datetime_now : W0 -> datetime * W0.

Definition on_world {A : Type} (op : W0 -> A * W0) (s : Session W0)
  : A * Session W0 :=
  let (r, w) := op (world s) in
  (r, mk_session w (has_driver s) (log s)).

Definition wired : Collaborators (Session W0) :=
  mk_collaborators (Session W0)
    (fun s => mk_session (world s) false (log s))
    (login drv url username password)
    (make_booking drv url)
    (close drv)
    (fun chat_id text => on_world (bot_send_message chat_id text))
    (on_world datetime_now).

End Wired.

(** The [close] calls recorded, each with how it ended. *)
Definition close_results (evs : list Event) : list (res unit) :=
  flat_map (fun ev => match ev with
                      | EvClose r => [r]
                      | _ => []
                      end) evs.

(** What [process_pending_requests] returns or raises once requests were
    fetched, by how [login] and [close] ended: the [finally] clause runs
    [close] however the [try] block ends, and an exception of [close]
    replaces the one of [login]. *)
Definition run_result (logged_in : res bool) (closed : res unit) : res unit :=
  match closed with
  | Raise e => Raise e
  | Ok _ =>
      match logged_in with
      | Raise e => Raise e
      | Ok _ => Ok tt
      end
  end.

(** The day the run computes as its target: today plus the lead time. *)
Definition target_day {W : Type} (env : Collaborators W) (s : State W)
  : date :=
  add_days LEAD_DAYS (dt_date (fst (datetime_now env (st_world s)))).

End BookingScheduler.

(* ===================================================================== *)
(** * main.py                                                             *)
(* ===================================================================== *)

Module Main.
Import Database.
Import BookingScraper.

(** What a handler reads of its [update] and [context]: the ids of the
    sender and of the chat, and [context.args], the words that followed
    the command (an empty list when there are none). *)
Record Command : Type := mk_command {
  effective_user_id : Z;
  effective_chat_id : Z;
  args : list string
}.

(** The bot process: the table behind the global [db], everything outside
    ([W]: the configuration, Telegram, the clock), the log records, and
    the replies handed to Telegram with how each call ended. *)
Record Bot (W : Type) : Type := mk_bot {
  bot_db : DB;
  bot_world : W;
  bot_log : list (level * string);
  bot_replies : list (string * res unit)
}.
Arguments mk_bot {W}.
Arguments bot_db {W}.
Arguments bot_world {W}.
Arguments bot_log {W}.
Arguments bot_replies {W}.

Record Telegram (W : Type) : Type := mk_telegram {
  (** [config.is_configured()] *)
  config_is_configured : W -> res bool * W;
  (** [await update.message.reply_text(text)] *)
  message_reply_text : string -> W -> res unit * W;
  (** [datetime.now()] *)
  clock_now : W -> datetime * W
}.
Arguments config_is_configured {W}.
Arguments message_reply_text {W}.
Arguments clock_now {W}.

(** The marks of the replies, as the source file spells them. *)
Definition cross_mark : string := "‚ùå".
Definition check_mark : string := "‚úÖ".
Definition clipboard_mark : string := "üìã".

Definition nl : string := String (ascii_of_nat 10) EmptyString.

(** SQLite's [INTEGER]: binding a Python [int] outside 64 bits raises
    [OverflowError]. *)
Definition in_sqlite_range (z : Z) : bool :=
  ((- 2 ^ 63 <=? z) && (z <? 2 ^ 63))%Z.

Definition sqlite_overflow : exn :=
  mk_exn OtherException "Python int too large to convert to SQLite INTEGER".

Section Handlers.
Context {W : Type}.
Variable env : Telegram W.

Local Abbreviation M := (Py.M (Bot W)).

Definition logger (l : level) (msg : string) : M unit :=
  fun s =>
    (Ok tt, mk_bot (bot_db s) (bot_world s) (bot_log s ++ [(l, msg)])%list
              (bot_replies s)).

Definition is_configured : M bool :=
  fun s =>
    let (r, w) := config_is_configured env (bot_world s) in
    (r, mk_bot (bot_db s) w (bot_log s) (bot_replies s)).

Definition reply_text (text : string) : M unit :=
  fun s =>
    let (r, w) := message_reply_text env text (bot_world s) in
    (r, mk_bot (bot_db s) w (bot_log s) (bot_replies s ++ [(text, r)])%list).

Definition now : M datetime :=
  fun s =>
    let (t, w) := clock_now env (bot_world s) in
    (Ok t, mk_bot (bot_db s) w (bot_log s) (bot_replies s)).

(** The value of an expression that may raise. *)
Definition eval {A : Type} (r : res A) : M A := fun s => (r, s).

(** [context.args[i]] *)
Definition arg (args : list string) (i : nat) : M string :=
  match nth_error args i with
  | Some a => ret a
  | None => raise (mk_exn OtherException "list index out of range")
  end.

(** [db.add_request(...)]: the method reads the clock, then inserts. *)
Definition db_add_request (user_id chat_id requested_date requested_time
    : string) (court_preference : option string) (duration : Z) : M Z :=
  t <- now ;;
  if in_sqlite_range duration then
    fun s =>
      let (db', request_id) :=
        add_request t user_id chat_id requested_date requested_time
          court_preference duration (bot_db s) in
      (Ok request_id,
       mk_bot db' (bot_world s) (bot_log s) (bot_replies s))
  else raise sqlite_overflow.


(** [db.get_user_requests(user_id)] *)
Definition db_get_user_requests (user_id : string) : M (list Request) :=
  fun s => (Ok (get_user_requests user_id (bot_db s)), s).

(** The inner [try] of [book_command] that reads the duration and the
    court preference. *)
Definition read_duration (args : list string) : M (Z * option string) :=
  try_except_of [ValueError]
    (a <- arg args 2 ;;
     duration <- eval (int a) ;;
     ret (duration,
          if 3 <? List.length args then Some (join " " (skipn 3 args))
          else None))
    (ret (90%Z, Some (join " " (skipn 2 args)))).

(** The [try] that checks the date; [true] when the handler returns in
    it. *)
Definition check_date (date_str : string) : M bool :=
  try_except_of [ValueError]
    (requested_date <- eval (strptime_Y_m_d date_str) ;;
     t <- now ;;
     if date_ltb requested_date (dt_date t) then
       reply_text (cross_mark ++ " Cannot book dates in the past") ;;
       ret true
     else ret false)
    (reply_text (cross_mark ++ " Invalid date") ;;
     ret true).

Definition created_text (request_id : Z) (date_str time_str : string)
    (court_preference : option string) (duration : Z) : string :=
  let court_text :=
    if truthy court_preference
    then " (Court: " ++ fmt_opt court_preference ++ ")"
    else "" in
  check_mark ++ " Booking request #" ++ str_int request_id ++ " created!"
  ++ nl ++ "Date: " ++ date_str ++ nl
  ++ "Time: " ++ time_str ++ court_text ++ nl ++ nl
  ++ "Duration: " ++ str_int duration ++ " minutes" ++ nl ++ nl
  ++ "The bot will attempt to book this at 7:00 AM, 48 hours in advance.".

(** The outer [try] block of [book_command]. *)
Definition book_body (cmd : Command) : M unit :=
  date_str <- arg (args cmd) 0 ;;
  time_str <- arg (args cmd) 1 ;;
  parsed <- read_duration (args cmd) ;;
  let duration := fst parsed in
  let court_preference := snd parsed in
  if negb (match_date_pattern date_str) then
    reply_text (cross_mark
      ++ " Invalid date format. Please use YYYY-MM-DD (e.g., 2024-12-25)")
  else
    returned <- check_date date_str ;;
    if returned then ret tt
    else if negb (match_time_pattern time_str) then
      reply_text (cross_mark
        ++ " Invalid time format. Please use HH:MM (e.g., 10:00)")
    else
      let user_id := str_int (effective_user_id cmd) in
      let chat_id := str_int (effective_chat_id cmd) in
      request_id <- db_add_request user_id chat_id date_str time_str
                      court_preference duration ;;
      reply_text (created_text request_id date_str time_str
                    court_preference duration) ;;
      logger INFO ("User " ++ user_id ++ " created booking request #"
                   ++ str_int request_id).

Definition book_command (cmd : Command) : M unit :=
  configured <- is_configured ;;
  if negb configured then
    reply_text (cross_mark
      ++ " Bot is not fully configured. Please set up credentials in config.ini")
  else if List.length (args cmd) <? 2 then
    reply_text (cross_mark ++ " Usage: /book <date> <time> [court]" ++ nl
                ++ "Example: /book 2024-12-25 10:00 Court 1")
  else
    try_except (book_body cmd)
      (fun e =>
         logger ERROR ("Error processing book command: " ++ exn_str e) ;;
         reply_text (cross_mark ++ " Error creating booking request: "
                     ++ exn_str e)).

(** The lines of [status_command] for the pending requests, and for the
    completed or failed ones. *)
Definition pending_line (req : Request) : string :=
  let court_text :=
    if truthy (court_preference req)
    then " (Court: " ++ fmt_opt (court_preference req) ++ ")"
    else "" in
  "  #" ++ str_int (id req) ++ ": " ++ requested_date req ++ " at "
  ++ requested_time req ++ court_text ++ " for " ++ str_int (duration req)
  ++ " minutes".

Definition settled_line (req : Request) : string :=
  "  #" ++ str_int (id req) ++ ": " ++ requested_date req ++ " at "
  ++ requested_time req.

Definition with_status (st : string) (requests : list Request)
  : list Request :=
  filter (fun r => String.eqb (status r) st) requests.

Definition pending_header : string := clipboard_mark ++ " Pending Requests:".
Definition completed_header : string := nl ++ check_mark ++ " Completed:".
Definition failed_header : string := nl ++ cross_mark ++ " Failed:".

(** [message_parts] at the end of [status_command]. *)
Definition message_parts (requests : list Request) : list string :=
  let pending := with_status "pending" requests in
  let completed := with_status "completed" requests in
  let failed := with_status "failed" requests in
  ((match pending with
    | [] => []
    | _ => pending_header :: map pending_line (firstn 10 pending)
    end)
   ++ (match completed with
       | [] => []
       | _ => completed_header :: map settled_line (firstn 5 completed)
       end)
   ++ (match failed with
       | [] => []
       | _ => failed_header :: map settled_line (firstn 5 failed)
       end))%list.

Definition status_command (cmd : Command) : M unit :=
  let user_id := str_int (effective_user_id cmd) in
  requests <- db_get_user_requests user_id ;;
  match requests with
  | [] => reply_text "You have no booking requests."
  | _ =>
      reply_text (match message_parts requests with
                  | [] => "No requests found."
                  | parts => join nl parts
                  end)
  end.


End Handlers.

(** What [book_command] takes as duration and court preference from the
    words after the time: a third word that [int] reads is the duration
    and the words after it, if any, are the court; a third word that
    [int] does not read starts the court, with a duration of 90. *)
Definition duration_and_court (args : list string) (duration : Z)
    (court : option string) : Prop :=
  exists a,
    nth_error args 2 = Some a
    /\ ((int_literal a = Some duration
         /\ court = if 3 <? List.length args
                    then Some (join " " (skipn 3 args)) else None)
        \/ (int_literal a = None /\ duration = 90%Z
            /\ court = Some (join " " (skipn 2 args)))).

(** The reply to a [/book] whose third word is missing: [str(e)] of the
    [IndexError] that [context.args[2]] raises. *)
Definition index_error_reply : string :=
  cross_mark ++ " Error creating booking request: list index out of range".


(** A line of the [/status] reply is a header or the line of a request. *)
Definition is_header (line : string) : Prop :=
  line = pending_header \/ line = completed_header \/ line = failed_header.

(** The request lines of the reply: the pending requests with their
    details, the completed and failed ones by date and time. *)
Definition is_request_line (user : string) (db : DB) (line : string) : Prop :=
  exists row,
    In row db /\ user_id row = user
    /\ ((status row = "pending" /\ line = pending_line row)
        \/ ((status row = "completed" \/ status row = "failed")
            /\ line = settled_line row)).

End Main.

(* ===================================================================== *)
(** * Sample data                                                         *)
(* ===================================================================== *)

(** Concrete tables and worlds on which the definitions are run. *)
Module Samples.
Import Database.

Definition at_7am (y m d : nat) : datetime :=
  mk_datetime (mk_date y m d) 7 0 0 0.

(** Three requests, created in this order: two for 25 December by different
    users and one for 26 December. *)
Definition one_request : DB :=
  fst (add_request (mk_datetime (mk_date 2024 12 20) 9 30 0 0)
         "alice" "chat-a" "2024-12-25" "10:00" (Some "Court 1") 30 []).

Definition two_requests : DB :=
  fst (add_request (mk_datetime (mk_date 2024 12 20) 18 5 12 250)
         "bob" "chat-b" "2024-12-25" "14:05" None 90 one_request).

Definition three_requests : DB :=
  fst (add_request (mk_datetime (mk_date 2024 12 21) 8 0 0 0)
         "alice" "chat-a" "2024-12-26" "06:00" None 60 two_requests).

(** A history: a cancellation by someone else, one by the owner, an
    outcome for the second request, a repeated cancellation, a creation. *)
Definition sample_ops : list Op :=
  [ OpCancel 1 "bob";
    OpCancel 1 "alice";
    OpUpdateStatus (at_7am 2024 12 23) 2 "completed" (Some "booked");
    OpCancel 1 "alice";
    OpCreate (at_7am 2024 12 23) "carol" "chat-c" "2024-12-27" "09:00"
      None 90 ].

(** Pages at rest. *)
Import BookingScraper.

Definition by_eqb (a b : By) : bool :=
  match a, b with
  | CSS_SELECTOR, CSS_SELECTOR | XPATH, XPATH | ID, ID => true
  | _, _ => false
  end.

Definition page_of (entries : list (By * string * PageElement)) : Page :=
  fun by_ value =>
    option_map snd
      (find (fun e => by_eqb (fst (fst e)) by_
                      && String.eqb (snd (fst e)) value) entries).

(** Nothing on the page. *)
Definition blank_page : Page := fun _ _ => None.

(** The portal's success label is shown; the message container that the
    first indicator selects is there too, but hidden. *)
Definition confirmed_page : Page :=
  page_of
    [ (XPATH,
       "//div[@id='_activities_WAR_northstarportlet_:activityForm:activityMessage']//label[contains(@class, 'portlet-msg-success')]",
       mk_element false "");
      (XPATH, "//label[contains(text(), 'Reservation created successfully')]",
       mk_element true "Reservation created successfully") ].

(** No success indicator is visible; an error text is. *)
Definition refused_page : Page :=
  page_of
    [ (XPATH, "//div[contains(@class, 'ui-messages-info')]",
       mk_element false "");
      (XPATH, "//div[contains(text(), 'unavailable')]",
       mk_element true "Slot unavailable") ].

(** A portal on which every XPath and CSS lookup resolves to a displayed
    element, and of the form's labels only the time label exists: the
    court and the duration dropdowns cannot be opened. *)
Definition only_time_label : Page :=
  fun by_ value =>
    match by_ with
    | ID =>
        if String.eqb value time_label_id
        then Some (mk_element true "06:00 AM") else None
    | _ => Some (mk_element true "Reservation created successfully")
    end.

(** The same portal without the time label. *)
Definition no_labels : Page :=
  fun by_ value =>
    match by_ with
    | ID => None
    | _ => Some (mk_element true "Reservation created successfully")
    end.

(** A machine on which the browser cannot be started: the constructor of
    the Chrome driver raises. *)
Definition broken_chrome : WebDriver Page PageElement :=
  mk_driver Page PageElement
    (fun p =>
       (Raise (mk_exn OtherException
                 "Message: Unable to obtain driver for chrome"), p))
    (driver_get page_driver)
    (driver_quit page_driver)
    (driver_current_url page_driver)
    (driver_find_element page_driver)
    (wait_presence page_driver)
    (wait_clickable page_driver)
    (driver_execute_script page_driver)
    (elem_click page_driver)
    (elem_clear page_driver)
    (elem_send_keys page_driver)
    (elem_is_displayed page_driver)
    (elem_text page_driver)
    (format_exc page_driver).

Definition portal_url : string := "https://portal.example/booking".

(** A fourth request, again for 25 December. *)
Definition four_requests : DB :=
  fst (add_request (mk_datetime (mk_date 2024 12 22) 21 15 40 0)
         "carol" "chat-c" "2024-12-25" "18:00" (Some "Court 2") 60
         three_requests).

(** Collaborators for a run on the morning of 23 December: the login
    returns [login_ok]; [make_booking] finds no entry slot for 14:05,
    loses its session at 18:00 and books every other time; the bot accepts
    every message. *)
Import BookingScheduler.

Definition morning_collaborators (login_ok : bool) : Collaborators unit :=
  mk_collaborators unit
    (fun w => w)
    (fun w => (Ok login_ok, w))
    (fun date time_slot _ _ w =>
       (if String.eqb time_slot "14:05" then
          Ok (mk_outcome false "Entry slot (ID 11 at 06:00 AM) not found in grid.")
        else if String.eqb time_slot "18:00" then
          Raise (mk_exn OtherException "invalid session id")
        else
          Ok (mk_outcome true ("Booking confirmed for " ++ date ++ " at "
                               ++ time_slot ++ ": Reservation created successfully")),
        w))
    (fun w => (Ok tt, w))
    (fun _ _ w => (Ok tt, w))
    (fun w => (at_7am 2024 12 23, w)).

Definition morning : State unit := mk_state four_requests tt [] [].

(** A table whose only request is for 30 December. *)
Definition later_request : DB :=
  fst (add_request (mk_datetime (mk_date 2024 12 20) 9 30 0 0)
         "alice" "chat-a" "2024-12-30" "10:00" None 90 []).

(** The scheduler on the scraper of [booking_scraper.py], on a machine
    where the browser cannot be started, on the morning of 23 December. *)
Definition chrome_down : Collaborators (Session Page) :=
  wired broken_chrome portal_url "user" "secret"
    (fun _ _ p => (Ok tt, p))
    (fun p => (at_7am 2024 12 23, p)).

Definition chrome_down_morning : State (Session Page) :=
  mk_state four_requests (mk_session blank_page false []) [] [].

(** A configured bot on the morning of 23 December whose replies all go
    through, and a table with one request made through [/book] by user 7
    in chat 8. *)
Definition telegram (configured : bool) : Main.Telegram unit :=
  Main.mk_telegram unit
    (fun w => (Ok configured, w))
    (fun _ w => (Ok tt, w))
    (fun w => (at_7am 2024 12 23, w)).

Definition booked_by_7 : DB :=
  fst (add_request (mk_datetime (mk_date 2024 12 20) 9 30 0 0)
         "7" "8" "2024-12-25" "10:00" None 90 []).

Definition bot : Main.Bot unit := Main.mk_bot booked_by_7 tt [] [].

End Samples.

(* ===================================================================== *)
(** * Properties                                                          *)
(* ===================================================================== *)

Import Database.
Import BookingScraper.

(** ** Time formatting *)















(** ** The requests table *)

Lemma cancellable_iff i u r :
  cancellable i u r = true <->
  id r = i /\ user_id r = u /\ status r = "pending".
Proof.
  unfold cancellable. rewrite !andb_true_iff, Z.eqb_eq, !String.eqb_eq.
  tauto.
Qed.


Lemma map_fixed {A : Type} (f : A -> A) (l : list A) :
  (forall x, In x l -> f x = x) -> map f l = l.
Proof.
  intros H. rewrite <- (map_id l) at 2. apply map_ext_in. exact H.
Qed.





Ltac solve_NoDup :=
  vm_compute;
  repeat (constructor;
          [ simpl; intros HIn;
            repeat (destruct HIn as [HIn|HIn]; [discriminate HIn|]);
            exact HIn | ]);
  constructor.



Lemma terminal_not_pending s : is_terminal s -> s <> "pending".
Proof. intros [ -> | [ -> | -> ] ]; discriminate. Qed.

(** What one operation does to a row already in the table. *)
Lemma exec_op_row op db k r :
  sets_outcome op ->
  nth_error db k = Some r ->
  exists r',
    nth_error (exec_op op db) k = Some r'
    /\ id r' = id r /\ user_id r' = user_id r
    /\ (is_terminal (status r) -> is_terminal (status r'))
    /\ (status r' = "cancelled" ->
        status r = "cancelled"
        \/ (status r = "pending" /\ op = OpCancel (id r) (user_id r))).
Proof.
  intros Hop Hk. destruct op as [now u c d t court dur|now i st m|i u]; simpl.
  - exists r. rewrite nth_error_app1;
      [|apply nth_error_Some; rewrite Hk; discriminate].
    repeat split; auto.
  - unfold update_request_status. rewrite nth_error_map, Hk; simpl.
    destruct (id r =? i)%Z.
    + eexists; split; [reflexivity|]. simpl in *. repeat split; auto.
      * intros _. unfold is_terminal. tauto.
      * intros ->. destruct Hop; discriminate.
    + exists r. repeat split; auto.
  - rewrite nth_error_map, Hk; simpl.
    destruct (cancellable i u r) eqn:E.
    + apply cancellable_iff in E. destruct E as [Hi [Hu Hs]].
      eexists; split; [reflexivity|]. simpl. repeat split; auto.
      * intros _. unfold is_terminal. tauto.
      * intros _. right. subst. auto.
    + exists r. repeat split; auto.
Qed.

(** A row an operation adds is a pending one, and only creation adds. *)
Lemma exec_op_new_row op db k r' :
  nth_error db k = None ->
  nth_error (exec_op op db) k = Some r' ->
  status r' = "pending" /\ processed_at r' = None
  /\ exists now u c d t court dur, op = OpCreate now u c d t court dur.
Proof.
  intros Hk. destruct op as [now u c d t court dur|now i st m|i u]; simpl.
  - apply nth_error_None in Hk. rewrite nth_error_app2; [|exact Hk].
    destruct (k - List.length db) as [|n]; simpl.
    + intros H; inversion H; subst; simpl. repeat split; auto.
      repeat eexists.
    + destruct n; discriminate.
  - unfold update_request_status. rewrite nth_error_map, Hk. discriminate.
  - rewrite nth_error_map, Hk. discriminate.
Qed.

Lemma exec_ops_app pre post db :
  exec_ops (pre ++ post) db = exec_ops post (exec_ops pre db).
Proof. unfold exec_ops. apply fold_left_app. Qed.

Lemma exec_ops_rows ops : forall db k r,
  Forall sets_outcome ops ->
  nth_error db k = Some r ->
  exists r',
    nth_error (exec_ops ops db) k = Some r'
    /\ id r' = id r /\ user_id r' = user_id r
    /\ (is_terminal (status r) -> is_terminal (status r')).
Proof.
  induction ops as [|op ops IH]; intros db k r Hops Hk.
  - exists r. auto.
  - inversion Hops as [|? ? Hop Hrest]; subst.
    destruct (exec_op_row op db k r Hop Hk) as [r1 [H1 [Hid [Hu [Ht _]]]]].
    destruct (IH _ _ _ Hrest H1) as [r' [H' [Hid' [Hu' Ht']]]].
    exists r'. simpl. split; [exact H'|].
    repeat split; try congruence. auto.
Qed.

(** C5.  Along every sequence of repository operations in which
    [update_request_status] is given the outcomes [completed] and [failed]
    (as every call in the program does), a row keeps its id and owner, a
    terminal status stays terminal and so never goes back to [pending], a
    row becomes [cancelled] only from [pending] and only through
    [cancel_request] called with the row's own id and owner, and a row
    enters the table only by creation, as [pending]. *)
Theorem status_transitions_monotonic (ops : list Op) (db0 : DB) :
  Forall sets_outcome ops ->
  (forall k r, nth_error db0 k = Some r ->
     exists r',
       nth_error (exec_ops ops db0) k = Some r'
       /\ id r' = id r /\ user_id r' = user_id r
       /\ (is_terminal (status r) ->
           is_terminal (status r') /\ status r' <> "pending"))
  /\ (forall pre op post k r r',
        ops = (pre ++ op :: post)%list ->
        nth_error (exec_ops pre db0) k = Some r ->
        nth_error (exec_op op (exec_ops pre db0)) k = Some r' ->
        (is_terminal (status r) -> status r' <> "pending")
        /\ (status r' = "cancelled" ->
            status r = "cancelled"
            \/ (status r = "pending"
                /\ op = OpCancel (id r) (user_id r))))
  /\ (forall pre op post k r',
        ops = (pre ++ op :: post)%list ->
        nth_error (exec_ops pre db0) k = None ->
        nth_error (exec_op op (exec_ops pre db0)) k = Some r' ->
        status r' = "pending").
Proof.
  intros Hops. split; [|split].
  - intros k r Hk.
    destruct (exec_ops_rows ops db0 k r Hops Hk) as [r' [H' [Hid [Hu Ht]]]].
    exists r'. repeat split; auto. apply terminal_not_pending. auto.
  - intros pre op post k r r' -> Hk Hk'.
    assert (Hop : sets_outcome op).
    { rewrite Forall_forall in Hops. apply Hops.
      apply in_or_app. right. left. reflexivity. }
    destruct (exec_op_row op _ k r Hop Hk) as [r1 [H1 [_ [_ [Ht Hc]]]]].
    rewrite Hk' in H1. inversion H1; subst r1.
    split; [|exact Hc]. intros H. apply terminal_not_pending. auto.
  - intros pre op post k r' -> Hk Hk'.
    apply (exec_op_new_row op _ k r' Hk Hk').
Qed.

(** The restriction on [update_request_status] is what the program's call
    sites provide, not something the method checks: it writes whatever
    status it is given. *)
Remark update_request_status_unguarded now message :
  map status
    (update_request_status now 1 "pending" message
       (update_request_status now 1 "completed" message Samples.one_request))
  = ["pending"].
Proof. reflexivity. Qed.

Lemma status_transitions_witness :
  Forall sets_outcome Samples.sample_ops
  /\ exists r r',
       nth_error Samples.two_requests 0 = Some r
       /\ nth_error (exec_ops Samples.sample_ops Samples.two_requests) 0
          = Some r'
       /\ id r' = id r /\ user_id r' = user_id r.
Proof.
  assert (Hops : Forall sets_outcome Samples.sample_ops).
  { repeat constructor. }
  split; [exact Hops|].
  destruct (status_transitions_monotonic Samples.sample_ops
              Samples.two_requests Hops) as [Hrows _].
  eexists.
  destruct (Hrows 0 _ eq_refl) as [r' [Hk [Hid [Hu _]]]].
  exists r'. repeat split; assumption.
Defined.

Lemma exec_op_unprocessed op db :
  sets_outcome op ->
  Forall unprocessed db -> Forall unprocessed (exec_op op db).
Proof.
  intros Hop Hdb. destruct op as [now u c d t court dur|now i st m|i u]; simpl.
  - apply Forall_app. split; [exact Hdb|].
    constructor; [|constructor]. intros _. reflexivity.
  - unfold update_request_status. apply Forall_map.
    eapply Forall_impl; [|exact Hdb]. intros r Hr.
    destruct (id r =? i)%Z; [|exact Hr].
    unfold unprocessed; simpl. simpl in Hop.
    intros [H|H]; rewrite H in Hop; destruct Hop; discriminate.
  - apply Forall_map. eapply Forall_impl; [|exact Hdb]. intros r Hr.
    destruct (cancellable i u r) eqn:E; [|exact Hr].
    apply cancellable_iff in E. destruct E as [_ [_ Hs]].
    unfold unprocessed; simpl. intros _. apply Hr. left. exact Hs.
Qed.

Lemma exec_ops_unprocessed ops : forall db,
  Forall sets_outcome ops ->
  Forall unprocessed db -> Forall unprocessed (exec_ops ops db).
Proof.
  induction ops as [|op ops IH]; intros db Hops Hdb; [exact Hdb|].
  inversion Hops; subst. simpl. apply IH; [assumption|].
  apply exec_op_unprocessed; assumption.
Qed.

(** C9, as the claim states it, fails: cancelling the one pending request
    of a table moves it to the terminal status [cancelled] and leaves its
    processed timestamp unset. *)
Lemma cancellation_sets_no_processed_at :
  map status (exec_op (OpCancel 1 "alice") Samples.one_request)
  = ["cancelled"]
  /\ map processed_at (exec_op (OpCancel 1 "alice") Samples.one_request)
     = [None]
  /\ ~ stamps_terminal_transitions (OpCancel 1 "alice") Samples.one_request.
Proof.
  split; [reflexivity|]. split; [reflexivity|].
  intros H.
  refine (H 0 _ _ eq_refl eq_refl _ _ eq_refl).
  - discriminate.
  - right. right. reflexivity.
Qed.

(** C9, amended.  [update_request_status] stores the time of the update as
    the processed timestamp together with the status it is given, so every
    transition to [completed] or [failed] is stamped; [cancel_request]
    rewrites the status only and leaves the processed timestamp as it was;
    and in every table built from the empty one by the program's
    operations, a row that is pending, and so the row a cancellation
    produces, has no processed timestamp. *)
Theorem processed_at_set_by_outcomes_only (db : DB) (k : nat) (r : Request) :
  nth_error db k = Some r ->
  (forall now new_status message,
     nth_error (update_request_status now (id r) new_status message db) k
     = Some (set_processed new_status (isoformat now) message r)
     /\ status (set_processed new_status (isoformat now) message r)
        = new_status
     /\ processed_at (set_processed new_status (isoformat now) message r)
        = Some (isoformat now))
  /\ (forall i u,
        exists r',
          nth_error (fst (cancel_request i u db)) k = Some r'
          /\ processed_at r' = processed_at r)
  /\ (forall ops,
        Forall sets_outcome ops ->
        db = exec_ops ops [] ->
        status r = "pending" ->
        nth_error (fst (cancel_request (id r) (user_id r) db)) k
        = Some (set_cancelled r)
        /\ status (set_cancelled r) = "cancelled"
        /\ processed_at (set_cancelled r) = None).
Proof.
  intros Hk. split; [|split].
  - intros now st m. unfold update_request_status.
    rewrite nth_error_map, Hk; simpl. rewrite Z.eqb_refl. auto.
  - intros i u. unfold cancel_request; simpl.
    rewrite nth_error_map, Hk; simpl.
    destruct (cancellable i u r); eexists; split; reflexivity.
  - intros ops Hops Hdb Hs.
    assert (Hc : cancellable (id r) (user_id r) r = true).
    { apply cancellable_iff. auto. }
    unfold cancel_request; simpl. rewrite nth_error_map, Hk; simpl.
    rewrite Hc. split; [reflexivity|]. split; [reflexivity|].
    simpl.
    assert (Hall : Forall unprocessed db).
    { rewrite Hdb. apply exec_ops_unprocessed; [exact Hops|constructor]. }
    rewrite Forall_forall in Hall.
    apply (Hall r); [eapply nth_error_In; exact Hk|]. left. exact Hs.
Qed.

Lemma processed_at_witness :
  exists r,
    nth_error Samples.one_request 0 = Some r
    /\ nth_error (fst (cancel_request (id r) (user_id r) Samples.one_request))
         0 = Some (set_cancelled r)
    /\ processed_at (set_cancelled r) = None.
Proof.
  eexists. split; [reflexivity|].
  destruct (processed_at_set_by_outcomes_only Samples.one_request 0 _ eq_refl)
    as [_ [_ Hcancel]].
  destruct (Hcancel
              [OpCreate (mk_datetime (mk_date 2024 12 20) 9 30 0 0)
                 "alice" "chat-a" "2024-12-25" "10:00" (Some "Court 1") 30]
              ltac:(repeat constructor) eq_refl eq_refl) as [H1 [_ H3]].
  split; assumption.
Defined.

(** ** Outcome detection *)

(** Unfolding the statements of the scraper. *)
Ltac run_stmt :=
  unfold bind, ret, raise, try_except, try_except_of, try_finally, sleep,
    BookingScraper.logger, driver_call, world_call, set_driver,
    get_has_driver;
  simpl.

(** On a page at rest a scan returns the text of the first visible
    indicator and leaves the session as it was. *)
Lemma scan_indicators_page (p : Page) (lg : list (level * string)) :
  forall indicators,
    scan_indicators page_driver indicators (mk_session p true lg)
    = (Ok (option_map (text_at p) (find (visible p) indicators)),
       mk_session p true lg).
Proof.
  induction indicators as [|indicator rest IH]; [reflexivity|].
  simpl. unfold bind at 1.
  unfold visible at 1, text_at at 1.
  run_stmt. unfold page_lookup.
  destruct (p XPATH indicator) as [e|] eqn:E; simpl.
  - destruct (displayed e) eqn:D; simpl.
    + unfold text_at. rewrite E. reflexivity.
    + exact IH.
  - exact IH.
Qed.

(** C1.  On every page state after the submission, the outcome detection
    returns the outcome the specification describes: the success
    indicators are scanned first, in order, and the first visible one gives
    success with its text appended; only when none is visible are the
    failure indicators scanned, the first visible one giving failure with
    its text; and when neither list has a visible indicator the result is
    failure with the "verify manually" message.  Success is reported only
    when a success indicator is visible. *)
Theorem detect_outcome_conservative (p : Page) (date time_slot : string)
    (lg : list (level * string)) :
  detect_outcome page_driver date time_slot (mk_session p true lg)
  = (Ok (outcome_of_page date time_slot p), mk_session p true lg)
  /\ (forall before indicator after,
        success_indicators = (before ++ indicator :: after)%list ->
        (forall i, In i before -> visible p i = false) ->
        visible p indicator = true ->
        outcome_of_page date time_slot p
        = mk_outcome true ("Booking confirmed for " ++ date ++ " at "
                           ++ time_slot ++ ": " ++ text_at p indicator))
  /\ ((forall i, In i success_indicators -> visible p i = false) ->
      forall before indicator after,
        error_indicators = (before ++ indicator :: after)%list ->
        (forall i, In i before -> visible p i = false) ->
        visible p indicator = true ->
        outcome_of_page date time_slot p
        = mk_outcome false ("Booking failed: " ++ text_at p indicator))
  /\ ((forall i, In i success_indicators -> visible p i = false) ->
      (forall i, In i error_indicators -> visible p i = false) ->
      outcome_of_page date time_slot p
      = mk_outcome false undetermined_message)
  /\ (success (outcome_of_page date time_slot p) = true ->
      exists indicator,
        In indicator success_indicators /\ visible p indicator = true).
Proof.
  assert (Hfirst : forall l before indicator after,
            l = (before ++ indicator :: after)%list ->
            (forall i, In i before -> visible p i = false) ->
            visible p indicator = true ->
            find (visible p) l = Some indicator).
  { intros l before indicator after -> Hb Hv.
    induction before as [|b before IH]; simpl.
    - rewrite Hv. reflexivity.
    - rewrite (Hb b (or_introl eq_refl)). apply IH.
      intros i Hi. apply Hb. right. exact Hi. }
  assert (Hnone : forall l, (forall i, In i l -> visible p i = false) ->
            find (visible p) l = None).
  { intros l Hl. destruct (find (visible p) l) as [i|] eqn:E; [|reflexivity].
    apply find_some in E. destruct E as [Hin Hv].
    rewrite (Hl i Hin) in Hv. discriminate. }
  split; [|split; [|split; [|split]]].
  - unfold detect_outcome, outcome_of_page. unfold bind at 1.
    rewrite (scan_indicators_page p lg success_indicators).
    destruct (find (visible p) success_indicators) as [i|]; cbn [option_map];
      [reflexivity|].
    unfold bind at 1. rewrite (scan_indicators_page p lg error_indicators).
    destruct (find (visible p) error_indicators) as [i|]; reflexivity.
  - intros before indicator after Hl Hb Hv. unfold outcome_of_page.
    rewrite (Hfirst _ _ _ _ Hl Hb Hv). reflexivity.
  - intros Hs before indicator after Hl Hb Hv. unfold outcome_of_page.
    rewrite (Hnone _ Hs), (Hfirst _ _ _ _ Hl Hb Hv). reflexivity.
  - intros Hs He. unfold outcome_of_page.
    rewrite (Hnone _ Hs), (Hnone _ He). reflexivity.
  - unfold outcome_of_page.
    destruct (find (visible p) success_indicators) as [i|] eqn:E.
    + intros _. exists i. apply find_some in E. exact E.
    + destruct (find (visible p) error_indicators); simpl; discriminate.
Qed.

Lemma detect_outcome_witness :
  fst (detect_outcome page_driver "2024-12-25" "14:05"
         (mk_session Samples.confirmed_page true []))
  = Ok (mk_outcome true
          "Booking confirmed for 2024-12-25 at 14:05: Reservation created successfully")
  /\ outcome_of_page "2024-12-25" "14:05" Samples.refused_page
     = mk_outcome false "Booking failed: Slot unavailable"
  /\ outcome_of_page "2024-12-25" "14:05" Samples.blank_page
     = mk_outcome false undetermined_message.
Proof.
  split; [|split].
  - destruct (detect_outcome_conservative Samples.confirmed_page
                "2024-12-25" "14:05" []) as [Hrun [Hfirst _]].
    rewrite Hrun. unfold fst. apply f_equal.
    apply (Hfirst [nth 0 success_indicators ""]
             (nth 1 success_indicators "") (skipn 2 success_indicators)).
    + reflexivity.
    + intros i [<-|[]]. reflexivity.
    + reflexivity.
  - destruct (detect_outcome_conservative Samples.refused_page
                "2024-12-25" "14:05" []) as [_ [_ [Hrefused _]]].
    apply (Hrefused ltac:(intros i Hi; repeat (destruct Hi as [<-|Hi];
                            [reflexivity|]); destruct Hi)
             (firstn 4 error_indicators) (nth 4 error_indicators "")
             (skipn 5 error_indicators)).
    + reflexivity.
    + intros i Hi. repeat (destruct Hi as [<-|Hi]; [reflexivity|]).
      destruct Hi.
    + reflexivity.
  - destruct (detect_outcome_conservative Samples.blank_page
                "2024-12-25" "14:05" []) as [_ [_ [_ [Hblank _]]]].
    apply Hblank; intros; reflexivity.
Defined.

(** ** Form population *)

Section EngineProps.
Context {W Elem : Type}.
Variable drv : WebDriver W Elem.

(** A dropdown selection always returns a boolean. *)
Lemma select_dropdown_option_total label_id option_text wait_time
    (s : Session W) :
  exists ok s',
    _select_dropdown_option drv label_id option_text wait_time s
    = (Ok ok, s').
Proof.
  unfold _select_dropdown_option, try_except.
  match goal with
  | |- context [match ?body s with _ => _ end] =>
      destruct (body s) as [[ok|e] s']
  end.
  - exists ok, s'. reflexivity.
  - run_stmt. eexists _, _. reflexivity.
Qed.

(** The court step always completes; when its selection fails it leaves a
    warning and nothing else. *)
Lemma select_court_completes court (s : Session W) :
  exists s1,
    select_court drv court s = (Ok tt, s1)
    /\ (truthy court = true ->
        forall s',
          _select_dropdown_option drv court_label_id (fmt_opt court) 10 s
          = (Ok false, s') ->
          s1 = logged WARNING
                 ("Could not select " ++ fmt_opt court
                  ++ ", proceeding with current selection.") s').
Proof.
  unfold select_court. destruct (truthy court) eqn:T.
  - destruct (select_dropdown_option_total court_label_id (fmt_opt court)
                10 s) as [ok [s' Hsel]].
    unfold bind at 1. rewrite Hsel. destruct ok; run_stmt.
    + eexists. split; [reflexivity|]. intros _ s'' H. discriminate H.
    + eexists. split; [reflexivity|]. intros _ s'' H.
      inversion H; subst. reflexivity.
  - exists s. split; [reflexivity|]. discriminate.
Qed.

Lemma select_duration_completes duration_minutes (s : Session W) :
  exists s1,
    select_duration drv duration_minutes s = (Ok tt, s1)
    /\ (forall s',
          _select_dropdown_option drv duration_label_id
            (str_int duration_minutes) 10 s = (Ok false, s') ->
          s1 = logged WARNING
                 ("Could not select duration " ++ str_int duration_minutes)
                 s').
Proof.
  unfold select_duration.
  destruct (select_dropdown_option_total duration_label_id
              (str_int duration_minutes) 10 s) as [ok [s' Hsel]].
  unfold bind at 1. rewrite Hsel. destruct ok; run_stmt.
  - eexists. split; [reflexivity|]. intros s'' H. discriminate H.
  - eexists. split; [reflexivity|]. intros s'' H.
    inversion H; subst. reflexivity.
Qed.

End EngineProps.

Lemma try_except_bind {S A B : Type} (m : Py.M S A) (k : A -> Py.M S B)
    (h : exn -> Py.M S B) (s : S) :
  try_except (bind m k) h s
  = match m s with
    | (Ok a, s') => try_except (k a) h s'
    | (Raise e, s') => h e s'
    end.
Proof. unfold try_except, bind. destruct (m s) as [[a|e] s']; reflexivity. Qed.

(** C7.  Once the reservation form is open, the court step and the
    duration step always complete, whatever their selections return: a
    failed selection leaves a warning in the log and the attempt goes on
    with what the form holds.  The time selection decides: when it returns
    false, [make_booking] returns the failure "Could not select time ...";
    when it returns true, the attempt goes on to the submission. *)
Theorem form_population_fatality {W Elem : Type} (drv : WebDriver W Elem)
    (url date time_slot : string) (court_preference : option string)
    (duration_minutes : Z) (s0 s : Session W) :
  open_form drv url date s0 = (Ok None, s) ->
  exists s1 time_selected s2,
    select_court drv court_preference s = (Ok tt, s1)
    /\ (truthy court_preference = true ->
        forall s',
          _select_dropdown_option drv court_label_id
            (fmt_opt court_preference) 10 s = (Ok false, s') ->
          s1 = logged WARNING
                 ("Could not select " ++ fmt_opt court_preference
                  ++ ", proceeding with current selection.") s')
    /\ _select_dropdown_option drv time_label_id
         (_convert_time_format time_slot) 10 s1 = (Ok time_selected, s2)
    /\ (time_selected = false ->
        make_booking drv url date time_slot court_preference
          duration_minutes s0
        = (Ok (failure ("Could not select time "
                        ++ _convert_time_format time_slot
                        ++ " in form dropdown.")), s2))
    /\ (time_selected = true ->
        exists s3,
          select_duration drv duration_minutes s2 = (Ok tt, s3)
          /\ (forall s',
                _select_dropdown_option drv duration_label_id
                  (str_int duration_minutes) 10 s2 = (Ok false, s') ->
                s3 = logged WARNING
                       ("Could not select duration "
                        ++ str_int duration_minutes) s')
          /\ make_booking drv url date time_slot court_preference
               duration_minutes s0
             = try_except (submit_form drv date time_slot)
                 (booking_error drv) s3).
Proof.
  intros Hopen.
  destruct (select_court_completes drv court_preference s)
    as [s1 [Hcourt Hcourt_log]].
  destruct (select_dropdown_option_total drv time_label_id
              (_convert_time_format time_slot) 10 s1)
    as [time_selected [s2 Htime]].
  exists s1, time_selected, s2.
  split; [exact Hcourt|]. split; [exact Hcourt_log|].
  split; [exact Htime|].
  assert (Hform : make_booking drv url date time_slot court_preference
                    duration_minutes s0
                  = try_except
                      (form <- populate_form drv time_slot court_preference
                                 duration_minutes ;;
                       match form with
                       | Some o => ret o
                       | None => submit_form drv date time_slot
                       end) (booking_error drv) s).
  { unfold make_booking, make_booking_body.
    rewrite try_except_bind, Hopen. reflexivity. }
  split.
  - intros ->. rewrite Hform, try_except_bind. unfold populate_form.
    unfold bind at 1. rewrite Hcourt. unfold bind at 1. rewrite Htime.
    reflexivity.
  - intros ->.
    destruct (select_duration_completes drv duration_minutes s2)
      as [s3 [Hdur Hdur_log]].
    exists s3. split; [exact Hdur|]. split; [exact Hdur_log|].
    rewrite Hform, try_except_bind. unfold populate_form.
    unfold bind at 1. rewrite Hcourt. unfold bind at 1. rewrite Htime.
    cbn [negb]. unfold sleep at 1. unfold bind at 1, ret at 1.
    unfold bind at 1. rewrite Hdur. reflexivity.
Qed.

Lemma form_population_witness :
  fst (make_booking page_driver Samples.portal_url "2024-12-25" "14:05"
         (Some "Outdoor Court 7") 90
         (mk_session Samples.no_labels true []))
  = Ok (failure "Could not select time 02:05 PM in form dropdown.")
  /\ fst (make_booking page_driver Samples.portal_url "2024-12-25" "14:05"
            (Some "Outdoor Court 7") 90
            (mk_session Samples.only_time_label true []))
     = Ok (mk_outcome true
             "Booking confirmed for 2024-12-25 at 14:05: Reservation created successfully").
Proof.
  split.
  - destruct (form_population_fatality page_driver Samples.portal_url
                "2024-12-25" "14:05" (Some "Outdoor Court 7") 90
                (mk_session Samples.no_labels true [])
                _ eq_refl)
      as [s1 [ok [s2 [Hcourt [_ [Htime [Hfatal _]]]]]]].
    vm_compute in Hcourt. injection Hcourt as <-.
    vm_compute in Htime. injection Htime as <- <-.
    rewrite (Hfatal eq_refl). reflexivity.
  - destruct (form_population_fatality page_driver Samples.portal_url
                "2024-12-25" "14:05" (Some "Outdoor Court 7") 90
                (mk_session Samples.only_time_label true [])
                _ eq_refl)
      as [s1 [ok [s2 [Hcourt [_ [Htime [_ Hgoes_on]]]]]]].
    vm_compute in Hcourt. injection Hcourt as <-.
    vm_compute in Htime. injection Htime as <- <-.
    destruct (Hgoes_on eq_refl) as [s3 [Hduration [_ Hbooking]]].
    vm_compute in Hduration. injection Hduration as <-.
    rewrite Hbooking. reflexivity.
Defined.

(** ** Totality of the session operations *)





(** ** The batch run *)

Import BookingScheduler.

Ltac run_sched :=
  unfold db_update_request_status, send_message, db_get_requests_for_date;
  unfold bind, ret, raise, try_except, try_except_of, try_finally, sleep,
    BookingScheduler.logger, record, now, call, new_scraper;
  cbn [st_db st_world st_log st_trace fst snd].

(** What the table looks like after a list of updates. *)
Lemma set_processed_twice st p m st0 p0 m0 r :
  set_processed st p m (set_processed st0 p0 m0 r) = set_processed st p m r.
Proof. reflexivity. Qed.

Lemma apply_updates_row (us : list Update) : forall (db : DB) k r,
  nth_error db k = Some r ->
  exists r',
    nth_error (apply_updates us db) k = Some r'
    /\ id r' = id r
    /\ (~ In (id r) (map (fun u => fst (fst (snd u))) us) -> r' = r)
    /\ (In (id r) (map (fun u => fst (fst (snd u))) us) ->
        exists t st m,
          In (t, (id r, st, m)) us
          /\ r' = set_processed st (isoformat t) m r).
Proof.
  induction us as [|[t [[i st] m]] us IH]; intros db k r Hk.
  - exists r. simpl. repeat split; auto. contradiction.
  - simpl.
    set (f := fun x : Request =>
                if (id x =? i)%Z
                then set_processed st (isoformat t) m x else x).
    assert (Hk1 : nth_error (apply_update db (t, (i, st, m))) k
                  = Some (f r)).
    { unfold apply_update, update_request_status; simpl.
      rewrite nth_error_map, Hk. reflexivity. }
    destruct (IH _ _ _ Hk1) as [r' [Hk' [Hid [Hout Hin]]]].
    assert (Hidf : id (f r) = id r).
    { unfold f. destruct (id r =? i)%Z; reflexivity. }
    exists r'. split; [exact Hk'|]. split; [congruence|]. split.
    + intros Hnot. rewrite Hout.
      * unfold f. destruct (Z.eqb_spec (id r) i) as [E|E]; [|reflexivity].
        exfalso. apply Hnot. left. symmetry. exact E.
      * rewrite Hidf. intros H. apply Hnot. right. exact H.
    + intros Hhere.
      destruct (in_dec Z.eq_dec (id r)
                  (map (fun u : Update => fst (fst (snd u))) us))
        as [Hlater|Hlater].
      * rewrite <- Hidf in Hlater.
        destruct (Hin Hlater) as [t' [st' [m' [Hu Hr']]]].
        exists t', st', m'. rewrite Hidf in Hu. split; [right; exact Hu|].
        rewrite Hr'. unfold f. destruct (id r =? i)%Z; reflexivity.
      * rewrite <- Hidf in Hlater. rewrite (Hout Hlater).
        unfold f. destruct (Z.eqb_spec (id r) i) as [E|E].
        -- exists t, st, m. split; [left; rewrite E; reflexivity|].
           reflexivity.
        -- exfalso. destruct Hhere as [Hi|Hl].
           ++ apply E. symmetry. exact Hi.
           ++ apply Hlater. rewrite Hidf. exact Hl.
Qed.

Section BatchProps.
Context {W : Type}.
Variable env : Collaborators W.

Lemma process_request_spec (req : Request) (s : State W) :
  exists (run : Run) (s' : State W),
    process_request env req s = (Ok tt, s')
    /\ st_db s' = apply_update (st_db s) (run_update req run)
    /\ st_trace s' = (st_trace s ++ run_events req run)%list.
Proof.
  unfold process_request. run_sched.
  destruct (scraper_make_booking env (requested_date req)
              (requested_time req) (court_preference req) (duration req)
              (st_world s)) as [[o|e] w1];
    cbn [st_db st_world st_log st_trace];
    destruct (datetime_now env w1) as [t w2];
    cbn [st_db st_world st_log st_trace];
    match goal with
    | |- context [bot_send_message env ?c ?txt w2] =>
        destruct (bot_send_message env c txt w2) as [[[]|e2] w3]
    end;
    cbn [st_db st_world st_log st_trace];
    match goal with
    | |- context [EvMakeBooking _ ?r] =>
        match goal with
        | |- context [EvSendMessage _ _ ?sent] =>
            exists (r, t, sent)
        end
    end;
    eexists; (split; [reflexivity|]);
    cbn [st_db st_world st_log st_trace];
    (split; [reflexivity|]);
    unfold run_events; cbn [fst snd]; rewrite <- !app_assoc; reflexivity.
Qed.

Lemma process_requests_spec (requests : list Request) : forall s : State W,
  exists (runs : list Run) (s' : State W),
    process_requests env requests s = (Ok tt, s')
    /\ List.length runs = List.length requests
    /\ st_db s'
       = apply_updates
           (map (fun p => run_update (fst p) (snd p)) (combine requests runs))
           (st_db s)
    /\ st_trace s'
       = (st_trace s
          ++ flat_map (fun p => run_events (fst p) (snd p))
               (combine requests runs))%list.
Proof.
  induction requests as [|req rest IH]; intros s.
  - exists [], s. simpl. rewrite app_nil_r. auto.
  - destruct (process_request_spec req s) as [run [s1 [H1 [Hdb1 Htr1]]]].
    destruct (IH s1) as [runs [s' [H' [Hlen [Hdb' Htr']]]]].
    exists (run :: runs), s'. simpl.
    unfold bind at 1. rewrite H1. split; [exact H'|].
    split; [congruence|]. split.
    + rewrite Hdb', Hdb1. reflexivity.
    + rewrite Htr', Htr1, <- app_assoc. reflexivity.
Qed.

Lemma fail_all_spec (requests : list Request) : forall s : State W,
  exists (runs : list (datetime * res unit)) (s' : State W),
    fail_all env login_error_msg requests s = (Ok tt, s')
    /\ List.length runs = List.length requests
    /\ st_db s'
       = apply_updates
           (map (fun p => failed_update (fst p) (snd p))
              (combine requests runs))
           (st_db s)
    /\ st_trace s'
       = (st_trace s
          ++ flat_map (fun p => failed_events (fst p) (snd p))
               (combine requests runs))%list.
Proof.
  induction requests as [|req rest IH]; intros s.
  - exists [], s. simpl. rewrite app_nil_r. auto.
  - cbn [fail_all]. run_sched.
    destruct (datetime_now env (st_world s)) as [t w1];
    cbn [st_db st_world st_log st_trace];
    match goal with
    | |- context [bot_send_message env ?c ?txt w1] =>
        destruct (bot_send_message env c txt w1) as [[[]|e2] w2]
    end;
    cbn [st_db st_world st_log st_trace];
    match goal with
    | |- context [fail_all env _ rest ?s1] =>
        destruct (IH s1) as [runs [s' [H' [Hlen [Hdb' Htr']]]]]
    end;
    match goal with
    | |- context [EvSendMessage _ _ ?sent] =>
        exists ((t, sent) :: runs), s'
    end;
    (split; [exact H'|]); (split; [cbn [List.length]; congruence|]);
    cbn [st_db st_world st_log st_trace] in Hdb', Htr';
    cbn [combine map flat_map apply_updates fold_left fst snd];
    (split; [rewrite Hdb'; reflexivity|]);
    rewrite Htr'; unfold failed_events, login_failure_notification;
    cbn [fst snd]; rewrite <- !app_assoc; reflexivity.
Qed.

(** The shape of a whole run: nothing when nothing is fetched; otherwise
    one login, the events of the branch taken, one close. *)
Lemma process_pending_requests_spec (s : State W) :
  exists (r : res unit) (s' : State W),
    process_pending_requests env s = (r, s')
    /\ ((fetched env s = [] /\ st_db s' = st_db s
         /\ st_trace s' = st_trace s)
        \/ (fetched env s <> []
            /\ exists (logged_in : res bool) (closed : res unit)
                 (body : list Event) (us : list Update),
                 st_trace s'
                 = (st_trace s ++ EvLogin logged_in :: body
                    ++ [EvClose closed])%list
                 /\ st_db s' = apply_updates us (st_db s)
                 /\ match logged_in with
                    | Ok true =>
                        exists runs : list Run,
                          List.length runs = List.length (fetched env s)
                          /\ body = flat_map
                                      (fun p => run_events (fst p) (snd p))
                                      (combine (fetched env s) runs)
                          /\ us = map (fun p => run_update (fst p) (snd p))
                                    (combine (fetched env s) runs)
                    | Ok false =>
                        exists runs : list (datetime * res unit),
                          List.length runs = List.length (fetched env s)
                          /\ body = flat_map
                                      (fun p => failed_events (fst p) (snd p))
                                      (combine (fetched env s) runs)
                          /\ us = map
                                    (fun p => failed_update (fst p) (snd p))
                                    (combine (fetched env s) runs)
                    | Raise _ => body = [] /\ us = []
                    end)).
Proof.
  unfold fetched, eligible_date, process_pending_requests. run_sched.
  destruct (datetime_now env (st_world s)) as [t w].
  cbn [st_db st_world st_log st_trace fst snd].
  set (requests := get_requests_for_date
                     (strftime_Y_m_d (add_days LEAD_DAYS (dt_date t)))
                     (st_db s)).
  destruct requests as [|req rest] eqn:Hreq.
  - eexists _, _. split; [reflexivity|]. left. auto.
  - rewrite <- Hreq. cbn [st_db st_world st_log st_trace].
    unfold with_session. run_sched.
    destruct (scraper_login env (scraper_new env w)) as [[[|]|e] w1];
      cbn [negb st_db st_world st_log st_trace].
    + match goal with
      | |- context [process_requests env requests ?s1] =>
          destruct (process_requests_spec requests s1)
            as [runs [s2 [Hrun [Hlen [Hdb Htr]]]]]; rewrite Hrun
      end.
      cbn [st_db st_world st_log st_trace] in Hdb, Htr.
      destruct (scraper_close env (st_world s2)) as [[[]|e] w2];
      eexists _, _; (split; [reflexivity|]); right;
        (split; [rewrite Hreq; discriminate|]);
        cbn [st_db st_world st_log st_trace];
        match goal with
        | |- context [EvClose ?c] =>
            exists (Ok true), c, (flat_map (fun p => run_events (fst p) (snd p))
                       (combine requests runs)), (map (fun p => run_update (fst p) (snd p))
                       (combine requests runs))
        end;
        (split; [rewrite Htr, <- !app_assoc; reflexivity|]);
        (split; [exact Hdb|]); exists runs; auto.
    + match goal with
      | |- context [fail_all env login_error_msg requests ?s1] =>
          destruct (fail_all_spec requests s1)
            as [runs [s2 [Hrun [Hlen [Hdb Htr]]]]]; rewrite Hrun
      end.
      cbn [st_db st_world st_log st_trace] in Hdb, Htr.
      destruct (scraper_close env (st_world s2)) as [[[]|e] w2];
      eexists _, _; (split; [reflexivity|]); right;
        (split; [rewrite Hreq; discriminate|]);
        cbn [st_db st_world st_log st_trace];
        match goal with
        | |- context [EvClose ?c] =>
            exists (Ok false), c, (flat_map (fun p => failed_events (fst p) (snd p))
                       (combine requests runs)), (map (fun p => failed_update (fst p) (snd p))
                       (combine requests runs))
        end;
        (split; [rewrite Htr, <- !app_assoc; reflexivity|]);
        (split; [exact Hdb|]); exists runs; auto.
    + destruct (scraper_close env w1) as [[[]|e'] w2];
      eexists _, _; (split; [reflexivity|]); right;
        (split; [rewrite Hreq; discriminate|]);
        cbn [st_db st_world st_log st_trace];
        match goal with
        | |- context [EvClose ?c] =>
            exists (Raise e), c, ([]), ([])
        end;
        (split; [rewrite <- !app_assoc; reflexivity|]);
        (split; [reflexivity|]); auto.
Qed.

End BatchProps.

(** ** Reading the record of a run *)

Lemma skipn_app_exact {A : Type} (l m : list A) :
  skipn (List.length l) (l ++ m) = m.
Proof. induction l as [|x l IH]; simpl; auto. Qed.

Lemma map_combine_fst {A B C : Type} (f : A -> C) (l : list A) :
  forall l' : list B,
    List.length l' = List.length l ->
    map (fun p => f (fst p)) (combine l l') = map f l.
Proof.
  induction l as [|x l IH]; intros [|y l'] H; simpl in *;
    try discriminate; auto.
  f_equal. apply IH. lia.
Qed.


Lemma flat_map_none {A B C : Type} (f : A -> list B)
    (proj : list B -> list C) (l : list A) :
  (forall a b, proj (a ++ b)%list = (proj a ++ proj b)%list) ->
  proj [] = [] ->
  (forall x, proj (f x) = []) ->
  proj (flat_map f l) = [].
Proof.
  intros Happ Hnil Hone. induction l as [|x l IH]; simpl; [exact Hnil|].
  rewrite Happ, Hone, IH. reflexivity.
Qed.





Lemma login_results_app a b :
  login_results (a ++ b) = (login_results a ++ login_results b)%list.
Proof. apply flat_map_app. Qed.

Lemma in_login_results r evs :
  In (EvLogin r) evs -> In r (login_results evs).
Proof.
  intros H. unfold login_results. apply in_flat_map.
  exists (EvLogin r). split; [exact H|left; reflexivity].
Qed.

(** ** The fetched requests *)

Lemma insert_by_created_at_in r x rows :
  In x (insert_by_created_at r rows) <-> x = r \/ In x rows.
Proof.
  induction rows as [|y rows IH]; simpl.
  - intuition congruence.
  - destruct (String.leb (created_at r) (created_at y)); simpl.
    + intuition congruence.
    + rewrite IH. intuition congruence.
Qed.

Lemma order_by_created_at_in x rows :
  In x (order_by_created_at rows) <-> In x rows.
Proof.
  induction rows as [|y rows IH]; simpl; [tauto|].
  rewrite insert_by_created_at_in, IH. intuition congruence.
Qed.

Lemma insert_by_created_at_perm r rows :
  Permutation (r :: rows) (insert_by_created_at r rows).
Proof.
  induction rows as [|y rows IH]; simpl; [apply Permutation_refl|].
  destruct (String.leb (created_at r) (created_at y)).
  - apply Permutation_refl.
  - eapply perm_trans; [apply perm_swap|]. apply perm_skip. exact IH.
Qed.

Lemma order_by_created_at_perm rows :
  Permutation rows (order_by_created_at rows).
Proof.
  induction rows as [|y rows IH]; simpl; [constructor|].
  eapply perm_trans; [apply perm_skip; exact IH|].
  apply insert_by_created_at_perm.
Qed.

Lemma insert_by_created_at_sorted r rows :
  Sorted created_no_later rows ->
  Sorted created_no_later (insert_by_created_at r rows).
Proof.
  induction rows as [|y rows IH]; simpl; intros Hs.
  - repeat constructor.
  - destruct (String.leb (created_at r) (created_at y)) eqn:E.
    + constructor; [exact Hs|]. constructor. exact E.
    + inversion Hs as [|? ? Hs' Hhd]; subst.
      constructor; [apply IH; exact Hs'|].
      assert (Hyr : created_no_later y r).
      { unfold created_no_later.
        destruct (String.leb_total (created_at r) (created_at y)) as [H|H];
          [rewrite H in E; discriminate|exact H]. }
      destruct rows as [|z rows]; simpl.
      * constructor. exact Hyr.
      * destruct (String.leb (created_at r) (created_at z)).
        -- constructor. exact Hyr.
        -- inversion Hhd; subst. constructor. assumption.
Qed.

Lemma order_by_created_at_sorted rows :
  Sorted created_no_later (order_by_created_at rows).
Proof.
  induction rows as [|y rows IH]; simpl; [constructor|].
  apply insert_by_created_at_sorted. exact IH.
Qed.

Lemma get_requests_for_date_in target db req :
  In req (get_requests_for_date target db) <->
  In req db /\ status req = "pending" /\ requested_date req = target.
Proof.
  unfold get_requests_for_date.
  rewrite order_by_created_at_in, filter_In. unfold pending_for_date.
  rewrite andb_true_iff, !String.eqb_eq. tauto.
Qed.

(** Where a key has no duplicates, an element is identified by its key. *)
Lemma NoDup_map_eq {A B : Type} (f : A -> B) (l : list A) (a b : A) :
  NoDup (map f l) -> In a l -> In b l -> f a = f b -> a = b.
Proof.
  induction l as [|x l IH]; simpl; [contradiction|].
  intros Hnd Ha Hb Hf. inversion Hnd as [|? ? Hx Hnd']; subst.
  destruct Ha as [->|Ha], Hb as [->|Hb]; auto.
  - exfalso. apply Hx. rewrite Hf. apply in_map. exact Hb.
  - exfalso. apply Hx. rewrite <- Hf. apply in_map. exact Ha.
Qed.

(** Under the primary key a row is identified by its id. *)
Lemma unique_ids_row db a b :
  unique_ids db -> In a db -> In b db -> id a = id b -> a = b.
Proof. apply NoDup_map_eq. Qed.



(** ** The batch run, read from its record *)

Section BatchTheorems.
Context {W : Type}.
Variable env : Collaborators W.

Lemma run_events_login requests (runs : list Run) :
  login_results
    (flat_map (fun p => run_events (fst p) (snd p)) (combine requests runs))
  = [].
Proof.
  apply flat_map_none; [apply login_results_app|reflexivity|].
  intros x. reflexivity.
Qed.

Lemma failed_events_login requests (runs : list (datetime * res unit)) :
  login_results
    (flat_map (fun p => failed_events (fst p) (snd p))
       (combine requests runs))
  = [].
Proof.
  apply flat_map_none; [apply login_results_app|reflexivity|].
  intros x. reflexivity.
Qed.

(** A run in which [login] was called and ended in [r]. *)
Lemma batch_after_login (s : State W) (r : res bool) :
  In (EvLogin r) (batch_events env s) ->
  exists (closed : res unit) (body : list Event) (us : list Update),
    batch_events env s = (EvLogin r :: body ++ [EvClose closed])%list
    /\ st_db (after_batch env s) = apply_updates us (st_db s)
    /\ match r with
       | Ok true =>
           exists runs : list Run,
             List.length runs = List.length (fetched env s)
             /\ body = flat_map (fun p => run_events (fst p) (snd p))
                         (combine (fetched env s) runs)
             /\ us = map (fun p => run_update (fst p) (snd p))
                       (combine (fetched env s) runs)
       | Ok false =>
           exists runs : list (datetime * res unit),
             List.length runs = List.length (fetched env s)
             /\ body = flat_map (fun p => failed_events (fst p) (snd p))
                         (combine (fetched env s) runs)
             /\ us = map (fun p => failed_update (fst p) (snd p))
                       (combine (fetched env s) runs)
       | Raise _ => body = [] /\ us = []
       end.
Proof.
  unfold batch_events, after_batch, events_since.
  destruct (process_pending_requests_spec env s)
    as [res [s' [Hrun [[Hnone [Hdb Htr]]|[Hsome Hshape]]]]];
    rewrite Hrun; cbn [snd].
  - rewrite Htr. rewrite <- (app_nil_r (st_trace s)) at 2.
    rewrite skipn_app_exact. contradiction.
  - destruct Hshape as [logged_in [closed [body [us [Htr [Hdb Hcase]]]]]].
    rewrite Htr, skipn_app_exact. intros Hin.
    assert (Hr : logged_in = r).
    { apply in_login_results in Hin.
      change (EvLogin logged_in :: body ++ [EvClose closed])%list
        with ([EvLogin logged_in] ++ body ++ [EvClose closed])%list in Hin.
      rewrite !login_results_app in Hin.
      assert (Hbody : login_results body = []).
      { destruct logged_in as [[|]|e].
        - destruct Hcase as [runs [_ [-> _]]]. apply run_events_login.
        - destruct Hcase as [runs [_ [-> _]]]. apply failed_events_login.
        - destruct Hcase as [-> _]. reflexivity. }
      rewrite Hbody in Hin. simpl in Hin.
      destruct Hin as [H|[]]. exact H. }
    subst logged_in. exists closed, body, us. auto.
Qed.

(** Whatever the run does to the table, it does through status updates
    of fetched requests. *)
Lemma batch_updates (s : State W) :
  exists us : list Update,
    st_db (after_batch env s) = apply_updates us (st_db s)
    /\ forall i, In i (map updated_id us) ->
                 In i (map id (fetched env s)).
Proof.
  unfold after_batch.
  destruct (process_pending_requests_spec env s)
    as [res [s' [Hrun [[Hnone [Hdb Htr]]|[Hsome Hshape]]]]];
    rewrite Hrun; cbn [snd].
  - exists []. split; [exact Hdb|]. contradiction.
  - destruct Hshape as [logged_in [closed [body [us [Htr [Hdb Hcase]]]]]].
    exists us. split; [exact Hdb|].
    destruct logged_in as [[|]|e].
    + destruct Hcase as [runs [Hlen [_ ->]]]. rewrite map_map.
      unfold updated_id, run_update; cbn [fst snd].
      rewrite (map_combine_fst id _ _ Hlen). auto.
    + destruct Hcase as [runs [Hlen [_ ->]]]. rewrite map_map.
      unfold updated_id, failed_update; cbn [fst snd].
      rewrite (map_combine_fst id _ _ Hlen). auto.
    + destruct Hcase as [_ ->]. contradiction.
Qed.

Lemma outcome_status_cases (r : res Outcome) :
  outcome_status r = "completed" \/ outcome_status r = "failed".
Proof. destruct r as [[[|] m]|e]; simpl; auto. Qed.


(** C4.  The eligible date is today plus two days, and a batch run leaves
    every row for another date, and every row that is not pending,
    exactly as it was: status, processed timestamp, result message and
    all. *)
Theorem batch_leaves_other_requests (s : State W) (k : nat) (row : Request) :
  unique_ids (st_db s) ->
  nth_error (st_db s) k = Some row ->
  requested_date row <> eligible_date env s \/ status row <> "pending" ->
  nth_error (st_db (after_batch env s)) k = Some row
  /\ eligible_date env s
     = strftime_Y_m_d
         (next_day (next_day (dt_date (fst (datetime_now env (st_world s)))))).
Proof.
  intros Hkey Hk Hother. split; [|reflexivity].
  destruct (batch_updates s) as [us [Hdb Hids]]. rewrite Hdb.
  destruct (apply_updates_row us (st_db s) k row Hk)
    as [row' [Hk' [_ [Hsame _]]]].
  rewrite Hk'. f_equal. apply Hsame. intros Hin.
  apply Hids in Hin. apply in_map_iff in Hin.
  destruct Hin as [req [Hid Hreq]].
  unfold fetched in Hreq. apply get_requests_for_date_in in Hreq.
  destruct Hreq as [Hin [Hst Hdate]].
  assert (Heq : req = row).
  { apply (unique_ids_row (st_db s)); auto.
    eapply nth_error_In. exact Hk. }
  subst req. destruct Hother as [H|H]; contradiction.
Qed.

Lemma close_results_app a b :
  close_results (a ++ b)%list = (close_results a ++ close_results b)%list.
Proof. apply flat_map_app. Qed.


Lemma run_events_close requests (runs : list Run) :
  close_results
    (flat_map (fun p => run_events (fst p) (snd p)) (combine requests runs))
  = [].
Proof.
  apply flat_map_none; [apply close_results_app|reflexivity|].
  intros x. reflexivity.
Qed.

Lemma failed_events_close requests (runs : list (datetime * res unit)) :
  close_results
    (flat_map (fun p => failed_events (fst p) (snd p))
       (combine requests runs))
  = [].
Proof.
  apply flat_map_none; [apply close_results_app|reflexivity|].
  intros x. reflexivity.
Qed.

(** The result of a run beside its record. *)
Lemma process_pending_requests_result (s : State W) :
  (fetched env s = []
   /\ fst (process_pending_requests env s) = Ok tt
   /\ batch_events env s = [])
  \/ (fetched env s <> []
      /\ exists (logged_in : res bool) (closed : res unit)
           (body : list Event),
           batch_events env s
           = (EvLogin logged_in :: body ++ [EvClose closed])%list
           /\ login_results body = [] /\ close_results body = []
           /\ fst (process_pending_requests env s)
              = run_result logged_in closed).
Proof.
  unfold batch_events, after_batch, events_since.
  unfold fetched, eligible_date, process_pending_requests. run_sched.
  destruct (datetime_now env (st_world s)) as [t w].
  cbn [st_db st_world st_log st_trace fst snd].
  set (requests := get_requests_for_date
                     (strftime_Y_m_d (add_days LEAD_DAYS (dt_date t)))
                     (st_db s)).
  destruct requests as [|req rest] eqn:Hreq.
  - left. split; [reflexivity|]. split; [reflexivity|].
    apply skipn_all.
  - right. split; [discriminate|]. rewrite <- Hreq.
    cbn [st_db st_world st_log st_trace].
    unfold with_session. run_sched.
    destruct (scraper_login env (scraper_new env w)) as [[[|]|e] w1];
      cbn [negb st_db st_world st_log st_trace].
    + match goal with
      | |- context [process_requests env requests ?s1] =>
          destruct (process_requests_spec env requests s1)
            as [runs [s2 [Hrun [Hlen [Hdb Htr]]]]]; rewrite Hrun
      end.
      cbn [st_db st_world st_log st_trace] in Hdb, Htr.
      destruct (scraper_close env (st_world s2)) as [[[]|e] w2];
        cbn [st_db st_world st_log st_trace fst snd];
        match goal with
        | |- context [EvClose ?c] =>
            exists (Ok true), c,
              (flat_map (fun p => run_events (fst p) (snd p))
                 (combine requests runs))
        end;
        (split; [rewrite Htr, <- !app_assoc; apply skipn_app_exact|]);
        (split; [apply run_events_login|]);
        (split; [apply run_events_close|reflexivity]).
    + match goal with
      | |- context [fail_all env login_error_msg requests ?s1] =>
          destruct (fail_all_spec env requests s1)
            as [runs [s2 [Hrun [Hlen [Hdb Htr]]]]]; rewrite Hrun
      end.
      cbn [st_db st_world st_log st_trace] in Hdb, Htr.
      destruct (scraper_close env (st_world s2)) as [[[]|e] w2];
        cbn [st_db st_world st_log st_trace fst snd];
        match goal with
        | |- context [EvClose ?c] =>
            exists (Ok false), c,
              (flat_map (fun p => failed_events (fst p) (snd p))
                 (combine requests runs))
        end;
        (split; [rewrite Htr, <- !app_assoc; apply skipn_app_exact|]);
        (split; [apply failed_events_login|]);
        (split; [apply failed_events_close|reflexivity]).
    + destruct (scraper_close env w1) as [[[]|e'] w2];
        cbn [st_db st_world st_log st_trace fst snd];
        match goal with
        | |- context [EvClose ?c] => exists (Raise e), c, []
        end;
        (split; [rewrite <- !app_assoc; apply skipn_app_exact|]);
        repeat split.
Qed.





End BatchTheorems.

(** The comment in [process_pending_requests]: "If today is Dec 23, we
    process requests for Dec 25"; and the lead time across the turn of a
    year and the end of a leap February. *)
Example eligible_date_examples :
  eligible_date (Samples.morning_collaborators true) Samples.morning
  = "2024-12-25"
  /\ strftime_Y_m_d (add_days LEAD_DAYS (mk_date 2024 12 30)) = "2025-01-01"
  /\ strftime_Y_m_d (add_days LEAD_DAYS (mk_date 2024 2 27)) = "2024-02-29"
  /\ strftime_Y_m_d (add_days LEAD_DAYS (mk_date 2023 2 27)) = "2023-03-01".
Proof. repeat split; reflexivity. Qed.

(** A whole run on the sample table: the three requests for the 25th are
    resolved in creation order, the one for the 26th is not touched. *)
Example morning_run :
  map id (fetched (Samples.morning_collaborators true) Samples.morning)
  = [1; 2; 4]%Z
  /\ map status
       (st_db (after_batch (Samples.morning_collaborators true)
                 Samples.morning))
     = ["completed"; "failed"; "pending"; "failed"]
  /\ map result_message
       (st_db (after_batch (Samples.morning_collaborators true)
                 Samples.morning))
     = [ Some "Booking confirmed for 2024-12-25 at 10:00: Reservation created successfully";
         Some "Entry slot (ID 11 at 06:00 AM) not found in grid.";
         None;
         Some "Error: invalid session id" ]
  /\ map status
       (st_db (after_batch (Samples.morning_collaborators false)
                 Samples.morning))
     = ["failed"; "failed"; "pending"; "failed"].
Proof. repeat split; vm_compute; reflexivity. Qed.

Lemma four_requests_unique : unique_ids Samples.four_requests.
Proof. unfold unique_ids. solve_NoDup. Qed.

Lemma batch_frame_witness :
  exists row,
    nth_error (st_db Samples.morning) 2 = Some row
    /\ requested_date row = "2024-12-26"
    /\ nth_error
         (st_db (after_batch (Samples.morning_collaborators true)
                   Samples.morning)) 2
       = Some row.
Proof.
  eexists. split; [reflexivity|]. split; [reflexivity|].
  apply (batch_leaves_other_requests (Samples.morning_collaborators true)
           Samples.morning 2 _ four_requests_unique eq_refl).
  left. vm_compute. discriminate.
Defined.



(** ** No success without a visible success indicator *)

Lemma bind_ok_inv {S A B : Type} (m : Py.M S A) (k : A -> Py.M S B)
    (s s' : S) (b : B) :
  bind m k s = (Ok b, s') ->
  exists a s1, m s = (Ok a, s1) /\ k a s1 = (Ok b, s').
Proof.
  unfold bind. destruct (m s) as [[a|e] s1]; [|discriminate].
  intros H. exists a, s1. auto.
Qed.

Section NoFalsePositive.
Context {W Elem : Type}.
Variable drv : WebDriver W Elem.

Lemma seen_displayed_later a rest :
  seen_displayed drv rest -> seen_displayed drv (a :: rest).
Proof.
  intros (i & el & w1 & w2 & w3 & w4 & Hin & H1 & H2).
  exists i, el, w1, w2, w3, w4. split; [right; exact Hin|]. auto.
Qed.

Lemma scan_indicators_found (indicators : list string) :
  forall (s s' : Session W) (txt : string),
    scan_indicators drv indicators s = (Ok (Some txt), s') ->
    seen_displayed drv indicators.
Proof.
  induction indicators as [|a rest IH]; intros s s' txt.
  - discriminate.
  - cbn [scan_indicators]. run_stmt.
    destruct (has_driver s); simpl.
    + destruct (driver_find_element drv XPATH a (world s))
        as [[el|e] w2] eqn:Hfind; simpl.
      * destruct (elem_is_displayed drv el w2) as [[[|]|e] w3] eqn:Hshown;
          simpl.
        -- destruct (elem_text drv el w3) as [[t|e] w4]; simpl.
           ++ intros _. exists a, el, (world s), w2, w2, w3.
              split; [left; reflexivity|]. auto.
           ++ destruct (exn_class_eqb (exn_cls e) NoSuchElementException);
                simpl; [|discriminate].
              intros H. apply seen_displayed_later. eapply IH. exact H.
        -- intros H. apply seen_displayed_later. eapply IH. exact H.
        -- destruct (exn_class_eqb (exn_cls e) NoSuchElementException);
             simpl; [|discriminate].
           intros H. apply seen_displayed_later. eapply IH. exact H.
      * destruct (exn_class_eqb (exn_cls e) NoSuchElementException);
          simpl; [|discriminate].
        intros H. apply seen_displayed_later. eapply IH. exact H.
    + discriminate.
Qed.

Lemma detect_outcome_success date time_slot (s s' : Session W) (o : Outcome) :
  detect_outcome drv date time_slot s = (Ok o, s') ->
  success o = true ->
  seen_displayed drv success_indicators.
Proof.
  unfold detect_outcome. intros H Hs.
  apply bind_ok_inv in H. destruct H as [[txt|] [s1 [Hscan H]]].
  - eapply scan_indicators_found. exact Hscan.
  - apply bind_ok_inv in H. destruct H as [[txt|] [s2 [_ H]]];
      unfold ret in H; inversion H; subst o; discriminate Hs.
Qed.

Lemma click_entry_slot_returns (s s' : Session W) (o : Outcome) :
  click_entry_slot drv s = (Ok (Some o), s') -> success o = false.
Proof.
  unfold click_entry_slot, try_except_of.
  match goal with
  | |- context [match ?body s with _ => _ end] =>
      destruct (body s) as [[r|e] s1] eqn:Hbody
  end.
  - intros H. inversion H; subst r s1. clear H.
    repeat (apply bind_ok_inv in Hbody;
            destruct Hbody as [? [? [_ Hbody]]]).
    match type of Hbody with
    | (if ?c then _ else _) _ = _ => destruct c
    end; unfold ret in Hbody; inversion Hbody; reflexivity.
  - destruct (existsb _ _); [|discriminate].
    unfold ret. intros H. inversion H. reflexivity.
Qed.

Lemma populate_form_returns time_slot court_preference duration_minutes
    (s s' : Session W) (o : Outcome) :
  populate_form drv time_slot court_preference duration_minutes s
  = (Ok (Some o), s') ->
  success o = false.
Proof.
  unfold populate_form. intros H.
  apply bind_ok_inv in H. destruct H as [_ [s1 [_ H]]].
  apply bind_ok_inv in H. destruct H as [ok [s2 [_ H]]].
  destruct ok; cbn [negb] in H.
  - repeat (apply bind_ok_inv in H; destruct H as [? [? [_ H]]]).
    unfold ret in H. discriminate H.
  - unfold ret in H. inversion H. reflexivity.
Qed.

(** X1.  [make_booking] reports success only when the outcome detection
    found a success indicator and the element answered that it is
    displayed, whatever the browser does. *)
Theorem make_booking_success_needs_indicator (url date time_slot : string)
    (court_preference : option string) (duration_minutes : Z)
    (s s' : Session W) (o : Outcome) :
  make_booking drv url date time_slot court_preference duration_minutes s
  = (Ok o, s') ->
  success o = true ->
  seen_displayed drv success_indicators.
Proof.
  unfold make_booking, try_except. intros H Hs.
  destruct (make_booking_body drv url date time_slot court_preference
              duration_minutes s) as [[o1|e] s1] eqn:Hbody.
  - inversion H; subst o1 s1. clear H. unfold make_booking_body in Hbody.
    apply bind_ok_inv in Hbody.
    destruct Hbody as [[o1|] [s1 [Hopen Hbody]]].
    + unfold ret in Hbody. inversion Hbody; subst o1 s1.
      unfold open_form in Hopen.
      repeat (apply bind_ok_inv in Hopen;
              destruct Hopen as [? [? [_ Hopen]]]).
      apply click_entry_slot_returns in Hopen. congruence.
    + apply bind_ok_inv in Hbody. destruct Hbody as [_ [s2 [_ Hbody]]].
      apply bind_ok_inv in Hbody.
      destruct Hbody as [[o1|] [s3 [Hform Hbody]]].
      * unfold ret in Hbody. inversion Hbody; subst o1 s3.
        apply populate_form_returns in Hform. congruence.
      * unfold submit_form in Hbody. apply bind_ok_inv in Hbody.
        destruct Hbody as [[|] [s4 [_ Hbody]]]; cbn [negb] in Hbody.
        -- apply bind_ok_inv in Hbody.
           destruct Hbody as [_ [s5 [_ Hbody]]].
           eapply detect_outcome_success; eassumption.
        -- unfold ret in Hbody. inversion Hbody; subst o.
           discriminate Hs.
  - unfold booking_error in H. run_stmt. revert H. run_stmt.
    intros H. inversion H; subst o. discriminate Hs.
Qed.

End NoFalsePositive.

Lemma make_booking_success_witness :
  seen_displayed page_driver success_indicators.
Proof.
  eapply (make_booking_success_needs_indicator page_driver
            Samples.portal_url "2024-12-25" "14:05" (Some "Outdoor Court 7")
            90 (mk_session Samples.only_time_label true [])).
  - vm_compute. reflexivity.
  - reflexivity.
Defined.

(** ** The scheduler on the real scraper *)

(** With the scraper of [booking_scraper.py] behind the scheduler and a
    browser that cannot be started, [login] raises out of the run: the
    session is closed, no request is booked or written, and the fetched
    requests stay pending. *)
Example run_with_broken_chrome :
  let env := wired Samples.broken_chrome Samples.portal_url "user" "secret"
               (fun _ _ p => (Ok tt, p))
               (fun p => (Samples.at_7am 2024 12 23, p)) in
  let s := mk_state Samples.four_requests
             (mk_session Samples.blank_page false []) [] [] in
  fst (process_pending_requests env s)
  = Raise (mk_exn OtherException "Message: Unable to obtain driver for chrome")
  /\ batch_events env s
     = [ EvLogin (Raise (mk_exn OtherException
                           "Message: Unable to obtain driver for chrome"));
         EvClose (Ok tt) ]
  /\ map status (st_db (after_batch env s))
     = ["pending"; "pending"; "pending"; "pending"].
Proof. repeat split; vm_compute; reflexivity. Qed.

(* ===================================================================== *)
(** * Further properties of database.py                                   *)
(* ===================================================================== *)

Lemma max_id_bound (l : list Z) (x : Z) :
  In x l -> (x <= fold_right Z.max 0 l)%Z.
Proof.
  induction l as [|y l IH]; simpl; [contradiction|].
  intros [->|H]; [lia|]. specialize (IH H). lia.
Qed.


Lemma get_request_none (i : Z) (db : DB) :
  get_request i db = None <-> ~ In i (ids db).
Proof.
  unfold get_request, ids. induction db as [|r db IH]; simpl; [tauto|].
  destruct (Z.eqb_spec (id r) i) as [E|E].
  - split; [discriminate|]. intros H. exfalso. apply H. left. exact E.
  - rewrite IH. tauto.
Qed.



Lemma ids_update_request_status now i s m db :
  ids (update_request_status now i s m db) = ids db.
Proof.
  unfold ids, update_request_status. rewrite map_map. apply map_ext.
  intros r. destruct (id r =? i)%Z; reflexivity.
Qed.

Lemma ids_cancel_request i u db : ids (fst (cancel_request i u db)) = ids db.
Proof.
  unfold ids, cancel_request; cbn [fst]. rewrite map_map. apply map_ext.
  intros r. destruct (cancellable i u r); reflexivity.
Qed.

Lemma max_id_least (l : list Z) (b : Z) :
  (0 <= b)%Z -> (forall x, In x l -> (x <= b)%Z) ->
  (fold_right Z.max 0 l <= b)%Z.
Proof.
  intros Hb. induction l as [|x l IH]; simpl; intros H; [exact Hb|].
  assert (x <= b)%Z by (apply H; left; reflexivity).
  assert (fold_right Z.max 0 l <= b)%Z
    by (apply IH; intros; apply H; right; assumption).
  lia.
Qed.

Lemma max_of_first_ids n :
  fold_right Z.max 0%Z (map Z.of_nat (seq 1 n)) = Z.of_nat n.
Proof.
  destruct n as [|n]; [reflexivity|].
  apply Z.le_antisymm.
  - apply max_id_least; [lia|]. intros x Hx.
    apply in_map_iff in Hx. destruct Hx as [k [<- Hk]].
    apply in_seq in Hk. lia.
  - apply max_id_bound. apply in_map. apply in_seq. lia.
Qed.

Lemma exec_op_ids op db n :
  ids db = map Z.of_nat (seq 1 n) ->
  ids (exec_op op db)
  = map Z.of_nat (seq 1 (n + if creates op then 1 else 0)).
Proof.
  intros H. destruct op as [now u c d t court dur|now i st m|i u];
    cbn [creates].
  - unfold exec_op, add_request; cbn [fst]. unfold ids at 1.
    rewrite map_app. fold (ids db). unfold next_id. rewrite H.
    rewrite max_of_first_ids. cbn [map id].
    rewrite Nat.add_1_r, seq_S, map_app. cbn [map plus].
    f_equal. f_equal. lia.
  - cbn [exec_op]. rewrite ids_update_request_status, Nat.add_0_r. exact H.
  - cbn [exec_op]. rewrite ids_cancel_request, Nat.add_0_r. exact H.
Qed.

Lemma exec_ops_ids ops : forall db n,
  ids db = map Z.of_nat (seq 1 n) ->
  ids (exec_ops ops db)
  = map Z.of_nat (seq 1 (n + List.length (filter creates ops))).
Proof.
  induction ops as [|op ops IH]; intros db n H; cbn [exec_ops fold_left].
  - cbn. rewrite Nat.add_0_r. exact H.
  - fold (exec_ops ops (exec_op op db)).
    rewrite (IH _ _ (exec_op_ids op db n H)). cbn [filter].
    destruct (creates op); cbn [List.length]; f_equal; f_equal; lia.
Qed.

(** X3.  Whatever sequence of operations builds a table from the empty
    one, its ids are 1, 2, ..., n in row order, n being the number of
    requests created: the primary key holds on every table the program
    reaches, and neither a status update nor a cancellation adds, removes
    or renumbers a row. *)
Theorem ids_are_sequential (ops : list Op) :
  ids (exec_ops ops [])
  = map Z.of_nat (seq 1 (List.length (filter creates ops)))
  /\ unique_ids (exec_ops ops []).
Proof.
  assert (H : ids (exec_ops ops [])
              = map Z.of_nat (seq 1 (List.length (filter creates ops)))).
  { apply (exec_ops_ids ops [] 0). reflexivity. }
  split; [exact H|]. unfold unique_ids. rewrite H.
  apply Finite.Injective_map_NoDup; [|apply seq_NoDup].
  intros a b. apply Nat2Z.inj.
Qed.

Lemma find_map_id {f : Request -> Request} (j : Z) (db : DB) :
  (forall r, id (f r) = id r) ->
  find (fun r => (id r =? j)%Z) (map f db)
  = option_map f (find (fun r => (id r =? j)%Z) db).
Proof.
  intros Hf. induction db as [|r db IH]; [reflexivity|].
  cbn [map find]. rewrite Hf. destruct (id r =? j)%Z; [reflexivity|exact IH].
Qed.

(** X4.  [update_request_status] rewrites the row with the given id and
    nothing else.  The row found under that id afterwards, and every row
    of the table with that id, keeps its id, user, chat, date, time,
    court, duration and creation time, and holds the given status in
    [status], the time of the update in ISO format in [processed_at] and
    the given message in [result_message] (a missing message erases the
    stored one).  Every other lookup and every row with another id is as
    before, and an id that is not in the table changes nothing,
    silently. *)
Theorem update_request_status_writes_its_row (now : datetime) (i : Z)
    (s : string) (m : option string) (db : DB) :
  match get_request i db with
  | Some r =>
      get_request i (update_request_status now i s m db)
      = Some (mk_request (id r) (user_id r) (chat_id r) (requested_date r)
                (requested_time r) (court_preference r) (duration r)
                s (created_at r) (Some (isoformat now)) m)
  | None => get_request i (update_request_status now i s m db) = None
  end
  /\ (forall k r, nth_error db k = Some r -> id r = i ->
        nth_error (update_request_status now i s m db) k
        = Some (mk_request (id r) (user_id r) (chat_id r) (requested_date r)
                  (requested_time r) (court_preference r) (duration r)
                  s (created_at r) (Some (isoformat now)) m))
  /\ (forall j, j <> i ->
        get_request j (update_request_status now i s m db) = get_request j db)
  /\ (forall k r, nth_error db k = Some r -> id r <> i ->
        nth_error (update_request_status now i s m db) k = Some r)
  /\ (get_request i db = None -> update_request_status now i s m db = db)
  /\ ids (update_request_status now i s m db) = ids db.
Proof.
  split; [|split; [|split; [|split; [|split]]]].
  - unfold get_request, update_request_status.
    rewrite find_map_id by (intros r; destruct (id r =? i)%Z; reflexivity).
    destruct (find (fun r => (id r =? i)%Z) db) as [r|] eqn:E; [|reflexivity].
    apply find_some in E. destruct E as [_ E]. cbn [option_map].
    rewrite E. reflexivity.
  - intros k r Hk Hr. unfold update_request_status.
    rewrite nth_error_map, Hk. cbn [option_map].
    destruct (Z.eqb_spec (id r) i); [reflexivity|contradiction].
  - intros j Hj. unfold get_request, update_request_status.
    rewrite find_map_id by (intros r; destruct (id r =? i)%Z; reflexivity).
    destruct (find (fun r => (id r =? j)%Z) db) as [r|] eqn:E; [|reflexivity].
    apply find_some in E. destruct E as [_ E]. apply Z.eqb_eq in E.
    cbn [option_map]. destruct (Z.eqb_spec (id r) i); [congruence|reflexivity].
  - intros k r Hk Hr. unfold update_request_status.
    rewrite nth_error_map, Hk. cbn [option_map].
    destruct (Z.eqb_spec (id r) i); [contradiction|reflexivity].
  - intros Hnone. unfold update_request_status. apply map_fixed.
    intros r Hr. destruct (Z.eqb_spec (id r) i) as [E|E]; [|reflexivity].
    exfalso. apply get_request_none in Hnone. apply Hnone.
    rewrite <- E. apply in_map. exact Hr.
  - apply ids_update_request_status.
Qed.

(** X5.  How [update_request_status] composes: of two updates of one
    request the later one wins; updates of different requests commute; an
    update after a cancellation of the same request erases the
    cancellation (the method does not look at the current status); and a
    request updated to a status other than [pending] can no longer be
    cancelled: [cancel_request] returns [False] and changes nothing. *)
Theorem update_request_status_composes (now1 now2 : datetime) (i j : Z)
    (s1 s2 : string) (m1 m2 : option string) (u : string) (db : DB) :
  update_request_status now2 i s2 m2 (update_request_status now1 i s1 m1 db)
  = update_request_status now2 i s2 m2 db
  /\ (i <> j ->
      update_request_status now2 j s2 m2
        (update_request_status now1 i s1 m1 db)
      = update_request_status now1 i s1 m1
          (update_request_status now2 j s2 m2 db))
  /\ update_request_status now2 i s2 m2 (fst (cancel_request i u db))
     = update_request_status now2 i s2 m2 db
  /\ (s1 <> "pending" ->
      cancel_request i u (update_request_status now1 i s1 m1 db)
      = (update_request_status now1 i s1 m1 db, false)).
Proof.
  split; [|split; [|split]].
  - unfold update_request_status. rewrite map_map. apply map_ext.
    intros r. destruct (id r =? i)%Z eqn:E; cbn [id set_processed].
    + rewrite E. reflexivity.
    + rewrite E. reflexivity.
  - intros Hij. unfold update_request_status. rewrite !map_map.
    apply map_ext. intros r.
    destruct (Z.eqb_spec (id r) i) as [Ei|Ei];
      destruct (Z.eqb_spec (id r) j) as [Ej|Ej]; cbn [id set_processed];
      try congruence.
    + destruct (Z.eqb_spec (id r) j); [congruence|].
      destruct (Z.eqb_spec (id r) i); [reflexivity|congruence].
    + destruct (Z.eqb_spec (id r) j); [|congruence].
      destruct (Z.eqb_spec (id r) i); [congruence|reflexivity].
    + destruct (Z.eqb_spec (id r) j); [congruence|].
      destruct (Z.eqb_spec (id r) i); [congruence|reflexivity].
  - unfold update_request_status, cancel_request; cbn [fst].
    rewrite map_map. apply map_ext. intros r.
    destruct (cancellable i u r) eqn:C; [|reflexivity].
    apply cancellable_iff in C. destruct C as [Hi _].
    cbn [id set_cancelled]. rewrite Hi, Z.eqb_refl. reflexivity.
  - intros Hs. unfold cancel_request.
    assert (N : forall r, In r (update_request_status now1 i s1 m1 db) ->
                          cancellable i u r = false).
    { intros r Hr. unfold update_request_status in Hr.
      apply in_map_iff in Hr. destruct Hr as [r0 [<- _]].
      unfold cancellable.
      destruct (Z.eqb_spec (id r0) i) as [E|E].
      - cbn [id status set_processed user_id].
        destruct (String.eqb_spec s1 "pending"); [contradiction|].
        rewrite andb_false_r. reflexivity.
      - destruct (Z.eqb_spec (id r0) i); [contradiction|]. reflexivity. }
    apply f_equal2.
    + apply map_fixed. intros r Hr. rewrite (N r Hr). reflexivity.
    + replace (filter (cancellable i u) (update_request_status now1 i s1 m1 db))
        with (@nil Request); [reflexivity|].
      symmetry. induction (update_request_status now1 i s1 m1 db) as [|r l IH];
        [reflexivity|].
      cbn [filter]. rewrite (N r) by (left; reflexivity).
      apply IH. intros r' Hr'. apply N. right. exact Hr'.
Qed.

Lemma string_leb_trans (a b c : string) :
  String.leb a b = true -> String.leb b c = true -> String.leb a c = true.
Proof.
  unfold String.leb. revert b c.
  induction a as [|x a IH]; intros [|y b] [|z c]; cbn [String.compare];
    try (intros; reflexivity); try (intros; discriminate).
  destruct (Ascii.compare x y) eqn:Exy; try (intros; discriminate);
    destruct (Ascii.compare y z) eqn:Eyz; try (intros; discriminate).
  - apply Ascii.compare_eq_iff in Exy, Eyz. subst.
    unfold Ascii.compare. rewrite N.compare_refl. apply IH.
  - apply Ascii.compare_eq_iff in Exy. subst. rewrite Eyz. reflexivity.
  - apply Ascii.compare_eq_iff in Eyz. subst. rewrite Exy. reflexivity.
  - unfold Ascii.compare in *. apply N.compare_lt_iff in Exy, Eyz.
    rewrite (proj2 (N.compare_lt_iff _ _) (N.lt_trans _ _ _ Exy Eyz)).
    reflexivity.
Qed.

Lemma insert_by_created_at_desc_perm r rows :
  Permutation (r :: rows) (insert_by_created_at_desc r rows).
Proof.
  induction rows as [|y rows IH]; simpl; [apply Permutation_refl|].
  destruct (String.leb (created_at y) (created_at r)).
  - apply Permutation_refl.
  - eapply perm_trans; [apply perm_swap|]. apply perm_skip. exact IH.
Qed.

Lemma order_by_created_at_desc_perm rows :
  Permutation rows (order_by_created_at_desc rows).
Proof.
  induction rows as [|y rows IH]; simpl; [constructor|].
  eapply perm_trans; [apply perm_skip; exact IH|].
  apply insert_by_created_at_desc_perm.
Qed.

Lemma insert_by_created_at_desc_sorted r rows :
  Sorted newest_first rows ->
  Sorted newest_first (insert_by_created_at_desc r rows).
Proof.
  induction rows as [|y rows IH]; simpl; intros Hs.
  - repeat constructor.
  - destruct (String.leb (created_at y) (created_at r)) eqn:E.
    + constructor; [exact Hs|]. constructor. exact E.
    + inversion Hs as [|? ? Hs' Hhd]; subst.
      constructor; [apply IH; exact Hs'|].
      assert (Hyr : newest_first y r).
      { unfold newest_first.
        destruct (String.leb_total (created_at r) (created_at y)) as [H|H];
          [exact H|rewrite H in E; discriminate]. }
      destruct rows as [|z rows]; simpl.
      * constructor. exact Hyr.
      * destruct (String.leb (created_at z) (created_at r)).
        -- constructor. exact Hyr.
        -- inversion Hhd; subst. constructor. assumption.
Qed.

Lemma order_by_created_at_desc_sorted rows :
  Sorted newest_first (order_by_created_at_desc rows).
Proof.
  induction rows as [|y rows IH]; simpl; [constructor|].
  apply insert_by_created_at_desc_sorted. exact IH.
Qed.

(** X6.  [get_user_requests] returns exactly the rows of the given user,
    each as often as the table holds it, and every returned row was
    created no earlier (as the [created_at] texts compare) than all the
    rows after it. *)
Theorem get_user_requests_newest_first (user : string) (db : DB) :
  (forall r, In r (get_user_requests user db)
             <-> In r db /\ user_id r = user)
  /\ Permutation (filter (fun r => String.eqb (user_id r) user) db)
       (get_user_requests user db)
  /\ StronglySorted newest_first (get_user_requests user db).
Proof.
  assert (P : Permutation (filter (fun r => String.eqb (user_id r) user) db)
                (get_user_requests user db))
    by apply order_by_created_at_desc_perm.
  split; [|split; [exact P|]].
  - intros r. split.
    + intros H. apply Permutation_sym in P.
      apply (Permutation_in _ P) in H. apply filter_In in H.
      rewrite String.eqb_eq in H. exact H.
    + intros H. apply (Permutation_in _ P). apply filter_In.
      rewrite String.eqb_eq. exact H.
  - apply Sorted_StronglySorted.
    + intros a b c Hab Hbc. unfold newest_first in *.
      eapply string_leb_trans; eassumption.
    + apply order_by_created_at_desc_sorted.
Qed.

(** X7.  [get_pending_requests] returns exactly the pending rows, each
    created no later than all the rows after it, and
    [get_requests_for_date] returns those of them with the given date. *)
Theorem get_pending_requests_oldest_first (db : DB) :
  (forall r, In r (get_pending_requests db)
             <-> In r db /\ status r = "pending")
  /\ Permutation (filter (fun r => String.eqb (status r) "pending") db)
       (get_pending_requests db)
  /\ StronglySorted oldest_first (get_pending_requests db)
  /\ (forall target r,
        In r (get_requests_for_date target db)
        <-> In r (get_pending_requests db) /\ requested_date r = target).
Proof.
  assert (P : Permutation (filter (fun r => String.eqb (status r) "pending") db)
                (get_pending_requests db))
    by apply order_by_created_at_perm.
  assert (I : forall r, In r (get_pending_requests db)
                        <-> In r db /\ status r = "pending").
  { intros r. unfold get_pending_requests.
    rewrite order_by_created_at_in, filter_In, String.eqb_eq. tauto. }
  split; [exact I|]. split; [exact P|]. split.
  - apply Sorted_StronglySorted.
    + intros a b c Hab Hbc. unfold oldest_first in *.
      eapply string_leb_trans; eassumption.
    + apply order_by_created_at_sorted.
  - intros target r. rewrite get_requests_for_date_in, I. tauto.
Qed.

(** X8.  Under the primary key, a request that was given a status other
    than [pending], or that was cancelled successfully, is not among the
    requests [get_requests_for_date] fetches, for any date. *)
Theorem settled_request_not_fetched (now : datetime) (i : Z) (s : string)
    (m : option string) (u target : string) (db : DB) :
  unique_ids db ->
  (s <> "pending" ->
   forall r,
     In r (get_requests_for_date target (update_request_status now i s m db)) ->
     id r <> i)
  /\ (snd (cancel_request i u db) = true ->
      forall r,
        In r (get_requests_for_date target (fst (cancel_request i u db))) ->
        id r <> i).
Proof.
  intros Hkey. split.
  - intros Hs r Hr Hid. apply get_requests_for_date_in in Hr.
    destruct Hr as [Hin [Hst _]]. unfold update_request_status in Hin.
    apply in_map_iff in Hin. destruct Hin as [r0 [E _]].
    destruct (Z.eqb_spec (id r0) i) as [E0|E0]; subst r.
    + cbn [status set_processed] in Hst. contradiction.
    + contradiction.
  - intros Hok r Hr Hid. apply get_requests_for_date_in in Hr.
    destruct Hr as [Hin [Hst _]].
    unfold cancel_request in Hok, Hin; cbn [fst snd] in Hok, Hin.
    apply Nat.ltb_lt in Hok.
    destruct (filter (cancellable i u) db) as [|c l] eqn:F;
      [cbn in Hok; lia|].
    assert (Hc : In c (filter (cancellable i u) db))
      by (rewrite F; left; reflexivity).
    apply filter_In in Hc. destruct Hc as [Hcin Hc].
    apply cancellable_iff in Hc. destruct Hc as [Hci _].
    apply in_map_iff in Hin. destruct Hin as [r0 [E Hr0]].
    assert (id r0 = i).
    { subst r. destruct (cancellable i u r0); exact Hid. }
    assert (r0 = c) by (apply (unique_ids_row db); congruence).
    subst r0. subst r.
    assert (Hcc : cancellable i u c = true).
    { assert (In c (filter (cancellable i u) db))
        by (rewrite F; left; reflexivity).
      apply filter_In in H0. tauto. }
    rewrite Hcc in Hst. cbn in Hst. discriminate.
Qed.

Lemma settled_request_not_fetched_witness :
  unique_ids Samples.four_requests
  /\ exists r,
       In r (get_requests_for_date "2024-12-25"
               (update_request_status (Samples.at_7am 2024 12 23) 1 "failed"
                  None Samples.four_requests))
       /\ id r <> 1%Z.
Proof.
  split; [exact four_requests_unique|].
  exists (mk_request 2 "bob" "chat-b" "2024-12-25" "14:05" None 90 "pending"
            "2024-12-20T18:05:12.000250" None None).
  assert (Hin : In (mk_request 2 "bob" "chat-b" "2024-12-25" "14:05" None 90
                      "pending" "2024-12-20T18:05:12.000250" None None)
                  (get_requests_for_date "2024-12-25"
                     (update_request_status (Samples.at_7am 2024 12 23) 1
                        "failed" None Samples.four_requests))).
  { vm_compute. left. reflexivity. }
  split; [exact Hin|].
  apply (proj1 (settled_request_not_fetched (Samples.at_7am 2024 12 23) 1
                  "failed" None "alice" "2024-12-25" Samples.four_requests
                  four_requests_unique)).
  - discriminate.
  - exact Hin.
Defined.

(** X9.  No sequence of operations changes what was requested: the row
    at a position stays at that position and keeps its id, user, chat,
    date, time, court preference, duration and creation time; only
    [status], [processed_at] and [result_message] are ever rewritten. *)
Lemma exec_op_same_request op db k r :
  nth_error db k = Some r ->
  exists r', nth_error (exec_op op db) k = Some r' /\ same_request r r'.
Proof.
  intros Hk. destruct op as [now u c d t court dur|now i st m|i u];
    cbn [exec_op].
  - exists r. split; [|repeat split].
    unfold add_request; cbn [fst]. rewrite nth_error_app1; [exact Hk|].
    apply nth_error_Some. rewrite Hk. discriminate.
  - unfold update_request_status. rewrite nth_error_map, Hk.
    cbn [option_map]. eexists; split; [reflexivity|].
    destruct (id r =? i)%Z; repeat split.
  - unfold cancel_request; cbn [fst]. rewrite nth_error_map, Hk.
    cbn [option_map]. eexists; split; [reflexivity|].
    destruct (cancellable i u r); repeat split.
Qed.

Theorem request_data_immutable (ops : list Op) (db : DB) (k : nat)
    (r : Request) :
  nth_error db k = Some r ->
  exists r', nth_error (exec_ops ops db) k = Some r' /\ same_request r r'.
Proof.
  revert db r. induction ops as [|op ops IH]; intros db r Hk.
  - exists r. split; [exact Hk|repeat split].
  - destruct (exec_op_same_request op db k r Hk) as [r1 [H1 S1]].
    destruct (IH _ _ H1) as [r' [H' S']].
    exists r'. split; [exact H'|].
    unfold same_request in *. intuition congruence.
Qed.

Lemma request_data_immutable_witness :
  exists r',
    nth_error (exec_ops Samples.sample_ops Samples.two_requests) 1 = Some r'
    /\ same_request
         (mk_request 2 "bob" "chat-b" "2024-12-25" "14:05" None 90 "pending"
            "2024-12-20T18:05:12.000250" None None) r'.
Proof.
  apply (request_data_immutable Samples.sample_ops Samples.two_requests 1).
  reflexivity.
Defined.

(* ===================================================================== *)
(** * Further properties of scheduler.py                                  *)
(* ===================================================================== *)

Section BatchRuns.
Context {W : Type}.
Variable env : Collaborators W.

Lemma apply_updates_length (us : list Update) : forall db : DB,
  List.length (apply_updates us db) = List.length db.
Proof.
  induction us as [|u us IH]; intros db; [reflexivity|].
  cbn [apply_updates fold_left]. fold (apply_updates us (apply_update db u)).
  rewrite IH. unfold apply_update, update_request_status.
  apply length_map.
Qed.

(** X10.  A run that fetches no request for the eligible date stops
    there: it returns normally, has read the clock once, has written the
    two log lines, and has neither built a scraper, started a browser,
    called the bot nor touched the table. *)
Theorem empty_batch_does_nothing (s : State W) :
  fetched env s = [] ->
  process_pending_requests env s
  = (Ok tt,
     mk_state (st_db s) (snd (datetime_now env (st_world s)))
       (st_log s
        ++ [ (INFO, "Processing pending booking requests...");
             (INFO,
              ("No pending requests for " ++ eligible_date env s)%string) ])%list
       (st_trace s)).
Proof.
  unfold fetched, eligible_date, process_pending_requests. run_sched.
  destruct (datetime_now env (st_world s)) as [t w].
  cbn [st_db st_world st_log st_trace fst snd].
  intros ->. cbn [st_db st_world st_log st_trace].
  rewrite <- app_assoc. reflexivity.
Qed.

(** X11.  A run that fetches requests logs in once, first, and closes
    the scraper once, last, however the login and the bookings in between
    ended; and it raises only what [login] or [close] raised: a failing
    booking or notification never ends the run. *)
Theorem session_closed_once (s : State W) :
  fetched env s <> [] ->
  exists (logged_in : res bool) (closed : res unit) (body : list Event),
    batch_events env s = (EvLogin logged_in :: body ++ [EvClose closed])%list
    /\ login_results body = []
    /\ close_results body = []
    /\ fst (process_pending_requests env s) = run_result logged_in closed.
Proof.
  intros Hsome.
  destruct (process_pending_requests_result env s) as [[Hnone _]|[_ H]];
    [contradiction|exact H].
Qed.

(** X12.  After a run whose login returned (true or false), no request
    is pending for the run's eligible date any more: a second run on the
    same day fetches nothing, so no request is booked twice. *)
Theorem batch_at_most_once (s : State W) (b : bool) :
  In (EvLogin (Ok b)) (batch_events env s) ->
  get_requests_for_date (eligible_date env s) (st_db (after_batch env s))
  = [].
Proof.
  intros Hlogin.
  destruct (batch_after_login env s (Ok b) Hlogin)
    as [closed [body [us [_ [Hdb Hcase]]]]].
  assert (Hids : map updated_id us = map id (fetched env s)
                 /\ forall t i st m, In (t, (i, st, m)) us -> st <> "pending").
  { destruct b.
    - destruct Hcase as [runs [Hlen [_ ->]]]. split.
      + rewrite map_map. unfold updated_id, run_update; cbn [fst snd].
        apply (map_combine_fst id _ _ Hlen).
      + intros t i st m Hin. apply in_map_iff in Hin.
        destruct Hin as [[req run] [E _]]. unfold run_update in E.
        cbn [fst snd] in E. inversion E; subst.
        destruct (outcome_status_cases (fst (fst run))) as [-> | ->];
          discriminate.
    - destruct Hcase as [runs [Hlen [_ ->]]]. split.
      + rewrite map_map. unfold updated_id, failed_update; cbn [fst snd].
        apply (map_combine_fst id _ _ Hlen).
      + intros t i st m Hin. apply in_map_iff in Hin.
        destruct Hin as [[req run] [E _]]. unfold failed_update in E.
        cbn [fst snd] in E. inversion E; subst. discriminate. }
  destruct Hids as [Hids Hst].
  destruct (get_requests_for_date (eligible_date env s)
              (st_db (after_batch env s))) as [|row rest] eqn:Hfetch;
    [reflexivity|exfalso].
  assert (Hrow : In row (get_requests_for_date (eligible_date env s)
                           (st_db (after_batch env s))))
    by (rewrite Hfetch; left; reflexivity).
  apply get_requests_for_date_in in Hrow.
  destruct Hrow as [Hin [Hpending Hdate]].
  apply In_nth_error in Hin. destruct Hin as [k Hk].
  destruct (nth_error (st_db s) k) as [old|] eqn:Hold.
  - destruct (apply_updates_row us (st_db s) k old Hold)
      as [row' [Hk' [_ [Hsame Hwritten]]]].
    rewrite <- Hdb, Hk in Hk'. inversion Hk'; subst row'.
    destruct (in_dec Z.eq_dec (id old)
                (map (fun u : Update => fst (fst (snd u))) us)) as [Hi|Hi].
    + destruct (Hwritten Hi) as [t [st [m [Hu ->]]]].
      cbn [status set_processed] in Hpending.
      apply (Hst _ _ _ _ Hu). exact Hpending.
    + rewrite (Hsame Hi) in *. apply Hi.
      change (fun u : Update => fst (fst (snd u))) with updated_id.
      rewrite Hids. apply in_map. unfold fetched.
      apply get_requests_for_date_in.
      split; [eapply nth_error_In; exact Hold|]. auto.
  - apply nth_error_None in Hold.
    assert (k < List.length (st_db (after_batch env s)))
      by (apply nth_error_Some; rewrite Hk; discriminate).
    rewrite Hdb, apply_updates_length in H. lia.
Qed.

(** X13.  When [login] raises (the browser cannot be started), the run
    calls nothing but [close], leaves the table as it was (the fetched
    requests stay pending and nobody is notified) and raises: the
    exception of [login], or that of [close] if [close] raises too. *)
Theorem login_exception_leaves_requests (s : State W) (e : exn) :
  In (EvLogin (Raise e)) (batch_events env s) ->
  st_db (after_batch env s) = st_db s
  /\ exists closed : res unit,
       batch_events env s = [EvLogin (Raise e); EvClose closed]
       /\ fst (process_pending_requests env s)
          = match closed with
            | Ok _ => Raise e
            | Raise e' => Raise e'
            end.
Proof.
  intros Hlogin.
  destruct (batch_after_login env s (Raise e) Hlogin)
    as [closed [body [us [Hevs [Hdb [-> ->]]]]]].
  split; [exact Hdb|]. exists closed. split; [exact Hevs|].
  destruct (process_pending_requests_result env s)
    as [[_ [_ Hnone]]|[_ [l [c [body [Hevs' [_ [_ Hres]]]]]]]].
  - exfalso. rewrite Hnone in Hlogin. exact Hlogin.
  - rewrite Hevs in Hevs'. cbn [app] in Hevs'.
    inversion Hevs' as [[Hl Hrest]]. subst l.
    change [EvClose closed] with ([] ++ [EvClose closed])%list in Hrest.
    apply app_inj_tail in Hrest. destruct Hrest as [_ Hc].
    inversion Hc; subst c. rewrite Hres. destruct closed; reflexivity.
Qed.

End BatchRuns.

Lemma empty_batch_witness :
  fetched (Samples.morning_collaborators true)
    (mk_state Samples.later_request tt [] []) = []
  /\ fst (process_pending_requests (Samples.morning_collaborators true)
            (mk_state Samples.later_request tt [] [])) = Ok tt
  /\ st_db (after_batch (Samples.morning_collaborators true)
              (mk_state Samples.later_request tt [] [])) = Samples.later_request
  /\ batch_events (Samples.morning_collaborators true)
       (mk_state Samples.later_request tt [] []) = [].
Proof.
  assert (H : fetched (Samples.morning_collaborators true)
                (mk_state Samples.later_request tt [] []) = [])
    by (vm_compute; reflexivity).
  split; [exact H|].
  unfold batch_events, after_batch.
  rewrite (empty_batch_does_nothing (Samples.morning_collaborators true)
             (mk_state Samples.later_request tt [] []) H).
  repeat split.
Defined.

Lemma session_closed_witness :
  exists (logged_in : res bool) (closed : res unit) (body : list Event),
    batch_events (Samples.morning_collaborators true) Samples.morning
    = (EvLogin logged_in :: body ++ [EvClose closed])%list
    /\ login_results body = []
    /\ close_results body = []
    /\ fst (process_pending_requests (Samples.morning_collaborators true)
              Samples.morning)
       = run_result logged_in closed.
Proof.
  apply (session_closed_once (Samples.morning_collaborators true)
           Samples.morning).
  vm_compute. discriminate.
Defined.

Lemma batch_at_most_once_witness :
  In (EvLogin (Ok true))
    (batch_events (Samples.morning_collaborators true) Samples.morning)
  /\ get_requests_for_date
       (eligible_date (Samples.morning_collaborators true) Samples.morning)
       (st_db (after_batch (Samples.morning_collaborators true)
                 Samples.morning))
     = [].
Proof.
  assert (H : In (EvLogin (Ok true))
                (batch_events (Samples.morning_collaborators true)
                   Samples.morning))
    by (vm_compute; left; reflexivity).
  split; [exact H|].
  exact (batch_at_most_once (Samples.morning_collaborators true)
           Samples.morning true H).
Defined.

Lemma login_exception_witness :
  st_db (after_batch Samples.chrome_down Samples.chrome_down_morning)
  = Samples.four_requests
  /\ exists closed : res unit,
       batch_events Samples.chrome_down Samples.chrome_down_morning
       = [ EvLogin (Raise (mk_exn OtherException
                             "Message: Unable to obtain driver for chrome"));
           EvClose closed ]
       /\ fst (process_pending_requests Samples.chrome_down Samples.chrome_down_morning)
          = match closed with
            | Ok _ =>
                Raise (mk_exn OtherException
                         "Message: Unable to obtain driver for chrome")
            | Raise e' => Raise e'
            end.
Proof.
  apply (login_exception_leaves_requests Samples.chrome_down Samples.chrome_down_morning).
  vm_compute. left. reflexivity.
Defined.

(* ===================================================================== *)
(** * Further properties of booking_scraper.py                            *)
(* ===================================================================== *)

Section LoginProps.
Context {W Elem : Type}.
Variable drv : WebDriver W Elem.

Lemma driver_call_ok {A : Type} (attr : string) (op : W -> res A * W)
    (s s' : Session W) (a : A) :
  driver_call attr op s = (Ok a, s') ->
  has_driver s = true
  /\ exists w, op (world s) = (Ok a, w) /\ s' = mk_session w true (log s).
Proof.
  unfold driver_call. destruct (has_driver s); [|discriminate].
  destruct (op (world s)) as [r w] eqn:E. intros H. inversion H; subst.
  split; [reflexivity|]. exists w. auto.
Qed.

Lemma world_call_ok {A : Type} (op : W -> res A * W)
    (s s' : Session W) (a : A) :
  world_call op s = (Ok a, s') ->
  exists w, op (world s) = (Ok a, w)
            /\ s' = mk_session w (has_driver s) (log s).
Proof.
  unfold world_call. destruct (op (world s)) as [r w] eqn:E.
  intros H. inversion H; subst. exists w. auto.
Qed.

Lemma try_except_of_ok {A : Type} (classes : list exn_class)
    (body handler : Py.M (Session W) A) (s s' : Session W) (a : A) :
  try_except_of classes body handler s = (Ok a, s') ->
  body s = (Ok a, s')
  \/ exists e s1, body s = (Raise e, s1) /\ handler s1 = (Ok a, s').
Proof.
  unfold try_except_of. destruct (body s) as [[x|e] s1].
  - intros H. left. exact H.
  - destruct (existsb (exn_class_eqb (exn_cls e)) classes); [|discriminate].
    intros H. right. exists e, s1. auto.
Qed.

Lemma find_username_field_some (selectors : list string) :
  forall (s s' : Session W) (field : Elem),
    find_username_field drv selectors s = (Ok (Some field), s') ->
    exists selector w1 w2,
      In selector selectors
      /\ wait_presence drv 10 CSS_SELECTOR selector w1 = (Ok field, w2).
Proof.
  induction selectors as [|sel rest IH]; intros s s' field H.
  - discriminate H.
  - cbn [find_username_field] in H. apply bind_ok_inv in H.
    destruct H as [r [s1 [Htry Hk]]].
    destruct r as [e|].
    + unfold ret in Hk. inversion Hk; subst e s1.
      apply try_except_of_ok in Htry.
      destruct Htry as [Hb|[e [s1 [_ Hh]]]]; [|discriminate Hh].
      apply bind_ok_inv in Hb. destruct Hb as [e [s1 [Hcall Hret]]].
      unfold ret in Hret. inversion Hret; subst e s1.
      apply driver_call_ok in Hcall. destruct Hcall as [_ [w [Hw _]]].
      exists sel, (world s), w. split; [left; reflexivity|exact Hw].
    + destruct (IH _ _ _ Hk) as [selector [w1 [w2 [Hin Hw]]]].
      exists selector, w1, w2. split; [right; exact Hin|exact Hw].
Qed.

Lemma find_password_field_some (selectors : list string) :
  forall (s s' : Session W) (field : Elem),
    find_password_field drv selectors s = (Ok (Some field), s') ->
    exists selector w1 w2,
      In selector selectors
      /\ driver_find_element drv CSS_SELECTOR selector w1 = (Ok field, w2).
Proof.
  induction selectors as [|sel rest IH]; intros s s' field H.
  - discriminate H.
  - cbn [find_password_field] in H. apply bind_ok_inv in H.
    destruct H as [r [s1 [Htry Hk]]].
    destruct r as [e|].
    + unfold ret in Hk. inversion Hk; subst e s1.
      apply try_except_of_ok in Htry.
      destruct Htry as [Hb|[e [s1 [_ Hh]]]]; [|discriminate Hh].
      apply bind_ok_inv in Hb. destruct Hb as [e [s1 [Hcall Hret]]].
      unfold ret in Hret. inversion Hret; subst e s1.
      apply driver_call_ok in Hcall. destruct Hcall as [_ [w [Hw _]]].
      exists sel, (world s), w. split; [left; reflexivity|exact Hw].
    + destruct (IH _ _ _ Hk) as [selector [w1 [w2 [Hin Hw]]]].
      exists selector, w1, w2. split; [right; exact Hin|exact Hw].
Qed.

(** X14.  [login] returns [True] only after the username was sent to an
    element found by a username selector, the password to an element
    found by a password selector, and the browser reported a current URL
    without [login] in it (in any case of the letters); the scraper then
    has a driver. *)
Theorem login_true_after_leaving_login_page (url username password : string)
    (s s' : Session W) :
  login drv url username password s = (Ok true, s') ->
  has_driver s' = true
  /\ typed_username drv username
  /\ typed_password drv password
  /\ left_login_page drv.
Proof.
  unfold login. intros H.
  apply bind_ok_inv in H. destruct H as [d [s0 [_ H]]].
  apply bind_ok_inv in H. destruct H as [_ [s1 [_ H]]].
  unfold try_except in H.
  destruct (login_body drv url username password s1) as [[b|e] s2] eqn:Hbody.
  2:{ apply bind_ok_inv in H. destruct H as [_ [s3 [_ H]]].
      unfold ret in H. discriminate H. }
  assert (Hb : b = true /\ s2 = s') by (inversion H; auto).
  clear H. destruct Hb as [Hb Hs2]. subst b s2.
  unfold login_body in Hbody.
  apply bind_ok_inv in Hbody. destruct Hbody as [_ [s2 [_ H]]].
  apply bind_ok_inv in H. destruct H as [_ [s3 [_ H]]].
  apply bind_ok_inv in H. destruct H as [uf [s4 [Hu H]]].
  destruct uf as [uf|].
  2:{ apply bind_ok_inv in H. destruct H as [_ [s5 [_ H]]].
      unfold ret in H. discriminate H. }
  apply bind_ok_inv in H. destruct H as [pf [s5 [Hp H]]].
  destruct pf as [pf|].
  2:{ apply bind_ok_inv in H. destruct H as [_ [s6 [_ H]]].
      unfold ret in H. discriminate H. }
  apply bind_ok_inv in H. destruct H as [_ [s6 [_ H]]].
  apply bind_ok_inv in H. destruct H as [[] [s7 [Hsu H]]].
  apply bind_ok_inv in H. destruct H as [_ [s8 [_ H]]].
  apply bind_ok_inv in H. destruct H as [_ [s9 [_ H]]].
  apply bind_ok_inv in H. destruct H as [[] [s10 [Hsp H]]].
  apply bind_ok_inv in H. destruct H as [_ [s11 [_ H]]].
  apply bind_ok_inv in H. destruct H as [sb [s12 [_ H]]].
  apply bind_ok_inv in H. destruct H as [_ [s13 [_ H]]].
  apply bind_ok_inv in H. destruct H as [_ [s14 [_ H]]].
  apply bind_ok_inv in H. destruct H as [u [s15 [Hurl H]]].
  apply driver_call_ok in Hurl. destruct Hurl as [Hd [w [Hw Hs15]]].
  destruct (contains "login" (lower u)) eqn:Hc.
  { apply bind_ok_inv in H. destruct H as [_ [s16 [_ H]]].
    unfold ret in H. discriminate H. }
  apply bind_ok_inv in H. destruct H as [[] [s16 [Hlog H]]].
  unfold ret in H. inversion H; subst s16. clear H.
  unfold BookingScraper.logger in Hlog. inversion Hlog; subst s'. clear Hlog.
  split; [subst s15; reflexivity|].
  apply find_username_field_some in Hu.
  destruct Hu as [su [w1 [w2 [Hsu_in Hsu_w]]]].
  apply find_password_field_some in Hp.
  destruct Hp as [sp [w3 [w4 [Hsp_in Hsp_w]]]].
  apply world_call_ok in Hsu. destruct Hsu as [w5 [Hsu _]].
  apply world_call_ok in Hsp. destruct Hsp as [w6 [Hsp _]].
  split; [|split].
  - exists su, uf, w1, w2, (world s6), w5. auto.
  - exists sp, pf, w3, w4, (world s9), w6. auto.
  - exists u, (world s14), w. auto.
Qed.


(** X15.  A [close] that returns leaves the scraper without a driver and
    with its log as it was: it has called [quit] once if there was a
    driver and nothing otherwise, and a second [close] does nothing. *)
Theorem close_releases_driver (s s' : Session W) :
  close drv s = (Ok tt, s') ->
  has_driver s' = false
  /\ log s' = log s
  /\ (has_driver s = false -> s' = s)
  /\ (has_driver s = true ->
      driver_quit drv (world s) = (Ok tt, world s'))
  /\ close drv s' = (Ok tt, s').
Proof.
  unfold close. unfold bind at 1, get_has_driver.
  destruct (has_driver s) eqn:Hd.
  - unfold bind, driver_call, set_driver. rewrite Hd.
    destruct (driver_quit drv (world s)) as [[[]|e] w] eqn:Hq;
      cbn [world has_driver log]; intros H; [|discriminate H].
    injection H as Hs. subst s'. cbn [world has_driver log].
    repeat split; auto. discriminate.
  - unfold ret. intros H. injection H as Hs. subst s'. rewrite Hd.
    repeat split; auto; [discriminate|].
    unfold bind. rewrite Hd. reflexivity.
Qed.

(** X16.  On a scraper without a driver (never logged in, or closed),
    [make_booking] touches nothing outside: it returns the failure
    ['Booking error: 'NoneType' object has no attribute 'get''] and
    leaves two error records in the log, the message and then the
    traceback of the [AttributeError]; and [close] does nothing. *)
Theorem scraper_without_driver (url date time_slot : string)
    (court_preference : option string) (duration_minutes : Z)
    (s : Session W) :
  has_driver s = false ->
  make_booking drv url date time_slot court_preference duration_minutes s
  = (Ok (mk_outcome false ("Booking error: " ++ no_driver_text)),
     mk_session (world s) false
       (log s
        ++ [ (ERROR, ("Booking failed: " ++ no_driver_text)%string);
             (ERROR, format_exc drv (mk_exn AttributeError no_driver_text)) ])%list)
  /\ close drv s = (Ok tt, s).
Proof.
  intros Hd. split.
  - unfold make_booking, make_booking_body, open_form, try_except.
    unfold bind at 1. unfold bind at 1. unfold driver_call at 1.
    rewrite Hd. unfold booking_error, bind, ret, BookingScraper.logger.
    cbn [world has_driver log exn_str]. rewrite Hd, <- app_assoc.
    reflexivity.
  - unfold close. run_stmt. rewrite Hd. reflexivity.
Qed.

Lemma submit_clicked_later a rest :
  submit_clicked drv rest -> submit_clicked drv (a :: rest).
Proof.
  intros [sel [b [w1 [w2 [w3 [w4 [Hin H]]]]]]].
  exists sel, b, w1, w2, w3, w4. split; [right; exact Hin|exact H].
Qed.

(** X17.  The submit loop of [make_booking] never raises, whatever the
    browser does, and it reports a submission only when a button was
    found through one of the selectors (XPath for those starting with
    [//], CSS otherwise) and the regular click or, after it failed, the
    script-injected click on that button went through. *)
Theorem click_submit_sound (selectors : list string) (s : Session W) :
  exists (submitted : bool) (s' : Session W),
    click_submit drv selectors s = (Ok submitted, s')
    /\ (submitted = true -> submit_clicked drv selectors).
Proof.
  revert s. induction selectors as [|sel rest IH]; intros s.
  - exists false, s. split; [reflexivity|discriminate].
  - cbn [click_submit].
    match goal with
    | |- context [bind (try_except ?body ?handler) ?k] =>
        set (b := body); set (h := handler)
    end.
    assert (Hstep : exists submitted s1,
               try_except b h s = (Ok submitted, s1)
               /\ (submitted = true -> b s = (Ok true, s1))).
    { unfold try_except. destruct (b s) as [[x|e] s1] eqn:Hb.
      - exists x, s1. split; [reflexivity|]. intros ->. reflexivity.
      - unfold h. destruct (exn_cls e); run_stmt;
          eexists false, _; (split; [reflexivity|discriminate]). }
    destruct Hstep as [submitted [s1 [Htry Hbody]]].
    unfold bind at 1. rewrite Htry. destruct submitted.
    + exists true, s1. split; [reflexivity|]. intros _.
      specialize (Hbody eq_refl). unfold b in Hbody.
      apply bind_ok_inv in Hbody. destruct Hbody as [btn [s2 [Hfind H]]].
      apply bind_ok_inv in H. destruct H as [x1 [s3 [_ H]]].
      apply bind_ok_inv in H. destruct H as [x2 [s4 [_ H]]].
      apply bind_ok_inv in H. destruct H as [x3 [s5 [Hclick _]]].
      assert (Hfound : exists w,
                 wait_presence drv 15
                   (if startswith sel "//" then XPATH else CSS_SELECTOR)
                   sel (world s) = (Ok btn, w)).
      { destruct (startswith sel "//");
          apply driver_call_ok in Hfind;
          destruct Hfind as [_ [w [Hw _]]]; exists w; exact Hw. }
      destruct Hfound as [w Hw].
      unfold try_except in Hclick.
      destruct (bind (world_call (elem_click drv btn))
                  (fun _ => BookingScraper.logger INFO
                              "Clicked submit button using regular click") s4)
        as [[y|e] s6] eqn:Hregular.
      * apply bind_ok_inv in Hregular.
        destruct Hregular as [y1 [s7 [Hc _]]].
        apply world_call_ok in Hc. destruct Hc as [w' [Hc _]].
        exists sel, btn, (world s), w, (world s4), w'.
        split; [left; reflexivity|]. split; [exact Hw|]. left.
        destruct y1. exact Hc.
      * apply bind_ok_inv in Hclick.
        destruct Hclick as [y1 [s7 [_ Hjs]]].
        apply driver_call_ok in Hjs. destruct Hjs as [_ [w' [Hjs _]]].
        exists sel, btn, (world s), w, (world s7), w'.
        split; [left; reflexivity|]. split; [exact Hw|]. right.
        destruct x3. exact Hjs.
    + destruct (IH s1) as [submitted [s' [Hrest Hsound]]].
      exists submitted, s'. split; [exact Hrest|].
      intros H. apply submit_clicked_later. auto.
Qed.

End LoginProps.

Lemma login_true_witness :
  has_driver
    (snd (login page_driver Samples.portal_url "user" "secret"
            (mk_session Samples.only_time_label false []))) = true
  /\ typed_username page_driver "user"
  /\ typed_password page_driver "secret"
  /\ left_login_page page_driver.
Proof.
  apply (login_true_after_leaving_login_page page_driver Samples.portal_url
           "user" "secret" (mk_session Samples.only_time_label false [])).
  vm_compute. reflexivity.
Defined.

Lemma close_releases_driver_witness :
  has_driver
    (snd (close page_driver (mk_session Samples.blank_page true []))) = false
  /\ close page_driver
       (snd (close page_driver (mk_session Samples.blank_page true [])))
     = (Ok tt, snd (close page_driver (mk_session Samples.blank_page true []))).
Proof.
  destruct (close_releases_driver page_driver
              (mk_session Samples.blank_page true [])
              (snd (close page_driver (mk_session Samples.blank_page true []))))
    as [Hd [_ [_ [_ Hagain]]]].
  - reflexivity.
  - split; assumption.
Defined.

Lemma scraper_without_driver_witness :
  make_booking page_driver Samples.portal_url "2024-12-25" "14:05" None 90
    (mk_session Samples.confirmed_page false [])
  = (Ok (mk_outcome false ("Booking error: " ++ no_driver_text)),
     mk_session Samples.confirmed_page false
       [ (ERROR, ("Booking failed: " ++ no_driver_text)%string);
         (ERROR,
          format_exc page_driver (mk_exn AttributeError no_driver_text)) ])
  /\ close page_driver (mk_session Samples.confirmed_page false [])
     = (Ok tt, mk_session Samples.confirmed_page false []).
Proof.
  apply (scraper_without_driver page_driver Samples.portal_url "2024-12-25"
           "14:05" None 90 (mk_session Samples.confirmed_page false [])).
  reflexivity.
Defined.

(* ===================================================================== *)
(** * Dates and court numbers                                             *)
(* ===================================================================== *)

Lemma count_up_In (k : nat) : forall (from n : N),
  (from <= n < from + N.of_nat k)%N -> In n (count_up k from).
Proof.
  induction k as [|k IH]; intros from n H; [lia|].
  cbn [count_up]. destruct (N.eq_dec from n) as [E|E]; [left; exact E|].
  right. apply IH. lia.
Qed.

Lemma four_digit_numbers (n : N) :
  (1000 <= n <= 9999)%N -> four_digits n = true.
Proof.
  intros H.
  assert (A : forallb four_digits (count_up (9 * 1000) 1000) = true)
    by (vm_compute; reflexivity).
  rewrite forallb_forall in A. apply A. apply count_up_In.
  assert (N.of_nat (9 * 1000) = 9000%N) by reflexivity. lia.
Qed.

(** From the year 1000 on [%Y] is four digits that read the year. *)
Lemma zfill4_digits (y : nat) :
  1000 <= y <= MAXYEAR ->
  exists a b c d,
    zfill4 y = String a (String b (String c (String d EmptyString)))
    /\ is_digit a && is_digit b && is_digit c && is_digit d = true
    /\ 1000 * digit_value a + 100 * digit_value b + 10 * digit_value c
       + digit_value d = y.
Proof.
  intros Hy. unfold MAXYEAR in Hy.
  assert (Hz : zfill4 y = str_int (Z.of_N (N.of_nat y))).
  { unfold zfill4. rewrite nat_N_Z.
    destruct (Nat.ltb_spec y 10); [lia|].
    destruct (Nat.ltb_spec y 100); [lia|].
    destruct (Nat.ltb_spec y 1000); [lia|]. reflexivity. }
  assert (Hn : four_digits (N.of_nat y) = true)
    by (apply four_digit_numbers; lia).
  unfold four_digits in Hn. rewrite <- Hz in Hn.
  destruct (zfill4 y) as [|a [|b [|c [|d [|? ?]]]]]; try discriminate Hn.
  apply andb_true_iff in Hn. destruct Hn as [Hdig Hval].
  apply N.eqb_eq in Hval.
  exists a, b, c, d. split; [reflexivity|]. split; [exact Hdig|]. lia.
Qed.

Lemma re_match_Ymd_strftime (y m d : nat) :
  1000 <= y <= MAXYEAR -> 1 <= m <= 12 -> 1 <= d <= 31 ->
  re_match_Ymd (strftime_Y_m_d (mk_date y m d))
  = Some (mk_date y m d, EmptyString).
Proof.
  intros Hy Hm Hd.
  destruct (zfill4_digits y Hy) as [a [b [c [e [Hz [Hdig Hval]]]]]].
  unfold strftime_Y_m_d. cbn [year month day]. rewrite Hz.
  unfold re_match_Ymd. cbn [append re_Y]. rewrite Hdig, Hval.
  cbn [first_match fst snd].
  assert (Hmi : In m (seq 1 12)) by (apply in_seq; lia).
  assert (Hdi : In d (seq 1 31)) by (apply in_seq; lia).
  clear Hm Hd Hy Hdig Hz Hval. cbn [seq In] in Hmi, Hdi.
  repeat (destruct Hmi as [<-|Hmi]); [..|contradiction];
    repeat (destruct Hdi as [<-|Hdi]); try contradiction;
    vm_compute; reflexivity.
Qed.

Lemma days_in_month_bounds (y m : nat) :
  28 <= days_in_month y m <= 31.
Proof.
  unfold days_in_month.
  do 12 (destruct m as [|m]; [try lia; destruct (is_leap y); lia|]).
  lia.
Qed.

Lemma valid_date_spec (d : date) :
  valid_date d = true <->
  1 <= month d <= 12 /\ 1 <= day d <= days_in_month (year d) (month d).
Proof.
  unfold valid_date. rewrite !andb_true_iff, !Nat.leb_le. tauto.
Qed.

Lemma strptime_strftime_Y_m_d (d : date) :
  valid_date d = true -> 1000 <= year d <= MAXYEAR ->
  strptime_Y_m_d (strftime_Y_m_d d) = Ok d.
Proof.
  intros Hv Hy. apply valid_date_spec in Hv. destruct Hv as [Hm Hd].
  pose proof (days_in_month_bounds (year d) (month d)) as Hb.
  destruct d as [y m dd]. cbn [year month day] in *.
  unfold strptime_Y_m_d.
  rewrite re_match_Ymd_strftime by lia. cbn [year month day].
  destruct (Nat.eqb_spec y 0); [lia|].
  destruct (Nat.ltb_spec (days_in_month y m) dd); [lia|]. reflexivity.
Qed.

Lemma next_day_valid (d : date) :
  valid_date d = true ->
  valid_date (next_day d) = true
  /\ year d <= year (next_day d) <= S (year d).
Proof.
  intros Hv. apply valid_date_spec in Hv. destruct Hv as [Hm Hd].
  unfold next_day.
  destruct (Nat.ltb_spec (day d) (days_in_month (year d) (month d))).
  - split; [|cbn; lia]. apply valid_date_spec. cbn. lia.
  - destruct (Nat.ltb_spec (month d) 12).
    + split; [|cbn; lia]. apply valid_date_spec. cbn [year month day].
      pose proof (days_in_month_bounds (year d) (S (month d))). lia.
    + split; [|cbn; lia]. apply valid_date_spec. cbn [year month day].
      pose proof (days_in_month_bounds (S (year d)) 1). lia.
Qed.

Lemma add_days_valid (n : nat) : forall d : date,
  valid_date d = true ->
  valid_date (add_days n d) = true
  /\ year d <= year (add_days n d) <= n + year d.
Proof.
  induction n as [|n IH]; intros d Hv; cbn [add_days].
  - split; [exact Hv|lia].
  - destruct (next_day_valid d Hv) as [Hv1 Hy1].
    destruct (IH _ Hv1) as [Hv2 Hy2]. split; [exact Hv2|lia].
Qed.

(** X18.  The dates of scheduler and scraper fit together: when the
    clock shows a valid day from the year 1000 on and the day two days
    later is within the year 9999, every request the run fetches has as
    requested date the text of that later day, a valid calendar day, and
    [_parse_date_for_grid] reads from it the day number and the month
    names of that day, without an error record. *)
Theorem fetched_dates_parse {W W' : Type} (env : Collaborators W)
    (s : State W) (session : Session W') (req : Request) :
  valid_date (dt_date (fst (datetime_now env (st_world s)))) = true ->
  1000 <= year (dt_date (fst (datetime_now env (st_world s)))) ->
  year (target_day env s) <= MAXYEAR ->
  In req (fetched env s) ->
  valid_date (target_day env s) = true
  /\ requested_date req = strftime_Y_m_d (target_day env s)
  /\ _parse_date_for_grid (requested_date req) session
     = (Ok (Some (str_int (Z.of_nat (day (target_day env s)))),
            Some (month_name (month (target_day env s))),
            Some (month_abbrev (month (target_day env s)))),
        session).
Proof.
  intros Hv Hy Hmax Hreq.
  destruct (add_days_valid LEAD_DAYS _ Hv) as [Hv2 Hy2].
  fold (target_day env s) in Hv2, Hy2.
  unfold fetched in Hreq. apply get_requests_for_date_in in Hreq.
  destruct Hreq as [_ [_ Hdate]]. unfold eligible_date in Hdate.
  fold (target_day env s) in Hdate.
  split; [exact Hv2|]. split; [exact Hdate|].
  unfold _parse_date_for_grid. rewrite Hdate.
  rewrite strptime_strftime_Y_m_d by (auto; lia). reflexivity.
Qed.

Lemma fetched_dates_parse_witness :
  valid_date (target_day (Samples.morning_collaborators true)
                Samples.morning) = true
  /\ requested_date
       (mk_request 1 "alice" "chat-a" "2024-12-25" "10:00" (Some "Court 1")
          30 "pending" "2024-12-20T09:30:00" None None)
     = strftime_Y_m_d (target_day (Samples.morning_collaborators true)
                         Samples.morning)
  /\ _parse_date_for_grid
       (requested_date
          (mk_request 1 "alice" "chat-a" "2024-12-25" "10:00"
             (Some "Court 1") 30 "pending" "2024-12-20T09:30:00" None None))
       (mk_session Samples.blank_page true [])
     = (Ok (Some (str_int (Z.of_nat (day (target_day
                    (Samples.morning_collaborators true) Samples.morning)))),
            Some (month_name (month (target_day
                    (Samples.morning_collaborators true) Samples.morning))),
            Some (month_abbrev (month (target_day
                    (Samples.morning_collaborators true) Samples.morning)))),
        mk_session Samples.blank_page true []).
Proof.
  apply (fetched_dates_parse (Samples.morning_collaborators true)
           Samples.morning).
  - reflexivity.
  - vm_compute. lia.
  - vm_compute. lia.
  - vm_compute. left. reflexivity.
Defined.

Lemma re_Y_slash (a b : ascii) (r : string) :
  re_Y (String a (String b (String "/" r))) = [].
Proof.
  destruct r as [|x r]; cbn [re_Y]; [reflexivity|].
  replace (is_digit "/") with false by reflexivity.
  rewrite !andb_false_r, ?andb_false_l. reflexivity.
Qed.

(** X19.  [_convert_date_format] turns the [%Y-%m-%d] text of a valid
    date into its [%m/%d/%Y] text; given that text again it logs an error
    and returns it as it is. *)
Theorem convert_date_format_correct {W : Type} (d : date)
    (s : Session W) :
  valid_date d = true -> 1000 <= year d <= MAXYEAR ->
  _convert_date_format (strftime_Y_m_d d) s = (Ok (strftime_m_d_Y d), s)
  /\ _convert_date_format (strftime_m_d_Y d) s
     = (Ok (strftime_m_d_Y d),
        logged ERROR ("Invalid date format: " ++ strftime_m_d_Y d) s).
Proof.
  intros Hv Hy. split.
  - unfold _convert_date_format.
    rewrite strptime_strftime_Y_m_d by (auto; lia). reflexivity.
  - unfold _convert_date_format, strptime_Y_m_d, re_match_Ymd.
    assert (Hre : re_Y (strftime_m_d_Y d) = []).
    { unfold strftime_m_d_Y. apply valid_date_spec in Hv.
      destruct Hv as [Hm _].
      assert (Hmi : In (month d) (seq 1 12)) by (apply in_seq; lia).
      cbn [seq In] in Hmi.
      repeat (destruct Hmi as [<-|Hmi]); try contradiction;
        match goal with
        | |- re_Y (zfill2 ?k ++ _) = _ =>
            let v := eval vm_compute in (zfill2 k) in
            change (zfill2 k) with v
        end;
        cbn [append]; apply re_Y_slash. }
    rewrite Hre. reflexivity.
Qed.

Lemma convert_date_format_witness :
  _convert_date_format "2024-12-25" (mk_session Samples.blank_page true [])
  = (Ok "12/25/2024", mk_session Samples.blank_page true [])
  /\ _convert_date_format "12/25/2024"
       (mk_session Samples.blank_page true [])
     = (Ok "12/25/2024",
        logged ERROR "Invalid date format: 12/25/2024"
          (mk_session Samples.blank_page true [])).
Proof.
  apply (convert_date_format_correct (mk_date 2024 12 25)
           (mk_session Samples.blank_page true [])).
  - reflexivity.
  - vm_compute. lia.
Defined.






(* ===================================================================== *)
(** * Properties of main.py                                               *)
(* ===================================================================== *)

Section HandlerProps.
Context {W : Type}.
Variable env : Main.Telegram W.


Lemma read_duration_spec (args : list string) (s : Main.Bot W) :
  (nth_error args 2 = None
   /\ Main.read_duration args s
      = (Raise (mk_exn OtherException "list index out of range"), s))
  \/ exists duration court,
       Main.duration_and_court args duration court
       /\ Main.read_duration args s = (Ok (duration, court), s).
Proof.
  unfold Main.read_duration, Main.arg, try_except_of, bind, ret, raise,
    Main.eval, int.
  destruct (nth_error args 2) as [a|] eqn:Ha.
  - right. destruct (int_literal a) as [z|] eqn:Hz.
    + eexists z, _. split; [|reflexivity].
      exists a. split; [exact Ha|]. left. auto.
    + cbn. eexists 90%Z, _. split; [|reflexivity].
      exists a. split; [exact Ha|]. right. auto.
  - left. split; reflexivity.
Qed.




(** X22.  A [/book] with a date and a time only (the usage line calls
    the rest optional) stores nothing: reading the third word raises,
    the handler logs the error and replies with it. *)
Theorem book_command_two_words (cmd : Main.Command) (s : Main.Bot W)
    (w : W) (date_str time_str : string) :
  Main.config_is_configured env (Main.bot_world s) = (Ok true, w) ->
  Main.args cmd = [date_str; time_str] ->
  Main.book_command env cmd s
  = (fst (Main.message_reply_text env Main.index_error_reply w),
     Main.mk_bot (Main.bot_db s)
       (snd (Main.message_reply_text env Main.index_error_reply w))
       (Main.bot_log s
        ++ [(ERROR,
             "Error processing book command: list index out of range")])%list
       (Main.bot_replies s
        ++ [(Main.index_error_reply,
             fst (Main.message_reply_text env Main.index_error_reply w))])%list).
Proof.
  intros Hconf Hargs.
  unfold Main.book_command. unfold bind at 1. unfold Main.is_configured.
  rewrite Hconf, Hargs. cbn [negb List.length Nat.ltb Nat.leb].
  unfold try_except, Main.book_body. rewrite Hargs.
  unfold bind at 1. unfold Main.arg at 1. cbn [nth_error]. unfold ret at 1.
  unfold bind at 1. unfold Main.arg at 1. cbn [nth_error]. unfold ret at 1.
  unfold bind at 1.
  destruct (read_duration_spec [date_str; time_str]
              (Main.mk_bot (Main.bot_db s) w (Main.bot_log s)
                 (Main.bot_replies s)))
    as [[_ Hr]|[duration [court [[a [Ha _]] _]]]]; [|discriminate Ha].
  rewrite Hr. unfold bind, Main.logger, Main.reply_text.
  cbn [Main.bot_db Main.bot_world Main.bot_log Main.bot_replies exn_str].
  change (Main.cross_mark ++ " Error creating booking request: "
          ++ "list index out of range") with Main.index_error_reply.
  change ("Error processing book command: " ++ "list index out of range")
    with "Error processing book command: list index out of range".
  destruct (Main.message_reply_text env Main.index_error_reply w);
    reflexivity.
Qed.






Lemma get_user_requests_in (user : string) (db : DB) (r : Request) :
  In r (get_user_requests user db) <-> In r db /\ user_id r = user.
Proof.
  unfold get_user_requests. split.
  - intros H.
    apply (Permutation_in _
             (Permutation_sym (order_by_created_at_desc_perm _))) in H.
    apply filter_In in H. rewrite String.eqb_eq in H. exact H.
  - intros H. apply (Permutation_in _ (order_by_created_at_desc_perm _)).
    apply filter_In. rewrite String.eqb_eq. exact H.
Qed.

Lemma firstn_le_length {A : Type} (n : nat) (l : list A) :
  List.length (firstn n l) <= n.
Proof. rewrite length_firstn. lia. Qed.

Lemma firstn_In {A : Type} (n : nat) (l : list A) (x : A) :
  In x (firstn n l) -> In x l.
Proof.
  intros H. rewrite <- (firstn_skipn n l). apply in_or_app. left. exact H.
Qed.

Lemma message_parts_length (requests : list Request) :
  List.length (Main.message_parts requests) <= 23.
Proof.
  unfold Main.message_parts. rewrite !length_app.
  assert (H1 : forall (h : string) (f : Request -> string) n l,
            List.length (match l with
                         | [] => []
                         | _ :: _ => h :: map f (firstn n l)
                         end) <= S n).
  { intros h f n l. destruct l; [cbn; lia|].
    cbn [List.length]. rewrite length_map.
    pose proof (firstn_le_length n (r :: l)). lia. }
  pose proof (H1 Main.pending_header Main.pending_line 10
                (Main.with_status "pending" requests)).
  pose proof (H1 Main.completed_header Main.settled_line 5
                (Main.with_status "completed" requests)).
  pose proof (H1 Main.failed_header Main.settled_line 5
                (Main.with_status "failed" requests)).
  lia.
Qed.

Lemma message_parts_lines (requests : list Request) (line : string) :
  In line (Main.message_parts requests) ->
  Main.is_header line
  \/ exists row,
       In row requests
       /\ ((status row = "pending" /\ line = Main.pending_line row)
           \/ ((status row = "completed" \/ status row = "failed")
               /\ line = Main.settled_line row)).
Proof.
  unfold Main.message_parts, Main.is_header. intros H.
  assert (Hblock : forall (h : string) (f : Request -> string) n st,
            In line (match Main.with_status st requests with
                     | [] => []
                     | _ :: _ =>
                         h :: map f (firstn n (Main.with_status st requests))
                     end) ->
            line = h
            \/ exists row, In row requests /\ status row = st
                           /\ line = f row).
  { intros h f n st Hin.
    destruct (Main.with_status st requests) as [|r0 l0] eqn:E;
      [contradiction|].
    destruct Hin as [<-|Hin]; [left; reflexivity|]. right.
    apply in_map_iff in Hin. destruct Hin as [row [<- Hrow]].
    apply firstn_In in Hrow. rewrite <- E in Hrow.
    unfold Main.with_status in Hrow. apply filter_In in Hrow.
    rewrite String.eqb_eq in Hrow. exists row. tauto. }
  apply in_app_or in H. destruct H as [H|H].
  - apply Hblock in H. destruct H as [ -> | [row [Hin [Hst -> ]]]]; [tauto|].
    right. exists row. tauto.
  - apply in_app_or in H. destruct H as [H|H];
      apply Hblock in H; destruct H as [ -> | [row [Hin [Hst -> ]]]];
      try tauto; right; exists row; tauto.
Qed.

Lemma message_parts_none (requests : list Request) :
  (forall row, In row requests ->
     status row <> "pending" /\ status row <> "completed"
     /\ status row <> "failed") ->
  Main.message_parts requests = [].
Proof.
  intros H. unfold Main.message_parts.
  assert (E : forall st,
            st = "pending" \/ st = "completed" \/ st = "failed" ->
            Main.with_status st requests = []).
  { intros st Hst. unfold Main.with_status.
    destruct (filter (fun r => String.eqb (status r) st) requests)
      as [|r l] eqn:Ef; [reflexivity|exfalso].
    assert (Hr : In r (filter (fun r => String.eqb (status r) st) requests))
      by (rewrite Ef; left; reflexivity).
    apply filter_In in Hr. rewrite String.eqb_eq in Hr.
    destruct Hr as [Hin Hs]. destruct (H r Hin) as [H1 [H2 H3]].
    destruct Hst as [ -> | [ -> | -> ] ]; contradiction. }
  rewrite !E by tauto. reflexivity.
Qed.

(** X25.  [/status] changes neither table nor log and sends one reply:
    that the user has no requests when the table holds none of theirs;
    [No requests found.] when all of theirs are cancelled; otherwise at
    most 23 lines, each a header or the line of one of the sender's own
    pending, completed or failed requests. *)
Theorem status_command_lists_own_requests (cmd : Main.Command)
    (s : Main.Bot W) :
  exists text : string,
    Main.status_command env cmd s
    = (fst (Main.message_reply_text env text (Main.bot_world s)),
       Main.mk_bot (Main.bot_db s)
         (snd (Main.message_reply_text env text (Main.bot_world s)))
         (Main.bot_log s)
         (Main.bot_replies s
          ++ [(text,
               fst (Main.message_reply_text env text (Main.bot_world s)))])%list)
    /\ ((forall row, In row (Main.bot_db s) ->
           user_id row <> str_int (Main.effective_user_id cmd)) ->
        text = "You have no booking requests.")
    /\ ((exists row, In row (Main.bot_db s)
                     /\ user_id row = str_int (Main.effective_user_id cmd)) ->
        (forall row, In row (Main.bot_db s) ->
           user_id row = str_int (Main.effective_user_id cmd) ->
           status row = "cancelled") ->
        text = "No requests found.")
    /\ (text = "You have no booking requests."
        \/ text = "No requests found."
        \/ exists parts,
             text = join Main.nl parts
             /\ List.length parts <= 23
             /\ forall line, In line parts ->
                  Main.is_header line
                  \/ Main.is_request_line
                       (str_int (Main.effective_user_id cmd))
                       (Main.bot_db s) line).
Proof.
  unfold Main.status_command, Main.db_get_user_requests. unfold bind.
  set (u := str_int (Main.effective_user_id cmd)).
  destruct (get_user_requests u (Main.bot_db s)) as [|r0 l0] eqn:E.
  - exists "You have no booking requests.". split.
    { unfold Main.reply_text.
      destruct (Main.message_reply_text env _ (Main.bot_world s));
        reflexivity. }
    split; [reflexivity|]. split; [|left; reflexivity].
    intros [row [Hrow Hu]] _. exfalso.
    assert (Hr : In row (get_user_requests u (Main.bot_db s)))
      by (apply get_user_requests_in; tauto).
    rewrite E in Hr. exact Hr.
  - assert (Hsome : In r0 (get_user_requests u (Main.bot_db s)))
      by (rewrite E; left; reflexivity).
    rewrite <- E. clear E.
    set (requests := get_user_requests u (Main.bot_db s)) in *.
    assert (Hin : forall r, In r requests
                            <-> In r (Main.bot_db s) /\ user_id r = u)
      by (intros r; apply get_user_requests_in).
    exists (match Main.message_parts requests with
            | [] => "No requests found."
            | parts => join Main.nl parts
            end).
    split.
    { unfold Main.reply_text.
      destruct (Main.message_reply_text env _ (Main.bot_world s));
        reflexivity. }
    split; [|split].
    + intros Hnone. exfalso. apply Hin in Hsome.
      apply (Hnone r0); tauto.
    + intros _ Hall. rewrite message_parts_none; [reflexivity|].
      intros row Hrow. apply Hin in Hrow. destruct Hrow as [Hdb Hu].
      rewrite (Hall row Hdb Hu). repeat split; discriminate.
    + destruct (Main.message_parts requests) as [|p ps] eqn:Ep;
        [right; left; reflexivity|].
      right. right. exists (p :: ps). split; [reflexivity|].
      rewrite <- Ep. split; [apply message_parts_length|].
      intros line Hline. apply message_parts_lines in Hline.
      destruct Hline as [Hh|[row [Hrow Hcase]]]; [left; exact Hh|].
      right. apply Hin in Hrow. exists row. tauto.
Qed.

End HandlerProps.

Lemma book_command_two_words_witness :
  Main.bot_db
    (snd (Main.book_command (Samples.telegram true)
            (Main.mk_command 7 8 ["2024-12-25"; "10:00"]) Samples.bot))
  = Samples.booked_by_7
  /\ Main.bot_replies
       (snd (Main.book_command (Samples.telegram true)
               (Main.mk_command 7 8 ["2024-12-25"; "10:00"]) Samples.bot))
     = [(Main.index_error_reply, Ok tt)].
Proof.
  rewrite (book_command_two_words (Samples.telegram true)
             (Main.mk_command 7 8 ["2024-12-25"; "10:00"]) Samples.bot tt
             "2024-12-25" "10:00" eq_refl eq_refl).
  split; reflexivity.
Defined.


